(** * Delay analytics views: a shallow embedding of
      [tracker/views_delay_analytics.py] and the properties of its
      aggregation engine.

    Conventions of the embedding.

    - A [datetime] is an integer number of microseconds since the epoch
      (the resolution of Python's [datetime]); a [timedelta] is an integer
      number of microseconds.
    - Python floats are idealised as exact rationals ([Q]): a true division
      [a / b] is the rational quotient, and [round(x, n)] rounds the exact
      value half-to-even.  Results are compared with [==] on [Q].
    - A queryset is the list of the rows it yields.  A model instance
      carries the objects it refers to ([order.delay_reason],
      [delay_reason.category]); reverse relations are read off that graph by
      primary key.
    - What the module imports from elsewhere in the project
      ([CATEGORY_CHOICES], the coercion of an id lookup value, the calendar
      day of a timestamp in the active time zone) is a parameter of the
      section holding the views. *)

From Stdlib Require Import ZArith QArith Qround Qminmax List String Ascii Bool Lia Lqa.
From Stdlib Require Import Permutation Sorted DecimalString.
Import ListNotations.

Local Open Scope string_scope.

(** ** Python primitives *)

Module Py.

(** Truth value of a [str]: the empty string is falsy. *)
Definition truthy (s : string) : bool :=
  match s with
  | EmptyString => false
  | String _ _ => true
  end.

(** [timedelta(days=n)], in microseconds. *)
Definition timedelta_days (n : Z) : Z := (n * 86400000000)%Z.

(** [td.total_seconds()] of a timedelta. *)
Definition total_seconds (td : Z) : Q := td # 1000000.

(** [int / int], Python's true division; callers guard the divisor. *)
Definition truediv (a b : nat) : Q :=
  inject_Z (Z.of_nat a) / inject_Z (Z.of_nat b).

(** [a > b] on numbers. *)
Definition gt (a b : Q) : bool := negb (Qle_bool a b).

(** Nearest integer, ties to the even one. *)
Definition round_half_even (q : Q) : Z :=
  let f := Qfloor q in
  let r := (q - inject_Z f)%Q in
  match (r ?= 1 # 2)%Q with
  | Lt => f
  | Gt => (f + 1)%Z
  | Eq => if Z.even f then f else (f + 1)%Z
  end.

(** [round(x, ndigits)]. *)
Definition round (x : Q) (ndigits : nat) : Q :=
  let scale := Z.pow 10 (Z.of_nat ndigits) in
  (inject_Z (round_half_even (x * inject_Z scale)) / inject_Z scale)%Q.

(** [str(n)] of an [int]. *)
Definition str_int (n : Z) : string := NilZero.string_of_int (Z.to_int n).

(** [f"{x:.1f}"], which is also how [str(round(x, 1))] prints: the value in
    tenths, with a point before the last digit. *)
Definition format_1f (x : Q) : string :=
  let t := round_half_even (x * 10)%Q in
  let body := str_int (Z.abs t / 10)%Z ++ "." ++ str_int (Z.abs t mod 10)%Z in
  if (t <? 0)%Z then "-" ++ body else body.

(** [str(x)] of an optional string, as an f-string renders it. *)
Definition str_opt (x : option string) : string :=
  match x with
  | Some s => s
  | None => "None"
  end.

(** [d.get(k, default)] on a dict given as the list of its items. *)
Fixpoint dict_get {V : Type} (d : list (string * V)) (k : string) (default : V) : V :=
  match d with
  | [] => default
  | (k', v) :: d' => if String.eqb k' k then v else dict_get d' k default
  end.

(** [list.sort] is stable.  [before y x] says that [y] must come strictly
    before [x]; an element is inserted in front of the first element that
    need not precede it, so that equal keys keep their order. *)
Section Sort.
Context {A : Type} (before : A -> A -> bool).

Fixpoint insert (x : A) (l : list A) : list A :=
  match l with
  | [] => [x]
  | y :: l' => if before y x then y :: insert x l' else x :: l
  end.

Definition sort (l : list A) : list A := fold_right insert [] l.
End Sort.

(** [l.sort(key=key)] and [l.sort(key=key, reverse=True)] on integer keys. *)
Definition sort_by_key {A : Type} (key : A -> nat) : list A -> list A :=
  sort (fun y x => Nat.ltb (key y) (key x)).

Definition sort_by_key_reverse {A : Type} (key : A -> nat) : list A -> list A :=
  sort (fun y x => Nat.ltb (key x) (key y)).

End Py.

(** ** The period of a request: [_get_start_date_from_period] *)

(** [now] stands for [timezone.now()], read once. *)
Definition period_map (now : Z) : list (string * option Z) :=
  [ ("7days", Some (now - Py.timedelta_days 7)%Z);
    ("30days", Some (now - Py.timedelta_days 30)%Z);
    ("90days", Some (now - Py.timedelta_days 90)%Z);
    ("6months", Some (now - Py.timedelta_days 180)%Z);
    ("1year", Some (now - Py.timedelta_days 365)%Z);
    ("all", None) ].

Definition _get_start_date_from_period (now : Z) (period : string) : option Z :=
  Py.dict_get (period_map now) period (Some (now - Py.timedelta_days 30)%Z).

(** ** Data model: the rows of [tracker.models] the views read *)

Module DelayReasonCategory.
Record t := {
  id : nat;
  category : string;
  is_active : bool
}.
End DelayReasonCategory.

Module DelayReason.
Record t := {
  id : nat;
  reason_text : string;
  category : option DelayReasonCategory.t
}.
End DelayReason.

Module Invoice.
Record t := {
  total_amount : option Q
}.
End Invoice.

Module Order.
Record t := {
  id : nat;
  branch : option nat;
  type : string;
  status : string;
  customer : option nat;
  started_at : option Z;
  completed_at : option Z;
  created_at : Z;
  exceeded_9_hours : bool;
  delay_reason : option DelayReason.t;
  delay_reason_reported_by : option nat;
  delay_reason_reported_at : option Z;
  invoices : list Invoice.t
}.
End Order.

(** The tables the views query: [Order.objects] and
    [DelayReasonCategory.objects], in the order the store yields their rows. *)
Record DB := {
  Order_objects : list Order.t;
  DelayReasonCategory_objects : list DelayReasonCategory.t
}.

(** ** Query layer: lookups, filters, [distinct], [values().annotate()] *)

Module QS.

Definition isnull {A : Type} (x : option A) : bool :=
  match x with
  | None => true
  | Some _ => false
  end.

Definition notnull {A : Type} (x : option A) : bool := negb (isnull x).

Definition option_eqb {A : Type} (eqb : A -> A -> bool) (x y : option A) : bool :=
  match x, y with
  | Some a, Some b => eqb a b
  | None, None => true
  | _, _ => false
  end.

(** [field=value] on a nullable column: a null column matches nothing. *)
Definition exact {A : Type} (eqb : A -> A -> bool) (x : option A) (v : A) : bool :=
  match x with
  | Some a => eqb a v
  | None => false
  end.

(** [field__gte=d]. *)
Definition gte (x : option Z) (d : Z) : bool :=
  match x with
  | Some t => (d <=? t)%Z
  | None => false
  end.

(** Lookups that follow the foreign keys of an order. *)
Definition delay_reason__id (o : Order.t) : option nat :=
  option_map DelayReason.id (Order.delay_reason o).

Definition delay_reason__reason_text (o : Order.t) : option string :=
  option_map DelayReason.reason_text (Order.delay_reason o).

Definition delay_reason__category (o : Order.t) : option DelayReasonCategory.t :=
  match Order.delay_reason o with
  | Some r => DelayReason.category r
  | None => None
  end.

Definition delay_reason__category__category (o : Order.t) : option string :=
  option_map DelayReasonCategory.category (delay_reason__category o).

(** [delay_reason__category=category]: the foreign key against the primary
    key of the instance. *)
Definition delay_reason__category_is (c : DelayReasonCategory.t) (o : Order.t) : bool :=
  exact Nat.eqb (option_map DelayReasonCategory.id (delay_reason__category o))
        (DelayReasonCategory.id c).

(** Rows kept once per key, the first occurrence of each. *)
Fixpoint dedup_on {A K : Type} (eqb : K -> K -> bool) (key : A -> K)
    (seen : list K) (l : list A) : list A :=
  match l with
  | [] => []
  | x :: l' =>
      if existsb (eqb (key x)) seen then dedup_on eqb key seen l'
      else x :: dedup_on eqb key (key x :: seen) l'
  end.

(** [qs.distinct()] on rows that carry their primary key. *)
Definition distinct {A : Type} (pk : A -> nat) (qs : list A) : list A :=
  dedup_on Nat.eqb pk [] qs.

(** [Count('id', distinct=True)] over the orders of a group. *)
Definition count_distinct_id (qs : list Order.t) : nat :=
  List.length (distinct Order.id qs).

(** [Count('customer', distinct=True)]: null customers are not counted. *)
Definition count_distinct_customer (qs : list Order.t) : nat :=
  List.length (dedup_on Nat.eqb (fun c : nat => c) []
                 (flat_map (fun o => match Order.customer o with
                                | Some c => [c]
                                | None => []
                                end) qs)).

(** [qs.values(key)] grouped: each distinct key, in order of first
    appearance, with the rows that carry it. *)
Definition group_by {K : Type} (eqb : K -> K -> bool) (key : Order.t -> K)
    (qs : list Order.t) : list (K * list Order.t) :=
  map (fun k => (k, filter (fun o => eqb (key o) k) qs))
      (dedup_on eqb (fun k : K => k) [] (map key qs)).

(** [qs.values(key).annotate(count=Count('id', distinct=True))]. *)
Definition values_count {K : Type} (eqb : K -> K -> bool) (key : Order.t -> K)
    (qs : list Order.t) : list (K * nat) :=
  map (fun g => (fst g, count_distinct_id (snd g))) (group_by eqb key qs).

(** [.order_by('-count')] on annotated rows; ties keep the order of the
    rows. *)
Definition order_by_count_desc {K : Type} (rows : list (K * nat)) : list (K * nat) :=
  Py.sort_by_key_reverse snd rows.

(** The rows of [category.reasons.orders]: the orders whose reason belongs
    to the category. *)
Definition reasons__orders (db : DB) (c : DelayReasonCategory.t) : list Order.t :=
  filter (delay_reason__category_is c) (Order_objects db).

(** [categories.filter(reasons__orders__...=...)]: the join yields a
    category once per related order that satisfies the condition. *)
Definition filter_reasons__orders (db : DB) (p : Order.t -> bool)
    (qs : list DelayReasonCategory.t) : list DelayReasonCategory.t :=
  flat_map (fun c => map (fun _ => c) (filter p (reasons__orders db c))) qs.

End QS.

(** Integrity of the store: primary keys are unique, and the category that
    the reason of an order refers to is a row of the category table. *)
Definition wf_db (db : DB) : Prop :=
  NoDup (map Order.id (Order_objects db))
  /\ NoDup (map DelayReasonCategory.id (DelayReasonCategory_objects db))
  /\ forall o c,
       In o (Order_objects db) ->
       QS.delay_reason__category o = Some c ->
       In c (DelayReasonCategory_objects db).

(** ** Responses *)

Module Dashboard.
Record context := {
  time_period : string;
  selected_category : string;
  selected_user : string;
  selected_order_type : string;
  total_delayed_orders : nat;
  delay_rate : Q;
  categories : list (string * string)
}.
End Dashboard.

Module Summary.
Record summary := {
  total_delayed_orders : nat;
  total_all_orders : nat;
  delay_percentage : Q;
  exceeded_2_hours : nat;
  average_hours : Q
}.
End Summary.

Module Breakdown.
(** An entry as the loop over the categories appends it. *)
Record entry := {
  entry_category : string;
  entry_category_name : string;
  entry_count : nat
}.
(** The entry once the last loop has set its ['percentage']. *)
Record item := {
  category : string;
  category_name : string;
  count : nat;
  percentage : Q
}.
Record response := {
  success : bool;
  data : list item;
  total : nat
}.
End Breakdown.

Module Impact.
Record reason_row := {
  delay_reason__reason_text : option string;
  delay_reason__category__category : option string;
  delay_reason__category__get_category_display : option string;
  count : nat;
  affected_customers : nat
}.
Record impact := {
  total_delayed_hours : Q;
  estimated_revenue_impact : Q;
  customers_with_repeat_delays : nat;
  total_unique_customers_affected : nat
}.
Record response := {
  success : bool;
  impact_ : impact;
  reason_impact : list reason_row
}.
End Impact.

Module Recommendation.
Record t := {
  priority : string;
  category : string;
  title : string;
  description : string;
  impact : string
}.
Record response := {
  success : bool;
  recommendations : list t
}.
End Recommendation.

Module AllReasons.
Record row := {
  id : option nat;
  reason_text : option string;
  category : option string;
  category_name : option string;
  count : nat;
  percentage : Q
}.
Record response := {
  success : bool;
  data : list row;
  total : nat;
  message : string
}.
End AllReasons.

(** ** The views *)

Section Views.

(** [DelayReasonCategory.CATEGORY_CHOICES], declared in [models.py]. *)
Variable CATEGORY_CHOICES : list (string * string).

(** The coercion the ORM applies to the value of an [__id] lookup; [None]
    when the value is not a number and the lookup raises [ValueError]. *)
Variable to_pk : string -> option nat.

(** [TruncDate]: the calendar day of a timestamp in the active time zone. *)
Variable TruncDate : Z -> Z.

(** [request.GET.get(key, default)]. *)
Definition GET_get (GET : list (string * string)) (key default : string) : string :=
  Py.dict_get GET key default.

(** [_get_category_display]; called with [None], [dict.get(None, None)]
    gives [None] back. *)
Definition _get_category_display (category_code : string) : string :=
  Py.dict_get CATEGORY_CHOICES category_code category_code.

(** [Order.objects.filter(delay_reason__isnull=False,
    delay_reason_reported_at__isnull=False)]. *)
Definition orders_with_delay_reason (db : DB) : list Order.t :=
  filter (fun o => QS.notnull (Order.delay_reason o)
                   && QS.notnull (Order.delay_reason_reported_at o))
         (Order_objects db).

(** [if user_branch: qs = qs.filter(branch=user_branch)]. *)
Definition filter_branch (user_branch : option nat) (qs : list Order.t) : list Order.t :=
  match user_branch with
  | Some b => filter (fun o => QS.exact Nat.eqb (Order.branch o) b) qs
  | None => qs
  end.

(** [if start_date: qs = qs.filter(delay_reason_reported_at__gte=start_date)]. *)
Definition filter_reported_since (start_date : option Z) (qs : list Order.t) : list Order.t :=
  match start_date with
  | Some d => filter (fun o => QS.gte (Order.delay_reason_reported_at o) d) qs
  | None => qs
  end.

(** [if selected_category:
      qs = qs.filter(delay_reason__category__category=selected_category)]. *)
Definition filter_category (selected_category : string) (qs : list Order.t) : list Order.t :=
  if Py.truthy selected_category
  then filter (fun o => QS.exact String.eqb (QS.delay_reason__category__category o)
                                 selected_category) qs
  else qs.

(** [if selected_user:
      qs = qs.filter(delay_reason_reported_by__id=selected_user)];
    [None] when the lookup raises. *)
Definition filter_user (selected_user : string) (qs : list Order.t) : option (list Order.t) :=
  if Py.truthy selected_user
  then match to_pk selected_user with
       | Some uid =>
           Some (filter (fun o => QS.exact Nat.eqb (Order.delay_reason_reported_by o) uid) qs)
       | None => None
       end
  else Some qs.

(** [if selected_order_type: qs = qs.filter(type=selected_order_type)]. *)
Definition filter_order_type (selected_order_type : string) (qs : list Order.t) : list Order.t :=
  if Py.truthy selected_order_type
  then filter (fun o => String.eqb (Order.type o) selected_order_type) qs
  else qs.

(** The delayed-orders view under all five filters, the chain that
    [delay_analytics_dashboard], [api_delay_analytics_summary] and
    [api_all_delay_reasons] each build. *)
Definition filtered_delayed_orders (db : DB) (user_branch : option nat)
    (start_date : option Z) (selected_category selected_user selected_order_type : string)
    : option (list Order.t) :=
  let orders_qs := orders_with_delay_reason db in
  let orders_qs := filter_branch user_branch orders_qs in
  let orders_qs := filter_reported_since start_date orders_qs in
  let orders_qs := filter_category selected_category orders_qs in
  match filter_user selected_user orders_qs with
  | Some orders_qs => Some (filter_order_type selected_order_type orders_qs)
  | None => None
  end.

(** The delayed-orders view of [api_delay_impact_analysis] and
    [api_delay_recommendations]: scope and period only. *)
Definition scoped_delayed_orders (db : DB) (user_branch : option nat)
    (start_date : option Z) : list Order.t :=
  filter_reported_since start_date (filter_branch user_branch (orders_with_delay_reason db)).

(** *** [delay_analytics_dashboard] *)

(** [Order.objects.filter(branch=user_branch, status='completed',
    delay_reason_reported_at__isnull=False)], then the period.  The branch
    lookup is not guarded here: with [user_branch] null it reads
    [branch IS NULL]. *)
Definition dashboard_total_orders (db : DB) (user_branch : option nat)
    (start_date : option Z) : list Order.t :=
  let total_orders :=
    filter (fun o => match user_branch with
                     | Some b => QS.exact Nat.eqb (Order.branch o) b
                     | None => QS.isnull (Order.branch o)
                     end
                     && String.eqb (Order.status o) "completed"
                     && QS.notnull (Order.delay_reason_reported_at o))
           (Order_objects db) in
  filter_reported_since start_date total_orders.

(** The template context, without its ['users'] and ['order_types'] entries
    (the [User] table and [Order.TYPE_CHOICES] are not read by any
    computation below). *)
Definition delay_analytics_dashboard (db : DB) (now : Z) (user_branch : option nat)
    (GET : list (string * string)) : option Dashboard.context :=
  let time_period := GET_get GET "period" "30days" in
  let start_date := _get_start_date_from_period now time_period in
  let selected_category := GET_get GET "category" "" in
  let selected_user := GET_get GET "user" "" in
  let selected_order_type := GET_get GET "order_type" "" in
  match filtered_delayed_orders db user_branch start_date
          selected_category selected_user selected_order_type with
  | None => None
  | Some orders_qs =>
      let total_delayed_orders := List.length orders_qs in
      let total_orders := dashboard_total_orders db user_branch start_date in
      let delay_rate :=
        if Nat.ltb 0 (List.length total_orders)
        then (Py.truediv total_delayed_orders (List.length total_orders) * 100)%Q
        else 0%Q in
      let categories :=
        map (fun c => (DelayReasonCategory.category c, DelayReasonCategory.category c))
            (filter DelayReasonCategory.is_active (DelayReasonCategory_objects db)) in
      Some {| Dashboard.time_period := time_period;
              Dashboard.selected_category := selected_category;
              Dashboard.selected_user := selected_user;
              Dashboard.selected_order_type := selected_order_type;
              Dashboard.total_delayed_orders := total_delayed_orders;
              Dashboard.delay_rate := Py.round delay_rate 2;
              Dashboard.categories := categories |}
  end.

(** *** [api_delay_analytics_summary] *)

(** The baseline of the summary: [Order.objects.filter(branch=user_branch)]
    or [Order.objects.all()], then [created_at__gte=start_date]. *)
Definition summary_total_all_orders (db : DB) (user_branch : option nat)
    (start_date : option Z) : list Order.t :=
  let total_all_orders := filter_branch user_branch (Order_objects db) in
  match start_date with
  | Some d => filter (fun o => (d <=? Order.created_at o)%Z) total_all_orders
  | None => total_all_orders
  end.

(** One turn of the loop that sums the durations, on the state
    [(total_duration, count)]. *)
Definition summary_duration_step (st : Q * nat) (order : Order.t) : Q * nat :=
  match Order.completed_at order, Order.started_at order with
  | Some completed_at, Some started_at =>
      let duration := (Py.total_seconds (completed_at - started_at) / 3600)%Q in
      ((fst st + duration)%Q, S (snd st))
  | _, _ => st
  end.

(** The ['summary'] object of the response; its ['top_reasons'] list, which
    is built from [DelayReason.objects], is left out. *)
Definition api_delay_analytics_summary (db : DB) (now : Z) (user_branch : option nat)
    (GET : list (string * string)) : option Summary.summary :=
  let time_period := GET_get GET "period" "30days" in
  let selected_category := GET_get GET "category" "" in
  let selected_user := GET_get GET "user" "" in
  let selected_order_type := GET_get GET "order_type" "" in
  let start_date := _get_start_date_from_period now time_period in
  match filtered_delayed_orders db user_branch start_date
          selected_category selected_user selected_order_type with
  | None => None
  | Some orders_with_delays =>
      let total_delayed := List.length (QS.distinct Order.id orders_with_delays) in
      let total_all := List.length (summary_total_all_orders db user_branch start_date) in
      let delay_percentage :=
        if Nat.ltb 0 total_all
        then (Py.truediv total_delayed total_all * 100)%Q
        else 0%Q in
      let exceeded_2_hours_count :=
        List.length (QS.distinct Order.id (filter Order.exceeded_9_hours orders_with_delays)) in
      let delayed_orders_with_times :=
        QS.distinct Order.id
          (filter (fun o => QS.notnull (Order.started_at o)
                            && QS.notnull (Order.completed_at o))
                  orders_with_delays) in
      let '(total_duration, count) :=
        fold_left summary_duration_step (firstn 1000 delayed_orders_with_times) (0%Q, 0%nat) in
      let avg_hours :=
        if Nat.ltb 0 count
        then (total_duration / inject_Z (Z.of_nat count))%Q
        else 0%Q in
      Some {| Summary.total_delayed_orders := total_delayed;
              Summary.total_all_orders := total_all;
              Summary.delay_percentage := Py.round delay_percentage 2;
              Summary.exceeded_2_hours := exceeded_2_hours_count;
              Summary.average_hours := Py.round avg_hours 1 |}
  end.

(** *** [api_delay_reasons_breakdown] *)

(** The queryset of categories, filtered through the orders of their
    reasons; each [filter] call across the relation joins it anew. *)
Definition breakdown_categories_qs (db : DB) (user_branch : option nat)
    (start_date : option Z) (selected_category selected_user selected_order_type : string)
    : option (list DelayReasonCategory.t) :=
  let categories_qs :=
    QS.filter_reasons__orders db
      (fun o => QS.notnull (Order.delay_reason_reported_at o))
      (DelayReasonCategory_objects db) in
  let categories_qs :=
    match user_branch with
    | Some b =>
        QS.filter_reasons__orders db (fun o => QS.exact Nat.eqb (Order.branch o) b)
          categories_qs
    | None => categories_qs
    end in
  let categories_qs :=
    match start_date with
    | Some d =>
        QS.filter_reasons__orders db
          (fun o => QS.gte (Order.delay_reason_reported_at o) d) categories_qs
    | None => categories_qs
    end in
  let categories_qs :=
    if Py.truthy selected_category
    then filter (fun c => String.eqb (DelayReasonCategory.category c) selected_category)
                categories_qs
    else categories_qs in
  match (if Py.truthy selected_user
         then match to_pk selected_user with
              | Some uid =>
                  Some (QS.filter_reasons__orders db
                          (fun o => QS.exact Nat.eqb (Order.delay_reason_reported_by o) uid)
                          categories_qs)
              | None => None
              end
         else Some categories_qs) with
  | None => None
  | Some categories_qs =>
      Some (if Py.truthy selected_order_type
            then QS.filter_reasons__orders db
                   (fun o => String.eqb (Order.type o) selected_order_type) categories_qs
            else categories_qs)
  end.

(** The orders counted for one category: the loop body's [orders_count]. *)
Definition breakdown_orders_count (db : DB) (user_branch : option nat)
    (start_date : option Z) (selected_user selected_order_type : string)
    (category : DelayReasonCategory.t) : option (list Order.t) :=
  let orders_count :=
    filter (fun o => QS.delay_reason__category_is category o
                     && QS.notnull (Order.delay_reason_reported_at o))
           (Order_objects db) in
  let orders_count := filter_branch user_branch orders_count in
  let orders_count := filter_reported_since start_date orders_count in
  match filter_user selected_user orders_count with
  | Some orders_count => Some (filter_order_type selected_order_type orders_count)
  | None => None
  end.

(** One turn of the loop over the categories; [None] once a lookup raised. *)
Definition breakdown_step (db : DB) (user_branch : option nat)
    (start_date : option Z) (selected_user selected_order_type : string)
    (data : option (list Breakdown.entry)) (category : DelayReasonCategory.t)
    : option (list Breakdown.entry) :=
  match data with
  | None => None
  | Some data =>
      match breakdown_orders_count db user_branch start_date
              selected_user selected_order_type category with
      | None => None
      | Some orders_count =>
          let count := List.length (QS.distinct Order.id orders_count) in
          if Nat.ltb 0 count
          then Some (data ++
                 [ {| Breakdown.entry_category := DelayReasonCategory.category category;
                      Breakdown.entry_category_name :=
                        _get_category_display (DelayReasonCategory.category category);
                      Breakdown.entry_count := count |} ])%list
          else Some data
      end
  end.

Definition api_delay_reasons_breakdown (db : DB) (now : Z) (user_branch : option nat)
    (GET : list (string * string)) : option Breakdown.response :=
  let time_period := GET_get GET "period" "30days" in
  let start_date := _get_start_date_from_period now time_period in
  let selected_category := GET_get GET "category" "" in
  let selected_user := GET_get GET "user" "" in
  let selected_order_type := GET_get GET "order_type" "" in
  match breakdown_categories_qs db user_branch start_date
          selected_category selected_user selected_order_type with
  | None => None
  | Some categories_qs =>
      match fold_left
              (breakdown_step db user_branch start_date selected_user selected_order_type)
              (QS.distinct DelayReasonCategory.id categories_qs) (Some []) with
      | None => None
      | Some data =>
          let data := Py.sort_by_key_reverse Breakdown.entry_count data in
          let total := list_sum (map Breakdown.entry_count data) in
          let data :=
            map (fun item =>
                   {| Breakdown.category := Breakdown.entry_category item;
                      Breakdown.category_name := Breakdown.entry_category_name item;
                      Breakdown.count := Breakdown.entry_count item;
                      Breakdown.percentage :=
                        if Nat.ltb 0 total
                        then Py.round (Py.truediv (Breakdown.entry_count item) total * 100) 1
                        else 0%Q |})
                data in
          Some {| Breakdown.success := true;
                  Breakdown.data := data;
                  Breakdown.total := total |}
      end
  end.

(** *** [api_delay_impact_analysis] *)

(** One turn of the loop over the timed orders, on the state
    [(total_delayed_hours, total_revenue_at_risk)]. *)
Definition impact_step (st : Q * Q) (order : Order.t) : Q * Q :=
  match Order.completed_at order, Order.started_at order with
  | Some completed_at, Some started_at =>
      let duration := (Py.total_seconds (completed_at - started_at) / 3600)%Q in
      let total_delayed_hours :=
        if Py.gt duration 9 then (fst st + (duration - 9))%Q else fst st in
      let total_revenue_at_risk :=
        fold_left (fun acc invoice =>
                     match Invoice.total_amount invoice with
                     | Some amount =>
                         if Qeq_bool amount 0 then acc else (acc + amount)%Q
                     | None => acc
                     end)
                  (Order.invoices order) (snd st) in
      (total_delayed_hours, total_revenue_at_risk)
  | _, _ => st
  end.

(** The loop itself, over
    [orders_qs.filter(started_at__isnull=False, completed_at__isnull=False)]. *)
Definition impact_totals (orders_qs : list Order.t) : Q * Q :=
  fold_left impact_step
    (filter (fun o => QS.notnull (Order.started_at o) && QS.notnull (Order.completed_at o))
            orders_qs)
    (0%Q, 0%Q).

Definition reason_key_eqb (a b : option string * option string) : bool :=
  QS.option_eqb String.eqb (fst a) (fst b) && QS.option_eqb String.eqb (snd a) (snd b).

Definition api_delay_impact_analysis (db : DB) (now : Z) (user_branch : option nat)
    (GET : list (string * string)) : Impact.response :=
  let time_period := GET_get GET "period" "30days" in
  let start_date := _get_start_date_from_period now time_period in
  let orders_qs := scoped_delayed_orders db user_branch start_date in
  let '(total_delayed_hours, total_revenue_at_risk) := impact_totals orders_qs in
  let customers_with_delays :=
    List.length
      (filter (fun row => Nat.leb 2 (snd row))
              (QS.values_count (QS.option_eqb Nat.eqb) Order.customer orders_qs)) in
  let reason_impact_raw :=
    firstn 5
      (Py.sort_by_key_reverse (fun g => QS.count_distinct_id (snd g))
         (QS.group_by reason_key_eqb
            (fun o => (QS.delay_reason__reason_text o, QS.delay_reason__category__category o))
            orders_qs)) in
  let reason_impact :=
    map (fun g =>
           {| Impact.delay_reason__reason_text := fst (fst g);
              Impact.delay_reason__category__category := snd (fst g);
              Impact.delay_reason__category__get_category_display :=
                option_map _get_category_display (snd (fst g));
              Impact.count := QS.count_distinct_id (snd g);
              Impact.affected_customers := QS.count_distinct_customer (snd g) |})
        reason_impact_raw in
  {| Impact.success := true;
     Impact.impact_ :=
       {| Impact.total_delayed_hours := Py.round total_delayed_hours 1;
          Impact.estimated_revenue_impact := total_revenue_at_risk;
          Impact.customers_with_repeat_delays := customers_with_delays;
          Impact.total_unique_customers_affected :=
            List.length (QS.dedup_on (QS.option_eqb Nat.eqb) (fun c : option nat => c) []
                           (map Order.customer orders_qs)) |};
     Impact.reason_impact := reason_impact |}.

(** *** [api_delay_recommendations] *)

(** [priority_order.get(priority, 3)]. *)
Definition priority_order : list (string * nat) :=
  [ ("high", 0%nat); ("medium", 1%nat); ("low", 2%nat) ].

Definition priority_rank (x : Recommendation.t) : nat :=
  Py.dict_get priority_order (Recommendation.priority x) 3%nat.

(** Analysis 1: most common category. *)
Definition recommend_top_category (orders_qs : list Order.t) : list Recommendation.t :=
  let category_counts :=
    QS.order_by_count_desc
      (QS.values_count (QS.option_eqb String.eqb) QS.delay_reason__category__category
         orders_qs) in
  match category_counts with
  | [] => []
  | top_cat :: _ =>
      if Py.gt (inject_Z (Z.of_nat (snd top_cat)))
               (inject_Z (Z.of_nat (List.length orders_qs)) * (3 # 10))
      then
        let category_display := Py.str_opt (option_map _get_category_display (fst top_cat)) in
        [ {| Recommendation.priority := "high";
             Recommendation.category := "Process Improvement";
             Recommendation.title := "Address " ++ category_display ++ " Issues";
             Recommendation.description :=
               category_display ++ " accounts for "
               ++ Py.format_1f (Py.round (Py.truediv (snd top_cat) (List.length orders_qs) * 100) 1)
               ++ "% of delays. Consider process improvements or resource allocation.";
             Recommendation.impact := "high" |} ]
      else []
  end.

(** Analysis 2: orders exceeding the duration threshold. *)
Definition recommend_exceeded (orders_qs : list Order.t) : list Recommendation.t :=
  let exceeded_count := List.length (filter Order.exceeded_9_hours orders_qs) in
  if Nat.ltb 0 exceeded_count && Nat.ltb 0 (List.length orders_qs)
  then
    let pct := (Py.truediv exceeded_count (List.length orders_qs) * 100)%Q in
    let priority := if Py.gt pct 20 then "high" else "medium" in
    [ {| Recommendation.priority := priority;
         Recommendation.category := "Urgent";
         Recommendation.title := Py.format_1f pct ++ "% of Delays Exceed 2 Hours";
         Recommendation.description :=
           Py.str_int (Z.of_nat exceeded_count)
           ++ " orders exceeded 2 hours. Implement preventive measures to reduce critical delays.";
         Recommendation.impact := "critical" |} ]
  else [].

(** Analysis 3: specific problematic reasons. *)
Definition recommend_top_reasons (orders_qs : list Order.t) : list Recommendation.t :=
  let top_reasons :=
    firstn 3
      (QS.order_by_count_desc
         (QS.values_count (QS.option_eqb String.eqb) QS.delay_reason__reason_text orders_qs)) in
  map (fun reason =>
         {| Recommendation.priority := "medium";
            Recommendation.category := "Root Cause Analysis";
            Recommendation.title := "Investigate: " ++ Py.str_opt (fst reason);
            Recommendation.description :=
              "This reason accounts for " ++ Py.str_int (Z.of_nat (snd reason))
              ++ " delay incidents. Consider root cause analysis and preventive actions.";
            Recommendation.impact := "medium" |})
      top_reasons.

(** [.order_by('-date')]: the rows of a delayed view all carry a date. *)
Definition date_after (y x : option Z * nat) : bool :=
  match fst y, fst x with
  | Some a, Some b => (b <? a)%Z
  | _, _ => false
  end.

(** Analysis 4: delay rate trend. *)
Definition recommend_trend (orders_qs : list Order.t) : list Recommendation.t :=
  let daily_rates :=
    firstn 7
      (Py.sort date_after
         (QS.values_count (QS.option_eqb Z.eqb)
            (fun o => option_map TruncDate (Order.delay_reason_reported_at o))
            orders_qs)) in
  match daily_rates with
  | [] => []
  | _ :: _ =>
      let recent_avg := Py.truediv (list_sum (map snd daily_rates)) (List.length daily_rates) in
      if Py.gt recent_avg 2
      then
        [ {| Recommendation.priority := "high";
             Recommendation.category := "Trend";
             Recommendation.title := "Increasing Delay Incidents";
             Recommendation.description :=
               "Recent average of " ++ Py.format_1f recent_avg
               ++ " delays per day. Escalating trend detected. Immediate action recommended.";
             Recommendation.impact := "high" |} ]
      else []
  end.

(** The recommendations in the order the four analyses append them. *)
Definition emitted_recommendations (orders_qs : list Order.t) : list Recommendation.t :=
  (recommend_top_category orders_qs ++ recommend_exceeded orders_qs
   ++ recommend_top_reasons orders_qs ++ recommend_trend orders_qs)%list.

Definition api_delay_recommendations (db : DB) (now : Z) (user_branch : option nat)
    (GET : list (string * string)) : Recommendation.response :=
  let time_period := GET_get GET "period" "30days" in
  let start_date := _get_start_date_from_period now time_period in
  let orders_qs := scoped_delayed_orders db user_branch start_date in
  let recommendations := emitted_recommendations orders_qs in
  let recommendations := Py.sort_by_key priority_rank recommendations in
  {| Recommendation.success := true;
     Recommendation.recommendations := firstn 8 recommendations |}.

(** *** [api_all_delay_reasons] *)

Definition all_reasons_key (o : Order.t) : option nat * option string * option string :=
  (QS.delay_reason__id o, QS.delay_reason__reason_text o, QS.delay_reason__category__category o).

Definition all_reasons_key_eqb (a b : option nat * option string * option string) : bool :=
  QS.option_eqb Nat.eqb (fst (fst a)) (fst (fst b))
  && QS.option_eqb String.eqb (snd (fst a)) (snd (fst b))
  && QS.option_eqb String.eqb (snd a) (snd b).

Definition api_all_delay_reasons (db : DB) (now : Z) (user_branch : option nat)
    (GET : list (string * string)) : option AllReasons.response :=
  let time_period := GET_get GET "period" "30days" in
  let selected_category := GET_get GET "category" "" in
  let selected_user := GET_get GET "user" "" in
  let selected_order_type := GET_get GET "order_type" "" in
  let start_date := _get_start_date_from_period now time_period in
  match filtered_delayed_orders db user_branch start_date
          selected_category selected_user selected_order_type with
  | None => None
  | Some orders_qs =>
      let total_delayed := List.length orders_qs in
      if Nat.eqb total_delayed 0
      then Some {| AllReasons.success := true;
                   AllReasons.data := [];
                   AllReasons.total := 0;
                   AllReasons.message := "No delay reasons submitted in the selected period." |}
      else
        let all_reasons :=
          QS.order_by_count_desc (QS.values_count all_reasons_key_eqb all_reasons_key orders_qs) in
        let data :=
          map (fun item =>
                 {| AllReasons.id := fst (fst (fst item));
                    AllReasons.reason_text := snd (fst (fst item));
                    AllReasons.category := snd (fst item);
                    AllReasons.category_name := option_map _get_category_display (snd (fst item));
                    AllReasons.count := snd item;
                    AllReasons.percentage :=
                      Py.round (inject_Z (Z.of_nat (snd item)) * 100
                                / inject_Z (Z.of_nat total_delayed)) 1 |})
              all_reasons in
        Some {| AllReasons.success := true;
                AllReasons.data := data;
                AllReasons.total := total_delayed;
                AllReasons.message :=
                  "Showing " ++ Py.str_int (Z.of_nat (List.length data))
                  ++ " unique delay reasons from " ++ Py.str_int (Z.of_nat total_delayed)
                  ++ " submitted." |}
  end.

End Views.

(** ** Sample rows, for the concrete checks below *)

Module Sample.

Definition day : Z := 86400000000%Z.
Definition hour : Z := 3600000000%Z.

(** The instant taken for [timezone.now()]: day 100 of the epoch. *)
Definition now : Z := (100 * day)%Z.

Definition CATEGORY_CHOICES : list (string * string) :=
  [ ("mechanical", "Mechanical"); ("logistics", "Logistics");
    ("staffing", "Staffing"); ("parts", "Parts") ].

(** A coercion that accepts the ids written with one decimal digit. *)
Definition to_pk (s : string) : option nat :=
  Py.dict_get
    [ ("0", Some 0%nat); ("1", Some 1%nat); ("2", Some 2%nat); ("3", Some 3%nat);
      ("4", Some 4%nat); ("5", Some 5%nat); ("6", Some 6%nat); ("7", Some 7%nat);
      ("8", Some 8%nat); ("9", Some 9%nat) ] s None.

(** Calendar days in UTC. *)
Definition TruncDate (t : Z) : Z := (t / day)%Z.

Definition mechanical : DelayReasonCategory.t :=
  {| DelayReasonCategory.id := 1;
     DelayReasonCategory.category := "mechanical";
     DelayReasonCategory.is_active := true |}.

Definition logistics : DelayReasonCategory.t :=
  {| DelayReasonCategory.id := 2;
     DelayReasonCategory.category := "logistics";
     DelayReasonCategory.is_active := true |}.

Definition staffing : DelayReasonCategory.t :=
  {| DelayReasonCategory.id := 3;
     DelayReasonCategory.category := "staffing";
     DelayReasonCategory.is_active := true |}.

Definition parts : DelayReasonCategory.t :=
  {| DelayReasonCategory.id := 4;
     DelayReasonCategory.category := "parts";
     DelayReasonCategory.is_active := true |}.

Definition broken_part : DelayReason.t :=
  {| DelayReason.id := 1;
     DelayReason.reason_text := "Broken part";
     DelayReason.category := Some mechanical |}.

Definition late_truck : DelayReason.t :=
  {| DelayReason.id := 2;
     DelayReason.reason_text := "Late truck";
     DelayReason.category := Some logistics |}.

Definition nobody_free : DelayReason.t :=
  {| DelayReason.id := 4;
     DelayReason.reason_text := "Nobody free";
     DelayReason.category := Some staffing |}.

Definition part_on_order : DelayReason.t :=
  {| DelayReason.id := 5;
     DelayReason.reason_text := "Part on order";
     DelayReason.category := Some parts |}.

Definition uncategorised : DelayReason.t :=
  {| DelayReason.id := 3;
     DelayReason.reason_text := "Other";
     DelayReason.category := None |}.

(** An order of branch 1 with no delay report, created at [created]. *)
Definition plain_order (id : nat) (created : Z) : Order.t :=
  {| Order.id := id;
     Order.branch := Some 1%nat;
     Order.type := "service";
     Order.status := "in_progress";
     Order.customer := Some id;
     Order.started_at := None;
     Order.completed_at := None;
     Order.created_at := created;
     Order.exceeded_9_hours := false;
     Order.delay_reason := None;
     Order.delay_reason_reported_by := None;
     Order.delay_reason_reported_at := None;
     Order.invoices := [] |}.

(** A delayed order of branch 1: created at [created], its delay reported
    at [reported]. *)
Definition delayed_order (id : nat) (reason : DelayReason.t) (created reported : Z) : Order.t :=
  {| Order.id := id;
     Order.branch := Some 1%nat;
     Order.type := "service";
     Order.status := "completed";
     Order.customer := Some id;
     Order.started_at := None;
     Order.completed_at := None;
     Order.created_at := created;
     Order.exceeded_9_hours := false;
     Order.delay_reason := Some reason;
     Order.delay_reason_reported_by := None;
     Order.delay_reason_reported_at := Some reported;
     Order.invoices := [] |}.


Definition categories : list DelayReasonCategory.t :=
  [ mechanical; logistics; staffing; parts ].

(** [n] delayed orders with ids [first], [first + 1], ..., all with the same
    reason, created on day 98 and reported on day 99. *)
Definition delayed_batch (first n : nat) (reason : DelayReason.t) : list Order.t :=
  map (fun id => delayed_order id reason (98 * day) (99 * day)) (seq first n).

Definition empty_db : DB :=
  {| Order_objects := []; DelayReasonCategory_objects := categories |}.

(** Scenario A: ten delayed orders, three mechanical and seven logistics. *)
Definition scenario_A : DB :=
  {| Order_objects := (delayed_batch 1 3 broken_part ++ delayed_batch 4 7 late_truck)%list;
     DelayReasonCategory_objects := categories |}.


(** Scenario D: twenty delayed orders, seven of them mechanical, five
    logistics, four staffing and four parts. *)
Definition scenario_D : DB :=
  {| Order_objects :=
       (delayed_batch 1 7 broken_part ++ delayed_batch 8 5 late_truck
        ++ delayed_batch 13 4 nobody_free ++ delayed_batch 17 4 part_on_order)%list;
     DelayReasonCategory_objects := categories |}.

(** One order with no delay, and two delayed orders that were created before
    the 30-day window opened and reported inside it. *)
Definition late_reports : DB :=
  {| Order_objects :=
       [ plain_order 1 (99 * day);
         delayed_order 2 broken_part (40 * day) (99 * day);
         delayed_order 3 broken_part (40 * day) (99 * day) ];
     DelayReasonCategory_objects := categories |}.


(** Five delayed orders whose reason has no category, four mechanical. *)
Definition mostly_uncategorised : DB :=
  {| Order_objects := (delayed_batch 1 5 uncategorised ++ delayed_batch 6 4 broken_part)%list;
     DelayReasonCategory_objects := categories |}.

End Sample.

(** ** The measures the specification names

    These follow the words of the specification, not the code; the
    theorems below compare the views with them. *)

Module Spec.

(** [sum] of a list of numbers. *)
Definition Qsum (l : list Q) : Q := fold_right Qplus 0%Q l.

(** "completion_hours = (completed_at - started_at) in hours", for an order
    that has both timestamps. *)
Definition completion_hours (o : Order.t) : option Q :=
  match Order.started_at o, Order.completed_at o with
  | Some started_at, Some completed_at =>
      Some (inject_Z (completed_at - started_at) / inject_Z 3600000000)%Q
  | _, _ => None
  end.

(** "max(0, completion_hours - 9)". *)
Definition delayed_hours (o : Order.t) : Q :=
  match completion_hours o with
  | Some h => Qmax 0 (h - 9)
  | None => 0%Q
  end.

(** "sum over delayed orders with both start and completion timestamps". *)
Definition total_delayed_hours (orders : list Order.t) : Q :=
  Qsum (map delayed_hours
          (filter (fun o => match completion_hours o with
                            | Some _ => true
                            | None => false
                            end) orders)).


(** The narrowing conditions of the delayed-orders view, one per filter:
    "scope (if set), delay-report timestamp >= start-timestamp (if set),
    reason-category = filter category (if set), delay-reporter = filter
    user (if set), order type = filter type (if set)". *)
Definition in_scope (scope : option nat) (o : Order.t) : bool :=
  match scope with
  | Some b => QS.exact Nat.eqb (Order.branch o) b
  | None => true
  end.

Definition reported_since (start_date : option Z) (o : Order.t) : bool :=
  match start_date with
  | Some d => QS.gte (Order.delay_reason_reported_at o) d
  | None => true
  end.

Definition has_category (category : string) (o : Order.t) : bool :=
  if Py.truthy category
  then QS.exact String.eqb (QS.delay_reason__category__category o) category
  else true.

(** The reporter filter, with the identifier [user] stands for ([None] when
    [user] is not an identifier). *)
Definition reported_by (user : string) (user_id : option nat) (o : Order.t) : bool :=
  if Py.truthy user
  then match user_id with
       | Some uid => QS.exact Nat.eqb (Order.delay_reason_reported_by o) uid
       | None => false
       end
  else true.

Definition has_type (order_type : string) (o : Order.t) : bool :=
  if Py.truthy order_type then String.eqb (Order.type o) order_type else true.

End Spec.

(** ** The remaining endpoints: trends, order types, reporters *)

Module PyStr.

(** [c.isspace()] for a character of code below 256: the ASCII
    whitespace, the separators [\x1c]-[\x1f], [\x85] and [\xa0]. *)
Definition isspace (c : ascii) : bool :=
  let n := nat_of_ascii c in
  (Nat.leb 9 n && Nat.leb n 13) || (Nat.leb 28 n && Nat.leb n 32)
  || Nat.eqb n 133 || Nat.eqb n 160.

Fixpoint lstrip (s : string) : string :=
  match s with
  | EmptyString => EmptyString
  | String c s' => if isspace c then lstrip s' else s
  end.

Fixpoint rstrip (s : string) : string :=
  match s with
  | EmptyString => EmptyString
  | String c s' =>
      match rstrip s' with
      | EmptyString => if isspace c then EmptyString else String c EmptyString
      | r => String c r
      end
  end.

(** [s.strip()]. *)
Definition strip (s : string) : string := rstrip (lstrip s).

(** [x or ''] on an optional string. *)
Definition or_empty (x : option string) : string :=
  match x with
  | Some s => s
  | None => ""
  end.

(** [{k: v for (k, v) in items}.get(key, default)]: a later item with the
    same key replaces an earlier one. *)
Definition dict_of_get {K V : Type} (eqb : K -> K -> bool) (items : list (K * V))
    (key : K) (default : V) : V :=
  fold_left (fun found item => if eqb (fst item) key then snd item else found)
            items default.

End PyStr.

Module User.
Record t := {
  id : nat;
  first_name : string;
  last_name : string;
  username : string
}.
End User.

Module Trends.
Record row := {
  date : string;
  delayed_count : nat;
  exceeded_9h : nat;
  total_orders : nat;
  delay_rate : Q
}.
Record response := {
  success : bool;
  data : list row
}.
End Trends.

Module ByType.
Record row := {
  type : string;
  type_name : string;
  count : nat;
  percentage : Q
}.
Record response := {
  success : bool;
  data : list row
}.
End ByType.

Module ByUser.
Record row := {
  user_id : option nat;
  user_name : string;
  delay_count : nat;
  exceeded_2h_count : nat
}.
Record response := {
  success : bool;
  data : list row
}.
End ByUser.

Section MoreViews.

(** The coercion of an [__id] lookup value, as for the other views. *)
Variable to_pk : string -> option nat.

(** [TruncDate], the calendar day of a timestamp. *)
Variable TruncDate : Z -> Z.

(** [date.strftime('%Y-%m-%d')] of a calendar day. *)
Variable strftime : Z -> string.

(** [Order.TYPE_CHOICES], declared in [models.py]. *)
Variable TYPE_CHOICES : list (string * string).

(** *** [api_delay_trends] *)

(** A day's row of an annotated queryset, before it is rendered: the day
    and the two counts. *)
Definition daily_counts (orders_qs : list Order.t) : list (option Z * (nat * nat)) :=
  map (fun g => (fst g,
                 (QS.count_distinct_id (snd g),
                  QS.count_distinct_id (filter Order.exceeded_9_hours (snd g)))))
      (QS.group_by (QS.option_eqb Z.eqb)
         (fun o => option_map TruncDate (Order.delay_reason_reported_at o)) orders_qs).

(** [.order_by('date')]; the rows compared all carry a date. *)
Definition date_before {V : Type} (y x : option Z * V) : bool :=
  match fst y, fst x with
  | Some a, Some b => (a <? b)%Z
  | _, _ => false
  end.

(** The completed orders in scope, completed in the period. *)
Definition trends_all_orders_daily (db : DB) (user_branch : option nat)
    (start_date : option Z) : list Order.t :=
  let all_orders_daily :=
    match user_branch with
    | Some b =>
        filter (fun o => QS.exact Nat.eqb (Order.branch o) b
                         && String.eqb (Order.status o) "completed")
               (Order_objects db)
    | None => filter (fun o => String.eqb (Order.status o) "completed") (Order_objects db)
    end in
  match start_date with
  | Some d => filter (fun o => QS.gte (Order.completed_at o) d) all_orders_daily
  | None => all_orders_daily
  end.

(** [all_daily]: the completed orders per day of completion. *)
Definition trends_all_daily (db : DB) (user_branch : option nat)
    (start_date : option Z) : list (option Z * nat) :=
  Py.sort date_before
    (QS.values_count (QS.option_eqb Z.eqb)
       (fun o => option_map TruncDate (Order.completed_at o))
       (trends_all_orders_daily db user_branch start_date)).

(** The body of the loop over [daily_delays]. *)
Definition trends_row (all_daily : list (option Z * nat)) (item : option Z * (nat * nat))
    : Trends.row :=
  let date_str :=
    match fst item with
    | Some d => strftime d
    | None => "Unknown"
    end in
  let total_day := PyStr.dict_of_get (QS.option_eqb Z.eqb) all_daily (fst item) 0%nat in
  {| Trends.date := date_str;
     Trends.delayed_count := fst (snd item);
     Trends.exceeded_9h := snd (snd item);
     Trends.total_orders := total_day;
     Trends.delay_rate :=
       if Nat.ltb 0 total_day
       then Py.round (Py.truediv (fst (snd item)) total_day * 100) 1
       else 0%Q |}.

Definition api_delay_trends (db : DB) (now : Z) (user_branch : option nat)
    (GET : list (string * string)) : option Trends.response :=
  let time_period := GET_get GET "period" "30days" in
  let start_date := _get_start_date_from_period now time_period in
  let selected_category := GET_get GET "category" "" in
  let selected_user := GET_get GET "user" "" in
  let selected_order_type := GET_get GET "order_type" "" in
  match filtered_delayed_orders to_pk db user_branch start_date
          selected_category selected_user selected_order_type with
  | None => None
  | Some orders_qs =>
      let daily_delays := Py.sort date_before (daily_counts orders_qs) in
      let all_daily := trends_all_daily db user_branch start_date in
      Some {| Trends.success := true;
              Trends.data := map (trends_row all_daily) daily_delays |}
  end.

(** *** [api_delay_by_order_type] *)

Definition api_delay_by_order_type (db : DB) (now : Z) (user_branch : option nat)
    (GET : list (string * string)) : option ByType.response :=
  let time_period := GET_get GET "period" "30days" in
  let start_date := _get_start_date_from_period now time_period in
  let selected_category := GET_get GET "category" "" in
  let selected_user := GET_get GET "user" "" in
  let selected_order_type := GET_get GET "order_type" "" in
  match filtered_delayed_orders to_pk db user_branch start_date
          selected_category selected_user selected_order_type with
  | None => None
  | Some orders_qs =>
      let type_breakdown :=
        QS.order_by_count_desc (QS.values_count String.eqb Order.type orders_qs) in
      Some {| ByType.success := true;
              ByType.data :=
                map (fun item =>
                       {| ByType.type := fst item;
                          ByType.type_name := Py.dict_get TYPE_CHOICES (fst item) (fst item);
                          ByType.count := snd item;
                          ByType.percentage :=
                            Py.round (inject_Z (Z.of_nat (snd item)) * 100
                                      / inject_Z (Z.of_nat (List.length orders_qs))) 1 |})
                    type_breakdown |}
  end.

(** *** [api_delay_by_user] *)

(** The reporter of an order, through the foreign key. *)
Definition delay_reason_reported_by (users : list User.t) (o : Order.t) : option User.t :=
  match Order.delay_reason_reported_by o with
  | Some uid => find (fun u => Nat.eqb (User.id u) uid) users
  | None => None
  end.

(** The four columns of [values(...)]. *)
Definition reporter_key (users : list User.t) (o : Order.t)
    : option nat * option string * option string * option string :=
  (Order.delay_reason_reported_by o,
   option_map User.first_name (delay_reason_reported_by users o),
   option_map User.last_name (delay_reason_reported_by users o),
   option_map User.username (delay_reason_reported_by users o)).

Definition reporter_key_eqb
    (a b : option nat * option string * option string * option string) : bool :=
  QS.option_eqb Nat.eqb (fst (fst (fst a))) (fst (fst (fst b)))
  && QS.option_eqb String.eqb (snd (fst (fst a))) (snd (fst (fst b)))
  && QS.option_eqb String.eqb (snd (fst a)) (snd (fst b))
  && QS.option_eqb String.eqb (snd a) (snd b).

(** [f"{first_name} {last_name}".strip() or username]. *)
Definition reporter_name (first_name last_name username : option string) : string :=
  let first_name := PyStr.or_empty first_name in
  let last_name := PyStr.or_empty last_name in
  let username := PyStr.or_empty username in
  let full := PyStr.strip (first_name ++ " " ++ last_name) in
  if Py.truthy full then full else username.

Definition api_delay_by_user (db : DB) (users : list User.t) (now : Z)
    (user_branch : option nat) (GET : list (string * string)) : option ByUser.response :=
  let time_period := GET_get GET "period" "30days" in
  let start_date := _get_start_date_from_period now time_period in
  let selected_category := GET_get GET "category" "" in
  let selected_user := GET_get GET "user" "" in
  let selected_order_type := GET_get GET "order_type" "" in
  let orders_qs :=
    filter (fun o => QS.notnull (Order.delay_reason o)
                     && QS.notnull (Order.delay_reason_reported_at o)
                     && QS.notnull (Order.delay_reason_reported_by o))
           (Order_objects db) in
  let orders_qs := filter_branch user_branch orders_qs in
  let orders_qs := filter_reported_since start_date orders_qs in
  let orders_qs := filter_category selected_category orders_qs in
  match filter_user to_pk selected_user orders_qs with
  | None => None
  | Some orders_qs =>
      let orders_qs := filter_order_type selected_order_type orders_qs in
      let user_breakdown :=
        Py.sort_by_key_reverse (fun g => QS.count_distinct_id (snd g))
          (QS.group_by reporter_key_eqb (reporter_key users) orders_qs) in
      Some {| ByUser.success := true;
              ByUser.data :=
                map (fun g =>
                       {| ByUser.user_id := fst (fst (fst (fst g)));
                          ByUser.user_name :=
                            reporter_name (snd (fst (fst (fst g)))) (snd (fst (fst g)))
                              (snd (fst g));
                          ByUser.delay_count := QS.count_distinct_id (snd g);
                          ByUser.exceeded_2h_count :=
                            QS.count_distinct_id (filter Order.exceeded_9_hours (snd g)) |})
                    user_breakdown |}
  end.

End MoreViews.

(** ** More sample rows *)

Module Sample2.

(** The calendar date of a day number counted from 1970-01-01, in the
    proleptic Gregorian calendar. *)
Definition civil_from_days (z : Z) : Z * Z * Z :=
  let z := (z + 719468)%Z in
  let era := (z / 146097)%Z in
  let doe := (z - era * 146097)%Z in
  let yoe := ((doe - doe / 1460 + doe / 36524 - doe / 146096) / 365)%Z in
  let doy := (doe - (365 * yoe + yoe / 4 - yoe / 100))%Z in
  let mp := ((5 * doy + 2) / 153)%Z in
  let d := (doy - (153 * mp + 2) / 5 + 1)%Z in
  let m := if (mp <? 10)%Z then (mp + 3)%Z else (mp - 9)%Z in
  let y := (yoe + era * 400 + (if (m <=? 2)%Z then 1 else 0))%Z in
  (y, m, d).

Definition two_digits (n : Z) : string :=
  if (n <? 10)%Z then "0" ++ Py.str_int n else Py.str_int n.

(** ['%Y-%m-%d'], for the years of four digits. *)
Definition strftime (day : Z) : string :=
  let '(y, m, d) := civil_from_days day in
  Py.str_int y ++ "-" ++ two_digits m ++ "-" ++ two_digits d.

Definition TYPE_CHOICES : list (string * string) :=
  [ ("service", "Service"); ("sales", "Sales"); ("inquiry", "Inquiry") ].

Definition amina : User.t :=
  {| User.id := 1; User.first_name := "Amina"; User.last_name := "Juma";
     User.username := "ajuma" |}.

Definition store2 : User.t :=
  {| User.id := 2; User.first_name := ""; User.last_name := "";
     User.username := "store2" |}.

Definition users : list User.t := [ amina; store2 ].

Definition invoice (amount : Q) : Invoice.t := {| Invoice.total_amount := Some amount |}.

Definition no_amount : Invoice.t := {| Invoice.total_amount := None |}.

(** Order 1: delayed, reported at noon of day 97 by Amina, flagged as
    exceeding the limit; it ran 12 hours and has three invoices. *)
Definition order1 : Order.t :=
  {| Order.id := 1;
     Order.branch := Some 1%nat;
     Order.type := "service";
     Order.status := "completed";
     Order.customer := Some 10%nat;
     Order.started_at := Some (97 * Sample.day)%Z;
     Order.completed_at := Some (97 * Sample.day + 12 * Sample.hour)%Z;
     Order.created_at := (96 * Sample.day)%Z;
     Order.exceeded_9_hours := true;
     Order.delay_reason := Some Sample.broken_part;
     Order.delay_reason_reported_by := Some 1%nat;
     Order.delay_reason_reported_at := Some (97 * Sample.day + 12 * Sample.hour)%Z;
     Order.invoices := [ invoice 100; no_amount; invoice 0 ] |}.

(** Order 2: delayed, reported on day 97 by Amina, same customer. *)
Definition order2 : Order.t :=
  {| Order.id := 2;
     Order.branch := Some 1%nat;
     Order.type := "service";
     Order.status := "completed";
     Order.customer := Some 10%nat;
     Order.started_at := Some (97 * Sample.day)%Z;
     Order.completed_at := Some (97 * Sample.day + 4 * Sample.hour)%Z;
     Order.created_at := (96 * Sample.day)%Z;
     Order.exceeded_9_hours := false;
     Order.delay_reason := Some Sample.broken_part;
     Order.delay_reason_reported_by := Some 1%nat;
     Order.delay_reason_reported_at := Some (97 * Sample.day + 5 * Sample.hour)%Z;
     Order.invoices := [ invoice (5 # 2) ] |}.

(** Order 3: delayed, reported on day 98 by the user of store 2; still
    open, never started, with an invoice. *)
Definition order3 : Order.t :=
  {| Order.id := 3;
     Order.branch := Some 1%nat;
     Order.type := "sales";
     Order.status := "in_progress";
     Order.customer := Some 11%nat;
     Order.started_at := None;
     Order.completed_at := None;
     Order.created_at := (98 * Sample.day)%Z;
     Order.exceeded_9_hours := true;
     Order.delay_reason := Some Sample.late_truck;
     Order.delay_reason_reported_by := Some 2%nat;
     Order.delay_reason_reported_at := Some (98 * Sample.day)%Z;
     Order.invoices := [ invoice 50 ] |}.

(** Order 4: never delayed, completed on day 97. *)
Definition order4 : Order.t :=
  {| Order.id := 4;
     Order.branch := Some 1%nat;
     Order.type := "sales";
     Order.status := "completed";
     Order.customer := Some 12%nat;
     Order.started_at := Some (97 * Sample.day)%Z;
     Order.completed_at := Some (97 * Sample.day + Sample.hour)%Z;
     Order.created_at := (97 * Sample.day)%Z;
     Order.exceeded_9_hours := false;
     Order.delay_reason := None;
     Order.delay_reason_reported_by := None;
     Order.delay_reason_reported_at := None;
     Order.invoices := [] |}.

(** Order 5: delayed, reported on day 99 with no reporter recorded. *)
Definition order5 : Order.t :=
  {| Order.id := 5;
     Order.branch := Some 1%nat;
     Order.type := "service";
     Order.status := "completed";
     Order.customer := None;
     Order.started_at := Some (99 * Sample.day)%Z;
     Order.completed_at := Some (99 * Sample.day + 10 * Sample.hour)%Z;
     Order.created_at := (99 * Sample.day)%Z;
     Order.exceeded_9_hours := false;
     Order.delay_reason := Some Sample.late_truck;
     Order.delay_reason_reported_by := None;
     Order.delay_reason_reported_at := Some (99 * Sample.day + 10 * Sample.hour)%Z;
     Order.invoices := [] |}.

Definition week : DB :=
  {| Order_objects := [ order1; order2; order3; order4; order5 ];
     DelayReasonCategory_objects := Sample.categories |}.

End Sample2.

(** ** Closed forms of the loops *)

Module Closed.

(** An order with both a start and a completion timestamp. *)
Definition timed (o : Order.t) : bool :=
  QS.notnull (Order.started_at o) && QS.notnull (Order.completed_at o).

(** The hours an order took; 0 when a timestamp is missing. *)
Definition hours (o : Order.t) : Q :=
  match Spec.completion_hours o with
  | Some h => h
  | None => 0%Q
  end.

(** The amount of an invoice; 0 when it has none. *)
Definition invoice_amount (i : Invoice.t) : Q :=
  match Invoice.total_amount i with
  | Some amount => amount
  | None => 0%Q
  end.

(** The invoiced amount of an order. *)
Definition order_revenue (o : Order.t) : Q :=
  Spec.Qsum (map invoice_amount (Order.invoices o)).

(** The periods a request can name, from the shortest to the longest. *)
Definition periods : list string :=
  [ "7days"; "30days"; "90days"; "6months"; "1year"; "all" ].

End Closed.

(** * Properties *)

(** ** The period of a request *)

Lemma dict_get_miss {V : Type} (d : list (string * V)) (k : string) (default : V) :
  ~ In k (map fst d) -> Py.dict_get d k default = default.
Proof.
  induction d as [| [k' v] d IH]; simpl; intros Hk.
  - reflexivity.
  - destruct (String.eqb_spec k' k) as [E | E].
    + exfalso. apply Hk. now left.
    + apply IH. intros Hin. apply Hk. now right.
Qed.

(** C3.  The period strings [7days], [30days], [90days], [6months] and
    [1year] give the current time minus 7, 30, 90, 180 and 365 days, [all]
    gives [None], and every other string gives what [30days] gives. *)
Theorem period_start_date (now : Z) (period : string) :
  _get_start_date_from_period now "7days" = Some (now - 7 * 86400000000)%Z /\
  _get_start_date_from_period now "30days" = Some (now - 30 * 86400000000)%Z /\
  _get_start_date_from_period now "90days" = Some (now - 90 * 86400000000)%Z /\
  _get_start_date_from_period now "6months" = Some (now - 180 * 86400000000)%Z /\
  _get_start_date_from_period now "1year" = Some (now - 365 * 86400000000)%Z /\
  _get_start_date_from_period now "all" = None /\
  (~ In period ["7days"; "30days"; "90days"; "6months"; "1year"; "all"] ->
   _get_start_date_from_period now period = _get_start_date_from_period now "30days").
Proof.
  repeat split; try reflexivity.
  intros Hother.
  unfold _get_start_date_from_period at 1.
  rewrite dict_get_miss by exact Hother.
  reflexivity.
Qed.

Lemma period_start_date_witness :
  _get_start_date_from_period Sample.now "foo"
  = _get_start_date_from_period Sample.now "30days".
Proof.
  apply (period_start_date Sample.now "foo").
  simpl. intros H.
  repeat (destruct H as [H | H]; [discriminate H |]).
  exact H.
Defined.

(** ** The delayed-orders view *)

Section ViewFacts.
Variable to_pk : string -> option nat.

(** The filter chain raises exactly when a user filter is given and its
    value is not an id. *)
Lemma filtered_delayed_orders_raises (db : DB) (user_branch : option nat)
    (start_date : option Z) (selected_category selected_user selected_order_type : string) :
  filtered_delayed_orders to_pk db user_branch start_date
    selected_category selected_user selected_order_type = None
  <-> Py.truthy selected_user = true /\ to_pk selected_user = None.
Proof.
  unfold filtered_delayed_orders, filter_user.
  destruct (Py.truthy selected_user); [destruct (to_pk selected_user) |];
    split; intros H; try discriminate; try tauto; destruct H; discriminate.
Qed.

Lemma filter_branch_incl (user_branch : option nat) (qs : list Order.t) (o : Order.t) :
  In o (filter_branch user_branch qs) -> In o qs.
Proof.
  destruct user_branch; simpl; [rewrite filter_In |]; tauto.
Qed.

Lemma filter_reported_since_In (start_date : option Z) (qs : list Order.t) (o : Order.t) :
  In o (filter_reported_since start_date qs)
  <-> In o qs /\ match start_date with
                 | Some d => QS.gte (Order.delay_reason_reported_at o) d = true
                 | None => True
                 end.
Proof.
  destruct start_date; simpl; [rewrite filter_In |]; tauto.
Qed.

Lemma filter_category_In (selected_category : string) (qs : list Order.t) (o : Order.t) :
  In o (filter_category selected_category qs)
  <-> In o qs /\ (Py.truthy selected_category = true ->
                  QS.delay_reason__category__category o = Some selected_category).
Proof.
  unfold filter_category.
  destruct (Py.truthy selected_category).
  - rewrite filter_In. unfold QS.exact.
    destruct (QS.delay_reason__category__category o) as [c |].
    + destruct (String.eqb_spec c selected_category) as [E | E].
      * subst. tauto.
      * split; [intros [_ H]; discriminate H |].
        intros [_ H]. specialize (H eq_refl). congruence.
    + split; [intros [_ H]; discriminate H |].
      intros [_ H]. specialize (H eq_refl). discriminate H.
  - split; [intros H; split; [exact H | discriminate] | tauto].
Qed.

Lemma filter_order_type_In (selected_order_type : string) (qs : list Order.t) (o : Order.t) :
  In o (filter_order_type selected_order_type qs)
  <-> In o qs /\ (Py.truthy selected_order_type = true ->
                  Order.type o = selected_order_type).
Proof.
  unfold filter_order_type.
  destruct (Py.truthy selected_order_type).
  - rewrite filter_In.
    destruct (String.eqb_spec (Order.type o) selected_order_type) as [E | E].
    + tauto.
    + split; [intros [_ H]; discriminate H |].
      intros [_ H]. specialize (H eq_refl). contradiction.
  - split; [intros H; split; [exact H | discriminate] | tauto].
Qed.

Lemma filter_user_In (selected_user : string) (qs qs' : list Order.t) (o : Order.t) :
  filter_user to_pk selected_user qs = Some qs' ->
  In o qs'
  <-> In o qs /\ (Py.truthy selected_user = true ->
                  exists uid, to_pk selected_user = Some uid
                              /\ Order.delay_reason_reported_by o = Some uid).
Proof.
  unfold filter_user.
  destruct (Py.truthy selected_user).
  - destruct (to_pk selected_user) as [uid |]; [| discriminate].
    intros E. injection E as <-. rewrite filter_In. unfold QS.exact.
    destruct (Order.delay_reason_reported_by o) as [u |].
    + destruct (Nat.eqb_spec u uid) as [E | E].
      * subst. split; [| tauto]. intros [H _]. split; [exact H |]. intros _. now exists uid.
      * split; [intros [_ H]; discriminate H |].
        intros [_ H]. destruct (H eq_refl) as [uid' [E1 E2]]. congruence.
    + split; [intros [_ H]; discriminate H |].
      intros [_ H]. destruct (H eq_refl) as [uid' [_ E2]]. discriminate E2.
  - intros E. injection E as <-.
    split; [intros H; split; [exact H | discriminate] | tauto].
Qed.


End ViewFacts.

(** ** [api_all_delay_reasons] *)



(** The listing raises only through the coercion of the user filter. *)
Lemma all_reasons_raises (CATEGORY_CHOICES : list (string * string))
    (to_pk : string -> option nat) (db : DB) (now : Z) (user_branch : option nat)
    (GET : list (string * string)) :
  api_all_delay_reasons CATEGORY_CHOICES to_pk db now user_branch GET = None
  <-> Py.truthy (GET_get GET "user" "") = true /\ to_pk (GET_get GET "user" "") = None.
Proof.
  rewrite <- (filtered_delayed_orders_raises to_pk db user_branch
                (_get_start_date_from_period now (GET_get GET "period" "30days"))
                (GET_get GET "category" "") (GET_get GET "user" "")
                (GET_get GET "order_type" "")).
  unfold api_all_delay_reasons.
  destruct (filtered_delayed_orders _ _ _ _ _ _ _) as [qs |].
  - destruct (Nat.eqb (List.length qs) 0); split; discriminate.
  - tauto.
Qed.

(** ** [api_delay_recommendations]: what the request contributes *)

(** C9.  Two requests with the same period, for the same caller and the same
    data, get the same recommendations, whatever their other parameters
    ([category], [user], [order_type]) are. *)
Theorem recommendations_ignore_other_filters (CATEGORY_CHOICES : list (string * string))
    (TruncDate : Z -> Z) (db : DB) (now : Z) (user_branch : option nat)
    (GET1 GET2 : list (string * string)) :
  GET_get GET1 "period" "30days" = GET_get GET2 "period" "30days" ->
  api_delay_recommendations CATEGORY_CHOICES TruncDate db now user_branch GET1
  = api_delay_recommendations CATEGORY_CHOICES TruncDate db now user_branch GET2.
Proof.
  intros Hperiod. unfold api_delay_recommendations. rewrite Hperiod. reflexivity.
Qed.

Lemma recommendations_ignore_other_filters_witness :
  api_delay_recommendations Sample.CATEGORY_CHOICES Sample.TruncDate Sample.scenario_A
    Sample.now (Some 1%nat)
    [ ("period", "7days"); ("category", "mechanical"); ("user", "abc") ]
  = api_delay_recommendations Sample.CATEGORY_CHOICES Sample.TruncDate Sample.scenario_A
      Sample.now (Some 1%nat)
      [ ("order_type", "sales"); ("user", "7"); ("period", "7days") ].
Proof.
  apply (recommendations_ignore_other_filters Sample.CATEGORY_CHOICES Sample.TruncDate
           Sample.scenario_A Sample.now (Some 1%nat)
           [ ("period", "7days"); ("category", "mechanical"); ("user", "abc") ]
           [ ("order_type", "sales"); ("user", "7"); ("period", "7days") ]).
  reflexivity.
Defined.

(** ** [delay_analytics_dashboard] for a caller without a branch *)

Lemma round_zero (ndigits : nat) : (Py.round 0 ndigits == 0)%Q.
Proof.
  unfold Py.round.
  assert (E : Py.round_half_even (0 * inject_Z (10 ^ Z.of_nat ndigits)) = 0%Z).
  { unfold Py.round_half_even.
    assert (Ez : (0 * inject_Z (10 ^ Z.of_nat ndigits) == 0)%Q) by ring.
    assert (Ef : Qfloor (0 * inject_Z (10 ^ Z.of_nat ndigits)) = 0%Z).
    { rewrite Ez. reflexivity. }
    rewrite Ef.
    assert (Ec : ((0 * inject_Z (10 ^ Z.of_nat ndigits) - inject_Z 0 ?= 1 # 2) = Lt)%Q).
    { rewrite <- Qlt_alt. rewrite Ez. reflexivity. }
    rewrite Ec. reflexivity. }
  rewrite E. unfold Qdiv. ring.
Qed.

Lemma dashboard_total_orders_In (db : DB) (user_branch : option nat)
    (start_date : option Z) (o : Order.t) :
  In o (dashboard_total_orders db user_branch start_date)
  <-> In o (Order_objects db)
      /\ Order.branch o = user_branch
      /\ Order.status o = "completed"
      /\ Order.delay_reason_reported_at o <> None
      /\ match start_date with
         | Some d => QS.gte (Order.delay_reason_reported_at o) d = true
         | None => True
         end.
Proof.
  unfold dashboard_total_orders.
  rewrite filter_reported_since_In, filter_In, !andb_true_iff.
  assert (Hb : (match user_branch with
                | Some b => QS.exact Nat.eqb (Order.branch o) b
                | None => QS.isnull (Order.branch o)
                end = true) <-> Order.branch o = user_branch).
  { destruct user_branch as [b |], (Order.branch o) as [b' |]; simpl;
      try (split; intros H; discriminate H); try tauto.
    rewrite Nat.eqb_eq. split; congruence. }
  assert (Hs : String.eqb (Order.status o) "completed" = true
               <-> Order.status o = "completed") by apply String.eqb_eq.
  assert (Hr : QS.notnull (Order.delay_reason_reported_at o) = true
               <-> Order.delay_reason_reported_at o <> None).
  { destruct (Order.delay_reason_reported_at o); simpl;
      split; intros H; try discriminate; try congruence; reflexivity. }
  tauto.
Qed.



(** ** The stable sort *)

Local Open Scope nat_scope.

Section SortFacts.
Context {A : Type} (before : A -> A -> bool).

Lemma insert_perm (x : A) (l : list A) : Permutation (Py.insert before x l) (x :: l).
Proof.
  induction l as [| y l IH]; simpl.
  - apply Permutation_refl.
  - destruct (before y x).
    + apply perm_trans with (y :: x :: l); [now apply perm_skip | apply perm_swap].
    + apply Permutation_refl.
Qed.

Lemma sort_perm (l : list A) : Permutation (Py.sort before l) l.
Proof.
  induction l as [| x l IH]; simpl.
  - apply perm_nil.
  - apply perm_trans with (x :: Py.sort before l); [apply insert_perm | now apply perm_skip].
Qed.

Lemma sort_length (l : list A) : List.length (Py.sort before l) = List.length l.
Proof. apply Permutation_length, sort_perm. Qed.

(** Sortedness, for an order [le] that [before] decides. *)
Section Sorted.
Variable le : A -> A -> Prop.
Hypothesis le_trans : forall a b c, le a b -> le b c -> le a c.
Hypothesis before_le : forall y x, before y x = true -> le y x.
Hypothesis not_before_le : forall y x, before y x = false -> le x y.

Lemma insert_sorted (x : A) (l : list A) :
  StronglySorted le l -> StronglySorted le (Py.insert before x l).
Proof.
  induction l as [| y l IH]; simpl; intros Hs.
  - constructor; [constructor | constructor].
  - inversion Hs as [| y' l' Hl Hy]; subst.
    destruct (before y x) eqn:E.
    + constructor; [now apply IH |].
      apply Forall_forall. intros z Hz.
      apply (Permutation_in _ (insert_perm x l)) in Hz.
      destruct Hz as [<- | Hz]; [now apply before_le |].
      rewrite Forall_forall in Hy. now apply Hy.
    + constructor; [exact Hs |].
      constructor; [now apply not_before_le |].
      apply Forall_forall. intros z Hz.
      rewrite Forall_forall in Hy.
      apply le_trans with y; [now apply not_before_le | now apply Hy].
Qed.

Lemma sort_sorted (l : list A) : StronglySorted le (Py.sort before l).
Proof.
  induction l as [| x l IH]; simpl; [constructor | now apply insert_sorted].
Qed.
End Sorted.

(** Stability, for a class [p] of elements that do not precede one another. *)
Section Stable.
Variable p : A -> bool.
Hypothesis class_not_before : forall y x, before y x = true -> p x = true -> p y = false.

Lemma insert_filter (x : A) (l : list A) :
  filter p (Py.insert before x l) = filter p (x :: l).
Proof.
  induction l as [| y l IH]; simpl.
  - reflexivity.
  - destruct (before y x) eqn:E; [| reflexivity].
    simpl. rewrite IH. simpl.
    destruct (p x) eqn:Ex; [| reflexivity].
    now rewrite (class_not_before y x E Ex).
Qed.

Lemma sort_filter (l : list A) : filter p (Py.sort before l) = filter p l.
Proof.
  induction l as [| x l IH]; simpl; [reflexivity |].
  rewrite insert_filter. simpl. now rewrite IH.
Qed.
End Stable.

End SortFacts.

Lemma sort_by_key_sorted {A : Type} (key : A -> nat) (l : list A) :
  StronglySorted (fun a b => key a <= key b) (Py.sort_by_key key l).
Proof.
  apply sort_sorted.
  - intros a b c. lia.
  - intros y x H. apply Nat.ltb_lt in H. lia.
  - intros y x H. apply Nat.ltb_ge in H. lia.
Qed.

Lemma sort_by_key_reverse_sorted {A : Type} (key : A -> nat) (l : list A) :
  StronglySorted (fun a b => key b <= key a) (Py.sort_by_key_reverse key l).
Proof.
  apply sort_sorted.
  - intros a b c. lia.
  - intros y x H. apply Nat.ltb_lt in H. lia.
  - intros y x H. apply Nat.ltb_ge in H. lia.
Qed.

(** ** [api_delay_recommendations]: order and size of the output *)

Section RecommendationFacts.
Variable CATEGORY_CHOICES : list (string * string).
Variable TruncDate : Z -> Z.

Lemma recommend_top_category_length (orders_qs : list Order.t) :
  List.length (recommend_top_category CATEGORY_CHOICES orders_qs) <= 1.
Proof.
  unfold recommend_top_category.
  destruct (QS.order_by_count_desc _) as [| top_cat rest]; simpl; [lia |].
  destruct (Py.gt _ _); simpl; lia.
Qed.

Lemma recommend_exceeded_length (orders_qs : list Order.t) :
  List.length (recommend_exceeded orders_qs) <= 1.
Proof.
  unfold recommend_exceeded.
  destruct (_ && _); simpl; lia.
Qed.

Lemma recommend_top_reasons_length (orders_qs : list Order.t) :
  List.length (recommend_top_reasons orders_qs) <= 3.
Proof.
  unfold recommend_top_reasons. rewrite length_map. apply firstn_le_length.
Qed.

Lemma recommend_trend_length (orders_qs : list Order.t) :
  List.length (recommend_trend TruncDate orders_qs) <= 1.
Proof.
  unfold recommend_trend.
  destruct (firstn 7 _) as [| d rest]; simpl; [lia |].
  destruct (Py.gt _ _); simpl; lia.
Qed.

(** The four analyses emit at most six recommendations. *)
Lemma emitted_recommendations_length (orders_qs : list Order.t) :
  List.length (emitted_recommendations CATEGORY_CHOICES TruncDate orders_qs) <= 6.
Proof.
  unfold emitted_recommendations. rewrite !length_app.
  pose proof (recommend_top_category_length orders_qs).
  pose proof (recommend_exceeded_length orders_qs).
  pose proof (recommend_top_reasons_length orders_qs).
  pose proof (recommend_trend_length orders_qs).
  lia.
Qed.

Lemma priority_rank_of (p : string) (r : Recommendation.t) :
  Recommendation.priority r = p ->
  priority_rank r = Py.dict_get priority_order p 3.
Proof.
  intros E. unfold priority_rank. now rewrite E.
Qed.

Lemma priority_rank_high (r : Recommendation.t) :
  priority_rank r = 0 -> Recommendation.priority r = "high".
Proof.
  unfold priority_rank, priority_order. cbn [Py.dict_get].
  destruct (String.eqb_spec "high" (Recommendation.priority r)) as [E | E];
    [now symmetry |].
  destruct (String.eqb "medium" (Recommendation.priority r)); [discriminate |].
  destruct (String.eqb "low" (Recommendation.priority r)); discriminate.
Qed.

(** C6.  The recommendations returned are at most 8; they are ordered by
    priority rank, every [high] record before every [medium] one before
    every [low] one; and the records of one priority come in the order in
    which the analyses emitted them. *)
Theorem recommendations_sorted_and_capped (db : DB) (now : Z) (user_branch : option nat)
    (GET : list (string * string)) :
  let emitted :=
    emitted_recommendations CATEGORY_CHOICES TruncDate
      (scoped_delayed_orders db user_branch
         (_get_start_date_from_period now (GET_get GET "period" "30days"))) in
  let output :=
    Recommendation.recommendations
      (api_delay_recommendations CATEGORY_CHOICES TruncDate db now user_branch GET) in
  List.length output <= 8
  /\ StronglySorted (fun a b => priority_rank a <= priority_rank b) output
  /\ (forall a b rest,
        In b rest -> (exists front, output = (front ++ a :: rest)%list) ->
        (Recommendation.priority b = "high" -> Recommendation.priority a = "high")
        /\ (Recommendation.priority b = "medium" -> Recommendation.priority a <> "low"))
  /\ (forall priority,
        filter (fun r => String.eqb (Recommendation.priority r) priority) output
        = filter (fun r => String.eqb (Recommendation.priority r) priority) emitted)
  /\ Permutation output emitted.
Proof.
  intros emitted output.
  assert (Hout : output = Py.sort_by_key priority_rank emitted).
  { unfold output, api_delay_recommendations.
    cbn [Recommendation.recommendations]. fold emitted.
    apply firstn_all2. unfold Py.sort_by_key. rewrite sort_length.
    pose proof (emitted_recommendations_length
                  (scoped_delayed_orders db user_branch
                     (_get_start_date_from_period now (GET_get GET "period" "30days")))).
    fold emitted in H. lia. }
  assert (Hsorted : StronglySorted (fun a b => priority_rank a <= priority_rank b) output).
  { rewrite Hout. apply sort_by_key_sorted. }
  split; [| split; [| split; [| split]]].
  - unfold output, api_delay_recommendations.
    cbn [Recommendation.recommendations]. apply firstn_le_length.
  - exact Hsorted.
  - intros a b rest Hb [front Hfront].
    rewrite Hfront in Hsorted.
    assert (Hab : priority_rank a <= priority_rank b).
    { clear - Hsorted Hb. induction front as [| f front IH]; simpl in Hsorted.
      - inversion Hsorted as [| a' l' _ Hall]; subst.
        rewrite Forall_forall in Hall. now apply Hall.
      - inversion Hsorted; subst. now apply IH. }
    split; intros Hpb.
    + apply priority_rank_high. apply (priority_rank_of "high") in Hpb.
      simpl in Hpb. lia.
    + intros Hpa.
      apply (priority_rank_of "medium") in Hpb.
      apply (priority_rank_of "low") in Hpa.
      simpl in Hpb, Hpa. lia.
  - intros priority. rewrite Hout. unfold Py.sort_by_key.
    apply sort_filter.
    intros y x Hbefore Hx.
    apply String.eqb_eq in Hx. apply Nat.ltb_lt in Hbefore.
    destruct (String.eqb_spec (Recommendation.priority y) priority) as [E | E];
      [| reflexivity].
    unfold priority_rank in Hbefore. rewrite Hx, E in Hbefore. lia.
  - rewrite Hout. apply sort_perm.
Qed.

End RecommendationFacts.

(** On scenario A the first two records returned are [high] ones. *)
Lemma recommendations_sorted_and_capped_witness :
  match Recommendation.recommendations
          (api_delay_recommendations Sample.CATEGORY_CHOICES Sample.TruncDate
             Sample.scenario_A Sample.now (Some 1) []) with
  | a :: b :: rest =>
      List.length (a :: b :: rest) <= 8
      /\ (Recommendation.priority b = "high" -> Recommendation.priority a = "high")
      /\ (Recommendation.priority b = "medium" -> Recommendation.priority a <> "low")
  | _ => False
  end.
Proof.
  pose proof (recommendations_sorted_and_capped Sample.CATEGORY_CHOICES Sample.TruncDate
                Sample.scenario_A Sample.now (Some 1) []) as H.
  cbv zeta in H.
  destruct (Recommendation.recommendations
              (api_delay_recommendations Sample.CATEGORY_CHOICES Sample.TruncDate
                 Sample.scenario_A Sample.now (Some 1) []))
    as [| a [| b rest]] eqn:E; [vm_compute in E; discriminate E.. |].
  destruct H as (Hlen & _ & Horder & _).
  split; [exact Hlen |].
  apply (Horder a b (b :: rest)); [now left | now exists []].
Defined.

(** ** [api_delay_impact_analysis]: the hours of delay *)







(** ** [api_delay_analytics_summary]: the delay percentage *)


(** The two counts of the summary and the percentage it derives from
    them. *)
Lemma summary_fields (to_pk : string -> option nat) (db : DB) (now : Z)
    (user_branch : option nat) (GET : list (string * string)) (summary : Summary.summary) :
  api_delay_analytics_summary to_pk db now user_branch GET = Some summary ->
  let start_date := _get_start_date_from_period now (GET_get GET "period" "30days") in
  let baseline := summary_total_all_orders db user_branch start_date in
  Summary.total_all_orders summary = List.length baseline
  /\ (exists view,
        filtered_delayed_orders to_pk db user_branch start_date
          (GET_get GET "category" "") (GET_get GET "user" "") (GET_get GET "order_type" "")
        = Some view
        /\ Summary.total_delayed_orders summary = List.length (QS.distinct Order.id view))
  /\ Summary.delay_percentage summary
     = Py.round (if Nat.ltb 0 (List.length baseline)
                 then (Py.truediv (Summary.total_delayed_orders summary)
                         (List.length baseline) * 100)%Q
                 else 0%Q) 2.
Proof.
  intros Hsummary start_date baseline.
  unfold api_delay_analytics_summary in Hsummary.
  fold start_date in Hsummary. fold baseline in Hsummary.
  destruct (filtered_delayed_orders _ _ _ _ _ _ _) as [view |] eqn:Eview; [| discriminate].
  destruct (fold_left summary_duration_step _ _) as [total_duration count].
  injection Hsummary as <-.
  cbn [Summary.total_all_orders Summary.total_delayed_orders Summary.delay_percentage].
  split; [reflexivity |]. split; [| reflexivity].
  exists view. split; reflexivity.
Qed.




(** The percentage is never negative, and it is 0 when the baseline is
    empty. *)
Lemma round_half_even_nonneg (q : Q) : (0 <= q)%Q -> (0 <= Py.round_half_even q)%Z.
Proof.
  intros Hq. unfold Py.round_half_even.
  assert (Hf : (0 <= Qfloor q)%Z).
  { change 0%Z with (Qfloor 0). now apply Qfloor_resp_le. }
  destruct (_ ?= _)%Q; [destruct (Z.even _) |..]; lia.
Qed.

Lemma round_nonneg (q : Q) (ndigits : nat) : (0 <= q)%Q -> (0 <= Py.round q ndigits)%Q.
Proof.
  intros Hq. unfold Py.round.
  assert (Hs : (0 < 10 ^ Z.of_nat ndigits)%Z) by (apply Z.pow_pos_nonneg; lia).
  assert (Hs' : (0 < inject_Z (10 ^ Z.of_nat ndigits))%Q).
  { change 0%Q with (inject_Z 0). now rewrite <- Zlt_Qlt. }
  apply Qle_shift_div_l; [exact Hs' |].
  rewrite Qmult_0_l. change 0%Q with (inject_Z 0). rewrite <- Zle_Qle.
  apply round_half_even_nonneg.
  apply Qmult_le_0_compat; [exact Hq | now apply Qlt_le_weak].
Qed.

Lemma truediv_nonneg (a b : nat) : 0 < b -> (0 <= Py.truediv a b)%Q.
Proof.
  intros Hb. unfold Py.truediv.
  apply Qle_shift_div_l.
  - change 0%Q with (inject_Z 0). rewrite <- Zlt_Qlt. lia.
  - rewrite Qmult_0_l. change 0%Q with (inject_Z 0). rewrite <- Zle_Qle. lia.
Qed.

(** X5.  The delay percentage of the summary is never negative, and it is 0
    when no order in scope was created in the period. *)
Lemma summary_percentage_lower_bound (to_pk : string -> option nat) (db : DB) (now : Z)
    (user_branch : option nat) (GET : list (string * string)) (summary : Summary.summary) :
  api_delay_analytics_summary to_pk db now user_branch GET = Some summary ->
  (0 <= Summary.delay_percentage summary)%Q
  /\ (Summary.total_all_orders summary = 0 -> (Summary.delay_percentage summary == 0)%Q).
Proof.
  intros Hsummary.
  destruct (summary_fields to_pk db now user_branch GET summary Hsummary)
    as (Hall & _ & Hpct).
  rewrite Hpct, Hall. split.
  - apply round_nonneg.
    destruct (Nat.ltb_spec 0 (List.length
                (summary_total_all_orders db user_branch
                   (_get_start_date_from_period now (GET_get GET "period" "30days")))))
      as [Hpos | Hzero].
    + apply Qmult_le_0_compat; [now apply truediv_nonneg | discriminate].
    + apply Qle_refl.
  - intros ->. apply round_zero.
Qed.

(** C2 at a failing input.  Within the 30-day period, for branch 1: two
    delayed orders were created before the period and reported inside it,
    and one other order was created inside it.  The view of delayed orders
    is filtered on the report timestamp and the baseline on the creation
    timestamp, so the summary counts 2 delayed orders out of 1 and reports
    200 per cent. *)
Theorem summary_percentage_above_100 :
  exists summary,
    api_delay_analytics_summary Sample.to_pk Sample.late_reports Sample.now (Some 1%nat) []
    = Some summary
    /\ Summary.total_delayed_orders summary = 2
    /\ Summary.total_all_orders summary = 1
    /\ (Summary.delay_percentage summary == 200)%Q
    /\ ~ (Summary.delay_percentage summary <= 100)%Q.
Proof.
  eexists. split; [vm_compute; reflexivity |].
  repeat split; try reflexivity.
  vm_compute. intros H. now apply H.
Qed.

(** ** [distinct] and grouping *)

Section DedupFacts.
Context {A K : Type} (eqb : K -> K -> bool) (key : A -> K).
Hypothesis eqb_eq : forall a b, eqb a b = true <-> a = b.

Lemma existsb_eqb_In (k : K) (seen : list K) :
  existsb (eqb k) seen = true <-> In k seen.
Proof.
  rewrite existsb_exists. split.
  - intros [k' [Hin E]]. apply eqb_eq in E. now subst.
  - intros Hin. exists k. split; [exact Hin | now apply eqb_eq].
Qed.

Lemma dedup_on_incl (seen : list K) (l : list A) (x : A) :
  In x (QS.dedup_on eqb key seen l) -> In x l /\ ~ In (key x) seen.
Proof.
  revert seen. induction l as [| y l IH]; simpl; intros seen Hx; [contradiction |].
  destruct (existsb (eqb (key y)) seen) eqn:E.
  - destruct (IH _ Hx). tauto.
  - destruct Hx as [<- | Hx].
    + split; [now left |]. rewrite <- existsb_eqb_In. congruence.
    + destruct (IH _ Hx) as [Hin Hseen]. split; [now right |].
      intros H. apply Hseen. now right.
Qed.

Lemma dedup_on_complete (seen : list K) (l : list A) (x : A) :
  In x l -> ~ In (key x) seen ->
  exists y, In y (QS.dedup_on eqb key seen l) /\ key y = key x.
Proof.
  revert seen. induction l as [| y l IH]; simpl; intros seen Hx Hseen; [contradiction |].
  destruct (existsb (eqb (key y)) seen) eqn:E.
  - destruct Hx as [-> | Hx].
    + exfalso. apply Hseen. now apply existsb_eqb_In.
    + now apply IH.
  - destruct Hx as [-> | Hx]; [exists x; split; [now left | reflexivity] |].
    destruct (eqb (key x) (key y)) eqn:Exy.
    + apply eqb_eq in Exy. exists y. split; [now left | now symmetry].
    + destruct (IH (key y :: seen) Hx) as [z [Hz Ez]].
      * intros [H | H]; [| now apply Hseen].
        assert (eqb (key x) (key y) = true) by (apply eqb_eq; now symmetry).
        congruence.
      * exists z. split; [now right | exact Ez].
Qed.

Lemma dedup_on_NoDup (seen : list K) (l : list A) :
  NoDup (map key (QS.dedup_on eqb key seen l)).
Proof.
  revert seen. induction l as [| y l IH]; simpl; intros seen; [constructor |].
  destruct (existsb (eqb (key y)) seen); [apply IH |].
  simpl. constructor; [| apply IH].
  intros Hin. apply in_map_iff in Hin. destruct Hin as [z [Ez Hz]].
  apply dedup_on_incl in Hz. destruct Hz as [_ Hz]. apply Hz. left. now symmetry.
Qed.

Lemma dedup_on_id (seen : list K) (l : list A) :
  NoDup (map key l) -> (forall x, In x l -> ~ In (key x) seen) ->
  QS.dedup_on eqb key seen l = l.
Proof.
  revert seen. induction l as [| y l IH]; simpl; intros seen Hnd Hseen; [reflexivity |].
  inversion Hnd as [| k ks Hy Hl]; subst.
  destruct (existsb (eqb (key y)) seen) eqn:E.
  - exfalso. apply (Hseen y); [now left | now apply existsb_eqb_In].
  - f_equal. apply IH; [exact Hl |].
    intros x Hx [H | H].
    + apply Hy. rewrite H. now apply in_map.
    + apply (Hseen x); [now right | exact H].
Qed.

End DedupFacts.

Lemma NoDup_map_filter {A K : Type} (key : A -> K) (p : A -> bool) (l : list A) :
  NoDup (map key l) -> NoDup (map key (filter p l)).
Proof.
  induction l as [| x l IH]; simpl; intros Hnd; [constructor |].
  inversion Hnd as [| k ks Hx Hl]; subst.
  destruct (p x); simpl; [| now apply IH].
  constructor; [| now apply IH].
  intros Hin. apply Hx. apply in_map_iff in Hin. destruct Hin as [y [E Hy]].
  apply filter_In in Hy. rewrite <- E. apply in_map. tauto.
Qed.

(** On rows with distinct primary keys, [distinct] changes nothing. *)
Lemma distinct_id {A : Type} (pk : A -> nat) (qs : list A) :
  NoDup (map pk qs) -> QS.distinct pk qs = qs.
Proof.
  intros Hnd. unfold QS.distinct.
  apply dedup_on_id; [exact Nat.eqb_eq | exact Hnd | intros x _ H; exact H].
Qed.


(** ** Counting rows by class *)

Lemma filter_filter_andb {A : Type} (p q : A -> bool) (l : list A) :
  filter q (filter p l) = filter (fun x => p x && q x) l.
Proof.
  induction l as [| x l IH]; simpl; [reflexivity |].
  destruct (p x); simpl; [destruct (q x) |]; now rewrite IH.
Qed.

Lemma filter_all {A : Type} (l : list A) : filter (fun _ => true) l = l.
Proof. induction l as [| x l IH]; simpl; [reflexivity | now rewrite IH]. Qed.

Lemma filter_length_impl {A : Type} (p q : A -> bool) (l : list A) :
  (forall x, In x l -> p x = true -> q x = true) ->
  List.length (filter p l) <= List.length (filter q l).
Proof.
  induction l as [| x l IH]; simpl; intros H; [lia |].
  assert (IH' : List.length (filter p l) <= List.length (filter q l)).
  { apply IH. intros y Hy. apply H. now right. }
  destruct (p x) eqn:Ep.
  - rewrite (H x (or_introl eq_refl) Ep). simpl. lia.
  - pose proof (filter_length_le q l). destruct (q x); simpl; lia.
Qed.

Lemma list_sum_map_add {C : Type} (a b : C -> nat) (L : list C) :
  list_sum (map (fun c => a c + b c) L) = list_sum (map a L) + list_sum (map b L).
Proof. induction L as [| c L IH]; simpl; lia. Qed.

Lemma list_sum_indicator {C : Type} (f : C -> bool) (L : list C) :
  list_sum (map (fun c => if f c then 1 else 0) L) = List.length (filter f L).
Proof.
  induction L as [| c L IH]; simpl; [reflexivity |].
  destruct (f c); simpl; lia.
Qed.

(** A class that at most one element of a duplicate-free list belongs to. *)
Lemma unique_class_length {C : Type} (f : C -> bool) (L : list C) :
  NoDup L ->
  (forall c c', In c L -> In c' L -> f c = true -> f c' = true -> c = c') ->
  List.length (filter f L) = if existsb f L then 1 else 0.
Proof.
  induction L as [| c L IH]; simpl; intros Hnd Huniq; [reflexivity |].
  inversion Hnd as [| c0 L0 Hc HL]; subst.
  destruct (f c) eqn:Ec; simpl.
  - f_equal.
    destruct (filter f L) as [| c' rest] eqn:Ef; [reflexivity |].
    exfalso.
    assert (Hc' : In c' (filter f L)) by (rewrite Ef; now left).
    apply filter_In in Hc'. destruct Hc' as [Hin Hf].
    apply Hc. rewrite (Huniq c c'); auto.
  - apply IH; [exact HL |].
    intros a b Ha Hb. apply Huniq; now right.
Qed.

(** The rows of [l], counted class by class, are the rows that belong to some
    class. *)
Lemma sum_of_class_counts {C A : Type} (p : C -> A -> bool) (L : list C) (l : list A) :
  NoDup L ->
  (forall x c c', In x l -> In c L -> In c' L -> p c x = true -> p c' x = true -> c = c') ->
  list_sum (map (fun c => List.length (filter (p c) l)) L)
  = List.length (filter (fun x => existsb (fun c => p c x) L) l).
Proof.
  intros Hnd. induction l as [| x l IH]; intros Huniq.
  - simpl. induction L as [| c L IHL]; simpl; [reflexivity |].
    inversion Hnd; subst. now apply IHL.
  - assert (E : list_sum (map (fun c => List.length (filter (p c) (x :: l))) L)
                = list_sum (map (fun c => (if p c x then 1 else 0)
                                          + List.length (filter (p c) l)) L)).
    { f_equal. apply map_ext. intros c. simpl. now destruct (p c x). }
    rewrite E, list_sum_map_add, list_sum_indicator, IH.
    + rewrite (unique_class_length (fun c => p c x) L Hnd).
      * simpl. destruct (existsb (fun c => p c x) L); simpl; lia.
      * intros c c'. apply Huniq. now left.
    + intros y c c' Hy. apply Huniq. now right.
Qed.

Lemma StronglySorted_map {A B : Type} (f : A -> B) (R : B -> B -> Prop) (l : list A) :
  StronglySorted (fun a b => R (f a) (f b)) l -> StronglySorted R (map f l).
Proof.
  induction 1 as [| a l Hl IH Ha]; simpl; constructor; [exact IH |].
  apply Forall_forall. intros b Hb. apply in_map_iff in Hb.
  destruct Hb as [x [<- Hx]]. rewrite Forall_forall in Ha. now apply Ha.
Qed.

Lemma list_sum_perm (l l' : list nat) : Permutation l l' -> list_sum l = list_sum l'.
Proof. induction 1; simpl; lia. Qed.

Lemma list_sum_In (n : nat) (l : list nat) : In n l -> n <= list_sum l.
Proof.
  induction l as [| m l IH]; simpl; [contradiction |].
  intros [-> | H]; [lia |]. specialize (IH H). lia.
Qed.

(** ** The optional filters as row conditions *)

Section FilterForms.
Variable to_pk : string -> option nat.

Lemma filter_branch_form (user_branch : option nat) (qs : list Order.t) :
  filter_branch user_branch qs = filter (Spec.in_scope user_branch) qs.
Proof. destruct user_branch; simpl; [reflexivity | now rewrite filter_all]. Qed.

Lemma filter_reported_since_form (start_date : option Z) (qs : list Order.t) :
  filter_reported_since start_date qs = filter (Spec.reported_since start_date) qs.
Proof. destruct start_date; simpl; [reflexivity | now rewrite filter_all]. Qed.

Lemma filter_category_form (selected_category : string) (qs : list Order.t) :
  filter_category selected_category qs = filter (Spec.has_category selected_category) qs.
Proof.
  unfold filter_category, Spec.has_category.
  destruct (Py.truthy selected_category); [reflexivity | now rewrite filter_all].
Qed.

Lemma filter_order_type_form (selected_order_type : string) (qs : list Order.t) :
  filter_order_type selected_order_type qs = filter (Spec.has_type selected_order_type) qs.
Proof.
  unfold filter_order_type, Spec.has_type.
  destruct (Py.truthy selected_order_type); [reflexivity | now rewrite filter_all].
Qed.

Lemma filter_user_form (selected_user : string) (qs qs' : list Order.t) :
  filter_user to_pk selected_user qs = Some qs' ->
  qs' = filter (Spec.reported_by selected_user (to_pk selected_user)) qs.
Proof.
  unfold filter_user, Spec.reported_by.
  destruct (Py.truthy selected_user).
  - destruct (to_pk selected_user); [| discriminate]. now intros [= <-].
  - intros [= <-]. now rewrite filter_all.
Qed.

Lemma filter_user_total (selected_user : string) (qs1 qs1' qs2 : list Order.t) :
  filter_user to_pk selected_user qs1 = Some qs1' ->
  exists qs2', filter_user to_pk selected_user qs2 = Some qs2'.
Proof.
  unfold filter_user.
  destruct (Py.truthy selected_user); [| eauto].
  destruct (to_pk selected_user); [eauto | discriminate].
Qed.

(** The delayed-orders view, as one filter over the order table. *)
Lemma filtered_delayed_orders_form (db : DB) (user_branch : option nat)
    (start_date : option Z) (selected_category selected_user selected_order_type : string)
    (view : list Order.t) :
  filtered_delayed_orders to_pk db user_branch start_date
    selected_category selected_user selected_order_type = Some view ->
  view = filter (fun o => QS.notnull (Order.delay_reason o)
                          && QS.notnull (Order.delay_reason_reported_at o)
                          && Spec.in_scope user_branch o
                          && Spec.reported_since start_date o
                          && Spec.has_category selected_category o
                          && Spec.reported_by selected_user (to_pk selected_user) o
                          && Spec.has_type selected_order_type o)
                (Order_objects db).
Proof.
  unfold filtered_delayed_orders.
  destruct (filter_user to_pk selected_user _) as [qs |] eqn:E; [| discriminate].
  intros [= <-]. apply filter_user_form in E. subst qs.
  unfold orders_with_delay_reason.
  rewrite filter_branch_form, filter_reported_since_form, filter_category_form,
    filter_order_type_form.
  rewrite !filter_filter_andb. apply filter_ext. intros o. cbv beta.
  rewrite !andb_assoc. reflexivity.
Qed.


End FilterForms.

(** ** [api_delay_reasons_breakdown] *)


Section BreakdownFacts.
Variable CATEGORY_CHOICES : list (string * string).
Variable to_pk : string -> option nat.
Variable db : DB.
Variable user_branch : option nat.
Variable start_date : option Z.
Variables selected_category selected_user selected_order_type : string.
Variable categories_qs : list DelayReasonCategory.t.
Hypothesis categories_qs_eq :
  breakdown_categories_qs to_pk db user_branch start_date
    selected_category selected_user selected_order_type = Some categories_qs.



(** The user filter of the loop body does not raise: it did not raise when
    the queryset was built. *)
Lemma breakdown_orders_count_total (category : DelayReasonCategory.t) :
  exists orders_count,
    breakdown_orders_count to_pk db user_branch start_date
      selected_user selected_order_type category = Some orders_count.
Proof.
  revert categories_qs_eq.
  unfold breakdown_categories_qs, breakdown_orders_count, filter_user.
  destruct (Py.truthy selected_user); [| eauto].
  destruct (to_pk selected_user); [eauto | discriminate].
Qed.

End BreakdownFacts.

Section BreakdownLoop.
Variable CATEGORY_CHOICES : list (string * string).
Variable to_pk : string -> option nat.
Variable db : DB.
Variable user_branch : option nat.
Variable start_date : option Z.
Variables selected_user selected_order_type : string.


(** The loop over the categories appends, in their order, one entry per
    category with a positive count. *)
Lemma breakdown_loop (L : list DelayReasonCategory.t) (acc : list Breakdown.entry) :
  (forall c, exists orders_count,
      breakdown_orders_count to_pk db user_branch start_date
        selected_user selected_order_type c = Some orders_count) ->
  exists data,
    fold_left (breakdown_step CATEGORY_CHOICES to_pk db user_branch start_date
                 selected_user selected_order_type) L (Some acc)
    = Some (acc ++ data)%list
    /\ (forall e, In e data -> 0 < Breakdown.entry_count e)
    /\ list_sum (map Breakdown.entry_count data)
       = list_sum
           (map (fun c =>
                   match breakdown_orders_count to_pk db user_branch start_date
                           selected_user selected_order_type c with
                   | Some orders_count => List.length (QS.distinct Order.id orders_count)
                   | None => 0
                   end) L).
Proof.
  intros Htotal. revert acc. induction L as [| c L IH]; intros acc; simpl.
  - exists []. rewrite app_nil_r. repeat split. intros e [].
  - destruct (Htotal c) as [orders_count Ec]. rewrite Ec.
    destruct (Nat.ltb_spec 0 (List.length (QS.distinct Order.id orders_count)))
      as [Hpos | Hzero].
    + destruct (IH (acc ++ [ {| Breakdown.entry_category := DelayReasonCategory.category c;
                                Breakdown.entry_category_name :=
                                  _get_category_display CATEGORY_CHOICES
                                    (DelayReasonCategory.category c);
                                Breakdown.entry_count :=
                                  List.length (QS.distinct Order.id orders_count) |} ])%list)
        as [data (Hfold & Hpos' & Hsum)].
      eexists (_ :: data). split; [| split].
      * rewrite Hfold. now rewrite <- app_assoc.
      * intros e [<- | He]; [exact Hpos | now apply Hpos'].
      * simpl. now rewrite Hsum.
    + destruct (IH acc) as [data (Hfold & Hpos' & Hsum)].
      exists data. split; [exact Hfold |]. split; [exact Hpos' |].
      rewrite Hsum. lia.
Qed.

End BreakdownLoop.



Lemma scenario_A_wf : wf_db Sample.scenario_A.
Proof.
  split; [| split].
  - vm_compute. repeat constructor; simpl; intuition discriminate.
  - vm_compute. repeat constructor; simpl; intuition discriminate.
  - intros o c Ho E. simpl in Ho.
    repeat (destruct Ho as [<- | Ho];
            [vm_compute in E; injection E as <-; simpl; tauto |]).
    contradiction.
Qed.


(** The breakdown raises only through the coercion of the user filter. *)
Lemma category_breakdown_raises (CATEGORY_CHOICES : list (string * string))
    (to_pk : string -> option nat) (db : DB) (now : Z) (user_branch : option nat)
    (GET : list (string * string)) :
  api_delay_reasons_breakdown CATEGORY_CHOICES to_pk db now user_branch GET = None
  <-> Py.truthy (GET_get GET "user" "") = true /\ to_pk (GET_get GET "user" "") = None.
Proof.
  unfold api_delay_reasons_breakdown.
  destruct (breakdown_categories_qs _ _ _ _ _ _ _) as [categories_qs |] eqn:Ecqs.
  - pose proof (breakdown_orders_count_total to_pk db user_branch _ _ _ _ _ Ecqs) as Htotal.
    destruct (breakdown_loop CATEGORY_CHOICES to_pk db user_branch _ _ _
                (QS.distinct DelayReasonCategory.id categories_qs) [] Htotal)
      as [entries (Hfold & _)].
    rewrite Hfold. split; [discriminate |].
    intros [Ht En]. revert Ecqs. unfold breakdown_categories_qs.
    rewrite Ht, En. discriminate.
  - split; [| reflexivity]. intros _. revert Ecqs. unfold breakdown_categories_qs.
    destruct (Py.truthy (GET_get GET "user" "")); [| discriminate].
    destruct (to_pk (GET_get GET "user" "")); [discriminate | tauto].
Qed.

(** ** [api_delay_recommendations]: the dominant category *)


Section DominantCategory.
Variable CATEGORY_CHOICES : list (string * string).
Variable TruncDate : Z -> Z.

(** The recommendations returned are those emitted. *)
Lemma recommendations_output_In (db : DB) (now : Z) (user_branch : option nat)
    (GET : list (string * string)) (r : Recommendation.t) :
  In r (Recommendation.recommendations
          (api_delay_recommendations CATEGORY_CHOICES TruncDate db now user_branch GET))
  <-> In r (emitted_recommendations CATEGORY_CHOICES TruncDate
              (scoped_delayed_orders db user_branch
                 (_get_start_date_from_period now (GET_get GET "period" "30days")))).
Proof.
  unfold api_delay_recommendations. cbn [Recommendation.recommendations].
  set (emitted := emitted_recommendations _ _ _).
  rewrite firstn_all2.
  - split; apply Permutation_in; [| apply Permutation_sym]; apply sort_perm.
  - unfold Py.sort_by_key. rewrite sort_length.
    pose proof (emitted_recommendations_length CATEGORY_CHOICES TruncDate
                  (scoped_delayed_orders db user_branch
                     (_get_start_date_from_period now (GET_get GET "period" "30days")))).
    fold emitted in H. lia.
Qed.



End DominantCategory.

(** Scenario D: a category with 7 of 20 delayed orders, the largest group,
    brings a [high] "Process Improvement" recommendation that names it. *)
Lemma dominant_category_scenario_D :
  exists r,
    In r (Recommendation.recommendations
            (api_delay_recommendations Sample.CATEGORY_CHOICES Sample.TruncDate
               Sample.scenario_D Sample.now (Some 1) []))
    /\ Recommendation.priority r = "high"
    /\ Recommendation.category r = "Process Improvement"
    /\ Recommendation.title r = "Address Mechanical Issues"
    /\ Recommendation.description r
       = "Mechanical accounts for 35.0% of delays. Consider process improvements or resource allocation.".
Proof.
  eexists. split; [vm_compute; left; reflexivity |]. repeat split.
Qed.

(** C7 at a failing input.  Nine delayed orders: five whose reason has no
    category and four mechanical ones.  The mechanical category is the top
    category and holds 4 of 9 orders, more than 30 per cent; the grouping
    puts the five orders without a category first, and the only "Process
    Improvement" recommendation returned is titled after that group,
    "Address None Issues". *)
Theorem dominant_category_without_category :
  let orders_qs :=
    scoped_delayed_orders Sample.mostly_uncategorised (Some 1)
      (_get_start_date_from_period Sample.now "30days") in
  let output :=
    Recommendation.recommendations
      (api_delay_recommendations Sample.CATEGORY_CHOICES Sample.TruncDate
         Sample.mostly_uncategorised Sample.now (Some 1) []) in
  QS.values_count (QS.option_eqb String.eqb) QS.delay_reason__category__category orders_qs
  = [ (None, 5); (Some "mechanical", 4) ]
  /\ 3 * List.length orders_qs < 10 * 4
  /\ map Recommendation.title
         (filter (fun r => String.eqb (Recommendation.category r) "Process Improvement")
                 output)
     = [ "Address None Issues" ].
Proof.
  vm_compute. repeat split; lia.
Qed.

(** * Further properties of the views *)

(** ** Grouping *)

Lemma option_eqb_eq {A : Type} (eqb : A -> A -> bool) :
  (forall a b, eqb a b = true <-> a = b) ->
  forall x y, QS.option_eqb eqb x y = true <-> x = y.
Proof.
  intros H [a |] [b |]; simpl; try (split; intros E; discriminate E); [| tauto].
  rewrite H. split; [intros -> | intros [= ->]]; reflexivity.
Qed.

Lemma reason_key_eqb_eq (a b : option string * option string) :
  reason_key_eqb a b = true <-> a = b.
Proof.
  destruct a as [a1 a2], b as [b1 b2]. unfold reason_key_eqb. simpl.
  rewrite andb_true_iff, !(option_eqb_eq String.eqb String.eqb_eq).
  split; [intros [-> ->] | intros [= -> ->]]; auto.
Qed.

Lemma all_reasons_key_eqb_eq (a b : option nat * option string * option string) :
  all_reasons_key_eqb a b = true <-> a = b.
Proof.
  destruct a as [[a1 a2] a3], b as [[b1 b2] b3]. unfold all_reasons_key_eqb. simpl.
  rewrite !andb_true_iff, !(option_eqb_eq String.eqb String.eqb_eq),
    (option_eqb_eq Nat.eqb Nat.eqb_eq).
  split; [intros [[-> ->] ->] | intros [= -> -> ->]]; auto.
Qed.

Lemma reporter_key_eqb_eq (a b : option nat * option string * option string * option string) :
  reporter_key_eqb a b = true <-> a = b.
Proof.
  destruct a as [[[a1 a2] a3] a4], b as [[[b1 b2] b3] b4]. unfold reporter_key_eqb. simpl.
  rewrite !andb_true_iff, !(option_eqb_eq String.eqb String.eqb_eq),
    (option_eqb_eq Nat.eqb Nat.eqb_eq).
  split; [intros [[[-> ->] ->] ->] | intros [= -> -> -> ->]]; auto.
Qed.

Section GroupFacts.
Context {K : Type} (eqb : K -> K -> bool) (key : Order.t -> K).
Hypothesis eqb_eq : forall a b, eqb a b = true <-> a = b.

Lemma group_by_In (qs : list Order.t) (g : K * list Order.t) :
  In g (QS.group_by eqb key qs)
  <-> (exists o, In o qs /\ key o = fst g)
      /\ snd g = filter (fun o => eqb (key o) (fst g)) qs.
Proof.
  unfold QS.group_by. rewrite in_map_iff. split.
  - intros [k [<- Hk]]. simpl. split; [| reflexivity].
    apply (dedup_on_incl eqb (fun k : K => k) eqb_eq) in Hk. destruct Hk as [Hk _].
    apply in_map_iff in Hk. destruct Hk as [o [E Ho]]. now exists o.
  - intros [[o [Ho E]] Hg].
    destruct (dedup_on_complete eqb (fun k : K => k) eqb_eq [] (map key qs) (key o))
      as [k [Hk Ek]]; [now apply in_map | intros [] |].
    exists k. split; [| exact Hk].
    destruct g as [k' grp]. simpl in *. subst. reflexivity.
Qed.

Lemma group_by_keys_NoDup (qs : list Order.t) :
  NoDup (map fst (QS.group_by eqb key qs)).
Proof.
  unfold QS.group_by. rewrite map_map. simpl.
  rewrite map_id.
  pose proof (dedup_on_NoDup eqb (fun k : K => k) eqb_eq [] (map key qs)) as H.
  now rewrite map_id in H.
Qed.

(** Every row belongs to exactly one group. *)
Lemma group_by_sizes (qs : list Order.t) :
  list_sum (map (fun g => List.length (snd g)) (QS.group_by eqb key qs))
  = List.length qs.
Proof.
  unfold QS.group_by. rewrite map_map. cbn [snd].
  set (L := QS.dedup_on eqb (fun k : K => k) [] (map key qs)).
  rewrite (sum_of_class_counts (fun k o => eqb (key o) k) L qs).
  - rewrite <- (filter_all qs) at 2. f_equal. apply filter_ext_in. intros o Ho.
    apply existsb_exists.
    destruct (dedup_on_complete eqb (fun k : K => k) eqb_eq [] (map key qs) (key o))
      as [k [Hk Ek]]; [now apply in_map | intros [] |].
    exists k. split; [exact Hk |]. apply eqb_eq. now symmetry.
  - pose proof (dedup_on_NoDup eqb (fun k : K => k) eqb_eq [] (map key qs)) as H.
    now rewrite map_id in H.
  - intros o k k' _ _ _ E E'. apply eqb_eq in E, E'. congruence.
Qed.

Lemma group_by_nonempty (qs : list Order.t) (g : K * list Order.t) :
  In g (QS.group_by eqb key qs) -> exists o, In o (snd g) /\ In o qs.
Proof.
  intros Hg. apply group_by_In in Hg. destruct Hg as [[o [Ho E]] Hg].
  exists o. split; [| exact Ho]. rewrite Hg. apply filter_In. split; [exact Ho |].
  now apply eqb_eq.
Qed.

Lemma group_by_incl (qs : list Order.t) (g : K * list Order.t) (o : Order.t) :
  In g (QS.group_by eqb key qs) -> In o (snd g) -> In o qs /\ key o = fst g.
Proof.
  intros Hg Ho. apply group_by_In in Hg. destruct Hg as [_ Hg].
  rewrite Hg in Ho. apply filter_In in Ho. destruct Ho as [Ho E].
  split; [exact Ho | now apply eqb_eq].
Qed.

End GroupFacts.

(** [Count('id', distinct=True)] never grows when rows are filtered out. *)
Lemma count_distinct_id_filter (p : Order.t -> bool) (qs : list Order.t) :
  QS.count_distinct_id (filter p qs) <= QS.count_distinct_id qs.
Proof.
  unfold QS.count_distinct_id, QS.distinct.
  rewrite <- (length_map Order.id), <- (length_map Order.id (QS.dedup_on _ _ _ qs)).
  apply NoDup_incl_length; [apply dedup_on_NoDup; exact Nat.eqb_eq |].
  intros k Hk. apply in_map_iff in Hk. destruct Hk as [o [<- Ho]].
  apply (dedup_on_incl Nat.eqb Order.id Nat.eqb_eq) in Ho. destruct Ho as [Ho _].
  apply filter_In in Ho. destruct Ho as [Ho _].
  destruct (dedup_on_complete Nat.eqb Order.id Nat.eqb_eq [] qs o Ho) as [o' [Ho' E]];
    [intros [] |].
  rewrite <- E. now apply in_map.
Qed.

Lemma dedup_on_length {A K : Type} (eqb : K -> K -> bool) (key : A -> K)
    (seen : list K) (l : list A) :
  List.length (QS.dedup_on eqb key seen l) <= List.length l.
Proof.
  revert seen. induction l as [| x l IH]; intros seen; simpl; [lia |].
  destruct (existsb _ seen); simpl; [specialize (IH seen) | specialize (IH (key x :: seen))];
    lia.
Qed.

Lemma count_distinct_id_le (qs : list Order.t) :
  QS.count_distinct_id qs <= List.length qs.
Proof. apply dedup_on_length. Qed.

Lemma count_distinct_id_pos (qs : list Order.t) (o : Order.t) :
  In o qs -> 0 < QS.count_distinct_id qs.
Proof.
  intros Ho. unfold QS.count_distinct_id, QS.distinct.
  destruct (dedup_on_complete Nat.eqb Order.id Nat.eqb_eq [] qs o Ho) as [o' [Ho' _]];
    [intros [] |].
  destruct (QS.dedup_on _ _ _ qs); [contradiction | simpl; lia].
Qed.

(** ** [_get_category_display] *)

Lemma dict_get_hit {V : Type} (d : list (string * V)) (k : string) (v default : V) :
  NoDup (map fst d) -> In (k, v) d -> Py.dict_get d k default = v.
Proof.
  induction d as [| [k' v'] d IH]; simpl; intros Hnd Hin; [contradiction |].
  inversion Hnd as [| x l Hk' Hd]; subst.
  destruct Hin as [[= -> ->] | Hin].
  - now rewrite String.eqb_refl.
  - destruct (String.eqb_spec k' k) as [-> | _]; [| now apply IH].
    exfalso. apply Hk'. change k with (fst (k, v)). now apply in_map.
Qed.

(** X1.  A category code listed in the choices is displayed as its label;
    any other code is displayed unchanged. *)
Theorem category_display_lookup (CATEGORY_CHOICES : list (string * string))
    (category_code : string) :
  (forall label,
      NoDup (map fst CATEGORY_CHOICES) -> In (category_code, label) CATEGORY_CHOICES ->
      _get_category_display CATEGORY_CHOICES category_code = label)
  /\ (~ In category_code (map fst CATEGORY_CHOICES) ->
      _get_category_display CATEGORY_CHOICES category_code = category_code).
Proof.
  split.
  - intros label Hnd Hin. now apply dict_get_hit.
  - intros Hout. now apply dict_get_miss.
Qed.

Lemma category_display_lookup_witness :
  _get_category_display Sample.CATEGORY_CHOICES "logistics" = "Logistics"
  /\ _get_category_display Sample.CATEGORY_CHOICES "weather" = "weather".
Proof.
  split.
  - apply (proj1 (category_display_lookup Sample.CATEGORY_CHOICES "logistics")).
    + simpl. repeat constructor; simpl; intuition discriminate.
    + simpl. tauto.
  - apply (proj2 (category_display_lookup Sample.CATEGORY_CHOICES "weather")).
    simpl. intuition discriminate.
Defined.

(** ** The delayed-orders view under its filters *)

Section ViewMembership.
Variable to_pk : string -> option nat.

Lemma orders_with_delay_reason_In (db : DB) (o : Order.t) :
  In o (orders_with_delay_reason db)
  <-> In o (Order_objects db)
      /\ Order.delay_reason o <> None /\ Order.delay_reason_reported_at o <> None.
Proof.
  unfold orders_with_delay_reason. rewrite filter_In, andb_true_iff.
  unfold QS.notnull, QS.isnull.
  destruct (Order.delay_reason o), (Order.delay_reason_reported_at o); simpl;
    intuition congruence.
Qed.

Lemma filter_branch_In (user_branch : option nat) (qs : list Order.t) (o : Order.t) :
  In o (filter_branch user_branch qs)
  <-> In o qs /\ (forall b, user_branch = Some b -> Order.branch o = Some b).
Proof.
  destruct user_branch as [b |]; simpl.
  - rewrite filter_In. unfold QS.exact. destruct (Order.branch o) as [b' |].
    + rewrite Nat.eqb_eq. split.
      * intros [H ->]. split; [exact H |]. now intros b0 [= ->].
      * intros [H Hb]. split; [exact H |]. specialize (Hb b eq_refl). congruence.
    + split; [intros [_ H]; discriminate H |].
      intros [_ Hb]. specialize (Hb b eq_refl). discriminate Hb.
  - split; [| tauto]. intros H. split; [exact H |]. discriminate.
Qed.

(** Membership in the delayed-orders view. *)
Lemma delayed_view_In (db : DB) (user_branch : option nat)
    (start_date : option Z) (selected_category selected_user selected_order_type : string)
    (view : list Order.t) (o : Order.t) :
  filtered_delayed_orders to_pk db user_branch start_date
    selected_category selected_user selected_order_type = Some view ->
  In o view
  <-> In o (Order_objects db)
      /\ Order.delay_reason o <> None
      /\ Order.delay_reason_reported_at o <> None
      /\ (forall b, user_branch = Some b -> Order.branch o = Some b)
      /\ (forall d, start_date = Some d ->
            exists t, Order.delay_reason_reported_at o = Some t /\ (d <= t)%Z)
      /\ (Py.truthy selected_category = true ->
          QS.delay_reason__category__category o = Some selected_category)
      /\ (Py.truthy selected_user = true ->
          exists uid, to_pk selected_user = Some uid
                      /\ Order.delay_reason_reported_by o = Some uid)
      /\ (Py.truthy selected_order_type = true ->
          Order.type o = selected_order_type).
Proof.
  unfold filtered_delayed_orders.
  destruct (filter_user to_pk selected_user _) as [qs |] eqn:E; [| discriminate].
  intros [= <-].
  rewrite (filter_order_type_In to_pk), (filter_user_In to_pk _ _ _ o E),
    (filter_category_In to_pk), filter_reported_since_In, filter_branch_In,
    orders_with_delay_reason_In.
  assert (Hs : match start_date with
               | Some d => QS.gte (Order.delay_reason_reported_at o) d = true
               | None => True
               end
               <-> (forall d, start_date = Some d ->
                      exists t, Order.delay_reason_reported_at o = Some t /\ (d <= t)%Z)).
  { destruct start_date as [d |]; [| split; [discriminate | trivial]].
    unfold QS.gte. destruct (Order.delay_reason_reported_at o) as [t |].
    - rewrite Z.leb_le. split.
      + intros H d0 [= <-]. now exists t.
      + intros H. destruct (H d eq_refl) as [t' [[= <-] Ht]]. exact Ht.
    - split; [discriminate |].
      intros H. destruct (H d eq_refl) as [t' [Ht _]]. discriminate Ht. }
  rewrite Hs. tauto.
Qed.

(** X2.  An order is in the delayed-orders view exactly when it is a row of
    the order table that has a delay reason and a report timestamp and
    meets every filter that is set: the caller's branch, a report no
    earlier than the start of the period, the category code, the reporter
    and the order type.  The view lists these orders in the order of the
    table. *)
Theorem delayed_view_membership (db : DB) (user_branch : option nat)
    (start_date : option Z) (selected_category selected_user selected_order_type : string)
    (view : list Order.t) :
  filtered_delayed_orders to_pk db user_branch start_date
    selected_category selected_user selected_order_type = Some view ->
  (forall o,
      In o view
      <-> In o (Order_objects db)
          /\ Order.delay_reason o <> None
          /\ Order.delay_reason_reported_at o <> None
          /\ (forall b, user_branch = Some b -> Order.branch o = Some b)
          /\ (forall d, start_date = Some d ->
                exists t, Order.delay_reason_reported_at o = Some t /\ (d <= t)%Z)
          /\ (Py.truthy selected_category = true ->
              QS.delay_reason__category__category o = Some selected_category)
          /\ (Py.truthy selected_user = true ->
              exists uid, to_pk selected_user = Some uid
                          /\ Order.delay_reason_reported_by o = Some uid)
          /\ (Py.truthy selected_order_type = true ->
              Order.type o = selected_order_type))
  /\ exists p, view = filter p (Order_objects db).
Proof.
  intros Hview. split.
  - intros o. now apply delayed_view_In.
  - eexists. exact (filtered_delayed_orders_form to_pk db _ _ _ _ _ view Hview).
Qed.

(** The later the period starts, the fewer orders the view has. *)
Lemma delayed_view_start_mono (db : DB) (user_branch : option nat)
    (start1 start2 : option Z) (selected_category selected_user selected_order_type : string)
    (view1 view2 : list Order.t) (o : Order.t) :
  match start2, start1 with
  | None, _ => True
  | Some d2, Some d1 => (d2 <= d1)%Z
  | Some _, None => False
  end ->
  filtered_delayed_orders to_pk db user_branch start1
    selected_category selected_user selected_order_type = Some view1 ->
  filtered_delayed_orders to_pk db user_branch start2
    selected_category selected_user selected_order_type = Some view2 ->
  In o view1 -> In o view2.
Proof.
  intros Hle H1 H2.
  rewrite (delayed_view_In _ _ _ _ _ _ _ o H1), (delayed_view_In _ _ _ _ _ _ _ o H2).
  intros (Hin & Hr & Hrep & Hb & Hs & Hrest). repeat split; try assumption; try tauto.
  intros d2 ->. destruct start1 as [d1 |]; [| contradiction].
  destruct (Hs d1 eq_refl) as [t [Et Ht]]. exists t. split; [exact Et | lia].
Qed.

End ViewMembership.

Lemma delayed_view_membership_witness :
  exists view,
    filtered_delayed_orders Sample.to_pk Sample2.week (Some 1)
      (Some (93 * Sample.day)%Z) "mechanical" "1" "service" = Some view
    /\ In Sample2.order1 view /\ ~ In Sample2.order3 view.
Proof.
  pose proof (delayed_view_membership Sample.to_pk Sample2.week (Some 1)
                (Some (93 * Sample.day)%Z) "mechanical" "1" "service") as H.
  destruct (filtered_delayed_orders Sample.to_pk Sample2.week (Some 1)
              (Some (93 * Sample.day)%Z) "mechanical" "1" "service")
    as [view |] eqn:E; [| vm_compute in E; discriminate E].
  exists view. split; [reflexivity |].
  destruct (H view eq_refl) as [Hin _].
  split.
  - apply Hin. split; [simpl; tauto |]. split; [discriminate |]. split; [discriminate |].
    split; [now intros b [= <-] |].
    split; [intros d [= <-]; eexists; split; [reflexivity | discriminate] |].
    split; [reflexivity |]. split; [intros _; now exists 1 |]. reflexivity.
  - intros Ho. apply Hin in Ho. destruct Ho as (_ & _ & _ & _ & _ & Hc & _).
    specialize (Hc eq_refl). discriminate Hc.
Defined.

(** X3.  A longer period never loses delayed orders: with the periods
    ordered ["7days"], ["30days"], ["90days"], ["6months"], ["1year"],
    ["all"], every order of the view of a period is in the view of each
    later period, for the same caller and the same other filters. *)
Theorem view_grows_with_period (to_pk : string -> option nat) (db : DB) (now : Z)
    (user_branch : option nat)
    (selected_category selected_user selected_order_type : string)
    (i j : nat) (shorter longer : string) (view_shorter view_longer : list Order.t)
    (o : Order.t) :
  i <= j ->
  nth_error Closed.periods i = Some shorter ->
  nth_error Closed.periods j = Some longer ->
  filtered_delayed_orders to_pk db user_branch (_get_start_date_from_period now shorter)
    selected_category selected_user selected_order_type = Some view_shorter ->
  filtered_delayed_orders to_pk db user_branch (_get_start_date_from_period now longer)
    selected_category selected_user selected_order_type = Some view_longer ->
  In o view_shorter -> In o view_longer.
Proof.
  intros Hij Hi Hj. unfold Closed.periods in Hi, Hj.
  apply delayed_view_start_mono.
  destruct i as [| [| [| [| [| [| i]]]]]]; simpl in Hi;
    try (destruct i; discriminate Hi); injection Hi as <-;
    destruct j as [| [| [| [| [| [| j]]]]]]; simpl in Hj;
    try (destruct j; discriminate Hj); injection Hj as <-;
    try lia; simpl; unfold Py.timedelta_days; try lia; exact I.
Qed.

Lemma view_grows_with_period_witness :
  exists week_view quarter_view,
    filtered_delayed_orders Sample.to_pk Sample.late_reports (Some 1)
      (_get_start_date_from_period Sample.now "7days") "" "" "" = Some week_view
    /\ filtered_delayed_orders Sample.to_pk Sample.late_reports (Some 1)
         (_get_start_date_from_period Sample.now "90days") "" "" "" = Some quarter_view
    /\ forall o, In o week_view -> In o quarter_view.
Proof.
  do 2 eexists. split; [reflexivity |]. split; [reflexivity |].
  intros o.
  apply (view_grows_with_period Sample.to_pk Sample.late_reports Sample.now (Some 1)
           "" "" "" 0 2 "7days" "90days"); try reflexivity.
  lia.
Defined.

(** ** The endpoints and the user filter *)

Lemma by_user_raises (to_pk : string -> option nat) (db : DB) (users : list User.t)
    (now : Z) (user_branch : option nat) (GET : list (string * string)) :
  api_delay_by_user to_pk db users now user_branch GET = None
  <-> Py.truthy (GET_get GET "user" "") = true /\ to_pk (GET_get GET "user" "") = None.
Proof.
  unfold api_delay_by_user, filter_user.
  destruct (Py.truthy (GET_get GET "user" "")).
  - destruct (to_pk (GET_get GET "user" "")); split; try discriminate; try tauto.
    intros [_ H]. discriminate H.
  - split; [discriminate | intros [H _]; discriminate H].
Qed.

(** X4.  Each endpoint that takes the user filter fails, with no response,
    exactly when the [user] parameter is non-empty and is not an
    identifier; an identifier that no order carries is not an error. *)
Theorem user_filter_raises (CATEGORY_CHOICES TYPE_CHOICES : list (string * string))
    (to_pk : string -> option nat) (TruncDate : Z -> Z) (strftime : Z -> string)
    (db : DB) (users : list User.t) (now : Z) (user_branch : option nat)
    (GET : list (string * string)) :
  let raises :=
    Py.truthy (GET_get GET "user" "") = true /\ to_pk (GET_get GET "user" "") = None in
  (delay_analytics_dashboard to_pk db now user_branch GET = None <-> raises)
  /\ (api_delay_analytics_summary to_pk db now user_branch GET = None <-> raises)
  /\ (api_delay_reasons_breakdown CATEGORY_CHOICES to_pk db now user_branch GET = None
      <-> raises)
  /\ (api_delay_trends to_pk TruncDate strftime db now user_branch GET = None <-> raises)
  /\ (api_delay_by_order_type to_pk TYPE_CHOICES db now user_branch GET = None <-> raises)
  /\ (api_delay_by_user to_pk db users now user_branch GET = None <-> raises)
  /\ (api_all_delay_reasons CATEGORY_CHOICES to_pk db now user_branch GET = None <-> raises).
Proof.
  intros raises.
  pose proof (filtered_delayed_orders_raises to_pk db user_branch
                (_get_start_date_from_period now (GET_get GET "period" "30days"))
                (GET_get GET "category" "") (GET_get GET "user" "")
                (GET_get GET "order_type" "")) as Hview.
  fold raises in Hview.
  split; [| split; [| split; [| split; [| split; [| split]]]]].
  - rewrite <- Hview. unfold delay_analytics_dashboard.
    destruct (filtered_delayed_orders _ _ _ _ _ _ _); cbv zeta; [| tauto].
    split; discriminate.
  - rewrite <- Hview. unfold api_delay_analytics_summary.
    destruct (filtered_delayed_orders _ _ _ _ _ _ _); cbv zeta; [| tauto].
    destruct (fold_left _ _ _). split; discriminate.
  - apply category_breakdown_raises.
  - rewrite <- Hview. unfold api_delay_trends.
    destruct (filtered_delayed_orders _ _ _ _ _ _ _); cbv zeta; [| tauto].
    split; discriminate.
  - rewrite <- Hview. unfold api_delay_by_order_type.
    destruct (filtered_delayed_orders _ _ _ _ _ _ _); cbv zeta; [| tauto].
    split; discriminate.
  - apply by_user_raises.
  - apply all_reasons_raises.
Qed.

(** ** Rounding *)



Lemma round_half_even_le (x : Q) (k : Z) :
  (x <= inject_Z k)%Q -> (Py.round_half_even x <= k)%Z.
Proof.
  intros Hx. unfold Py.round_half_even.
  pose proof (Qfloor_le x) as Hf.
  assert (Hfk : (Qfloor x <= k)%Z).
  { rewrite Zle_Qle. now apply Qle_trans with x. }
  assert (Hstrict : (0 < x - inject_Z (Qfloor x))%Q -> (Qfloor x + 1 <= k)%Z).
  { intros Hr.
    assert (Hlt : (inject_Z (Qfloor x) < inject_Z k)%Q).
    { apply Qlt_le_trans with x; [| exact Hx]. lra. }
    rewrite <- Zlt_Qlt in Hlt. lia. }
  destruct (x - inject_Z (Qfloor x) ?= 1 # 2)%Q eqn:Ec.
  - apply Qeq_alt in Ec.
    destruct (Z.even (Qfloor x)); [exact Hfk |]. apply Hstrict. rewrite Ec. reflexivity.
  - exact Hfk.
  - apply Qgt_alt in Ec. apply Hstrict. apply Qlt_trans with (1 # 2)%Q; [reflexivity | exact Ec].
Qed.

Lemma round_le (x : Q) (k : Z) (ndigits : nat) :
  (x <= inject_Z k)%Q -> (Py.round x ndigits <= inject_Z k)%Q.
Proof.
  intros Hx. unfold Py.round.
  assert (Hs : (0 < 10 ^ Z.of_nat ndigits)%Z) by (apply Z.pow_pos_nonneg; lia).
  assert (Hs' : (0 < inject_Z (10 ^ Z.of_nat ndigits))%Q).
  { change 0%Q with (inject_Z 0). now rewrite <- Zlt_Qlt. }
  apply Qle_shift_div_r; [exact Hs' |].
  rewrite <- inject_Z_mult, <- Zle_Qle.
  apply round_half_even_le. rewrite inject_Z_mult.
  apply Qmult_le_compat_r; [exact Hx | now apply Qlt_le_weak].
Qed.

Lemma truediv_percent_le (a b : nat) :
  0 < b -> a <= b -> (Py.truediv a b * 100 <= inject_Z 100)%Q.
Proof.
  intros Hb Hab. unfold Py.truediv.
  assert (Hb' : (0 < inject_Z (Z.of_nat b))%Q).
  { change 0%Q with (inject_Z 0). rewrite <- Zlt_Qlt. lia. }
  assert (H1 : (inject_Z (Z.of_nat a) / inject_Z (Z.of_nat b) <= 1)%Q).
  { apply Qle_shift_div_r; [exact Hb' |]. rewrite Qmult_1_l, <- Zle_Qle. lia. }
  change (inject_Z 100) with (1 * 100)%Q.
  apply Qmult_le_compat_r; [exact H1 | discriminate].
Qed.

Lemma firstn_In {A : Type} (n : nat) (l : list A) (x : A) :
  In x (firstn n l) -> In x l.
Proof.
  intros H. rewrite <- (firstn_skipn n l). apply in_or_app. now left.
Qed.

(** ** [api_delay_analytics_summary]: the other figures *)

Lemma summary_percentage_lower_bound_witness :
  (exists summary,
      api_delay_analytics_summary Sample.to_pk Sample2.week Sample.now (Some 1) []
      = Some summary
      /\ (0 <= Summary.delay_percentage summary)%Q)
  /\ (exists summary,
        api_delay_analytics_summary Sample.to_pk Sample.empty_db Sample.now (Some 1) []
        = Some summary
        /\ (Summary.delay_percentage summary == 0)%Q).
Proof.
  split; eexists; (split; [reflexivity |]).
  - apply (summary_percentage_lower_bound Sample.to_pk Sample2.week Sample.now (Some 1) []).
    reflexivity.
  - apply (summary_percentage_lower_bound Sample.to_pk Sample.empty_db Sample.now (Some 1)
             []); reflexivity.
Defined.

(** X6.  The summary never reports more orders over the duration limit than
    delayed orders. *)
Theorem summary_exceeded_le_delayed (to_pk : string -> option nat) (db : DB) (now : Z)
    (user_branch : option nat) (GET : list (string * string)) (summary : Summary.summary) :
  api_delay_analytics_summary to_pk db now user_branch GET = Some summary ->
  Summary.exceeded_2_hours summary <= Summary.total_delayed_orders summary.
Proof.
  unfold api_delay_analytics_summary.
  destruct (filtered_delayed_orders _ _ _ _ _ _ _) as [view |]; [| discriminate].
  destruct (fold_left summary_duration_step _ _) as [total_duration count].
  intros [= <-]. cbn [Summary.exceeded_2_hours Summary.total_delayed_orders].
  apply (count_distinct_id_filter Order.exceeded_9_hours view).
Qed.

Lemma summary_exceeded_le_delayed_witness :
  exists summary,
    api_delay_analytics_summary Sample.to_pk Sample2.week Sample.now (Some 1) []
    = Some summary
    /\ Summary.exceeded_2_hours summary <= Summary.total_delayed_orders summary.
Proof.
  eexists. split; [reflexivity |].
  apply (summary_exceeded_le_delayed Sample.to_pk Sample2.week Sample.now (Some 1) []).
  reflexivity.
Defined.




(** ** [delay_analytics_dashboard]: the bounds of the rate *)

(** X8.  The delay rate of the dashboard is never negative.  For a caller
    with a branch it is at most 100 when every delayed order of the view
    is completed; the delayed orders that are not completed are counted
    above the line only. *)
Theorem dashboard_rate_bounds (to_pk : string -> option nat) (db : DB) (now : Z)
    (user_branch : option nat) (GET : list (string * string))
    (context : Dashboard.context) :
  delay_analytics_dashboard to_pk db now user_branch GET = Some context ->
  (0 <= Dashboard.delay_rate context)%Q
  /\ (forall b view,
        user_branch = Some b ->
        filtered_delayed_orders to_pk db user_branch
          (_get_start_date_from_period now (GET_get GET "period" "30days"))
          (GET_get GET "category" "") (GET_get GET "user" "")
          (GET_get GET "order_type" "") = Some view ->
        (forall o, In o view -> Order.status o = "completed") ->
        (Dashboard.delay_rate context <= 100)%Q).
Proof.
  unfold delay_analytics_dashboard.
  set (start_date := _get_start_date_from_period now (GET_get GET "period" "30days")).
  destruct (filtered_delayed_orders _ _ _ _ _ _ _) as [orders_qs |] eqn:Eview;
    [| discriminate].
  intros [= <-]. cbn [Dashboard.delay_rate].
  set (total_orders := dashboard_total_orders db user_branch start_date).
  split.
  - apply round_nonneg.
    destruct (Nat.ltb_spec 0 (List.length total_orders)) as [Hpos | _]; [| apply Qle_refl].
    apply Qmult_le_0_compat; [now apply truediv_nonneg | discriminate].
  - intros b view -> [= <-] Hcompleted.
    change 100%Q with (inject_Z 100). apply round_le.
    destruct (Nat.ltb_spec 0 (List.length total_orders)) as [Hpos | _]; [| discriminate].
    apply truediv_percent_le; [exact Hpos |].
    assert (Hincl : incl orders_qs total_orders).
    { intros o Ho. apply dashboard_total_orders_In.
      pose proof (Hcompleted o Ho) as Hc.
      apply (delayed_view_In to_pk _ _ _ _ _ _ _ o Eview) in Ho.
      destruct Ho as (Hin & _ & Hrep & Hb & Hs & _).
      repeat split; try assumption.
      - now apply Hb.
      - destruct start_date as [d |]; [| exact I].
        destruct (Hs d eq_refl) as [t [-> Ht]]. simpl. now apply Z.leb_le. }
    pose proof (filtered_delayed_orders_form to_pk db _ _ _ _ _ _ Eview) as Eform.
    set (V := fun o : Order.t => _) in Eform.
    assert (Eform' : exists T, total_orders = filter T (Order_objects db)).
    { unfold total_orders, dashboard_total_orders.
      rewrite filter_reported_since_form, filter_filter_andb. eauto. }
    destruct Eform' as [T ET].
    rewrite Eform, ET. apply filter_length_impl.
    intros o Ho Hv.
    assert (Hin : In o orders_qs) by (rewrite Eform; apply filter_In; now split).
    apply Hincl in Hin. rewrite ET in Hin. apply filter_In in Hin. tauto.
Qed.

Lemma dashboard_rate_bounds_witness :
  exists context,
    delay_analytics_dashboard Sample.to_pk Sample.scenario_A Sample.now (Some 1) []
    = Some context
    /\ (0 <= Dashboard.delay_rate context <= 100)%Q.
Proof.
  pose proof (dashboard_rate_bounds Sample.to_pk Sample.scenario_A Sample.now (Some 1) [])
    as H.
  destruct (delay_analytics_dashboard Sample.to_pk Sample.scenario_A Sample.now (Some 1) [])
    as [context |] eqn:E; [| vm_compute in E; discriminate E].
  exists context. split; [reflexivity |].
  destruct (H context eq_refl) as [Hlow Hhigh]. split; [exact Hlow |].
  eapply (Hhigh 1); [reflexivity | reflexivity |].
  intros o Ho. simpl in Ho.
  repeat (destruct Ho as [<- | Ho]; [reflexivity |]). contradiction.
Defined.

(** ** [api_delay_impact_analysis]: revenue, customers and reasons *)

Lemma invoice_loop (invoices : list Invoice.t) (acc : Q) :
  (fold_left (fun acc invoice =>
                match Invoice.total_amount invoice with
                | Some amount => if Qeq_bool amount 0 then acc else (acc + amount)%Q
                | None => acc
                end) invoices acc
   == acc + Spec.Qsum (map Closed.invoice_amount invoices))%Q.
Proof.
  revert acc. induction invoices as [| i invoices IH]; intros acc; simpl.
  - ring.
  - rewrite IH. unfold Closed.invoice_amount.
    destruct (Invoice.total_amount i) as [amount |]; [| ring].
    destruct (Qeq_bool amount 0) eqn:E; [| ring].
    apply Qeq_bool_eq in E. rewrite E. ring.
Qed.

Lemma impact_loop_revenue (l : list Order.t) (st : Q * Q) :
  (snd (fold_left impact_step l st)
   == snd st + Spec.Qsum (map Closed.order_revenue (filter Closed.timed l)))%Q.
Proof.
  revert st. induction l as [| o l IH]; intros st; simpl.
  - ring.
  - rewrite IH. unfold impact_step, Closed.timed, QS.notnull, QS.isnull.
    destruct (Order.started_at o), (Order.completed_at o); simpl; try ring.
    rewrite invoice_loop. unfold Closed.order_revenue. ring.
Qed.

(** X9.  The revenue estimate of the impact analysis adds up the invoice
    amounts of the delayed orders in scope and period that have both a
    start and a completion timestamp, an invoice without an amount counting
    for nothing; the invoices of a delayed order that lacks a timestamp are
    left out. *)
Theorem impact_revenue (CATEGORY_CHOICES : list (string * string)) (db : DB)
    (now : Z) (user_branch : option nat) (GET : list (string * string)) :
  let orders_qs :=
    scoped_delayed_orders db user_branch
      (_get_start_date_from_period now (GET_get GET "period" "30days")) in
  (Impact.estimated_revenue_impact
     (Impact.impact_ (api_delay_impact_analysis CATEGORY_CHOICES db now user_branch GET))
   == Spec.Qsum (map Closed.order_revenue (filter Closed.timed orders_qs)))%Q.
Proof.
  intros orders_qs. unfold api_delay_impact_analysis. fold orders_qs.
  pose proof (impact_loop_revenue
                (filter (fun o => QS.notnull (Order.started_at o)
                                  && QS.notnull (Order.completed_at o)) orders_qs)
                (0%Q, 0%Q)) as H.
  fold (impact_totals orders_qs) in H.
  destruct (impact_totals orders_qs) as [hours revenue].
  cbn [Impact.impact_ Impact.estimated_revenue_impact]. cbn [snd] in H.
  rewrite H, Qplus_0_l.
  change (filter (fun o => QS.notnull (Order.started_at o)
                           && QS.notnull (Order.completed_at o)) orders_qs)
    with (filter Closed.timed orders_qs).
  rewrite filter_filter_andb.
  rewrite (filter_ext (fun x => Closed.timed x && Closed.timed x) Closed.timed);
    [reflexivity |].
  intros o. now destruct (Closed.timed o).
Qed.

(** On the sample week the order that never started has an invoice of 50,
    which the estimate leaves out. *)
Lemma impact_revenue_sample :
  (Impact.estimated_revenue_impact
     (Impact.impact_ (api_delay_impact_analysis Sample.CATEGORY_CHOICES Sample2.week
                        Sample.now (Some 1%nat) []))
   == 205 # 2)%Q
  /\ In Sample2.order3
        (scoped_delayed_orders Sample2.week (Some 1)
           (_get_start_date_from_period Sample.now "30days"))
  /\ (Closed.order_revenue Sample2.order3 == 50)%Q.
Proof.
  split; [vm_compute; reflexivity |]. split; [vm_compute; tauto | vm_compute; reflexivity].
Qed.

(** X10.  The customers with repeat delays are among the customers
    affected, and no more customers are affected than there are delayed
    orders. *)
Theorem impact_customer_counts (CATEGORY_CHOICES : list (string * string)) (db : DB)
    (now : Z) (user_branch : option nat) (GET : list (string * string)) :
  let impact :=
    Impact.impact_ (api_delay_impact_analysis CATEGORY_CHOICES db now user_branch GET) in
  Impact.customers_with_repeat_delays impact
  <= Impact.total_unique_customers_affected impact
  /\ Impact.total_unique_customers_affected impact
     <= List.length
          (scoped_delayed_orders db user_branch
             (_get_start_date_from_period now (GET_get GET "period" "30days"))).
Proof.
  unfold api_delay_impact_analysis.
  set (orders_qs := scoped_delayed_orders _ _ _).
  destruct (impact_totals orders_qs) as [hours revenue].
  cbn [Impact.impact_ Impact.customers_with_repeat_delays
         Impact.total_unique_customers_affected].
  split.
  - eapply Nat.le_trans; [apply filter_length_le |].
    unfold QS.values_count, QS.group_by. now rewrite !length_map.
  - eapply Nat.le_trans; [apply dedup_on_length |]. now rewrite length_map.
Qed.

Lemma StronglySorted_firstn {A : Type} (R : A -> A -> Prop) (n : nat) (l : list A) :
  StronglySorted R l -> StronglySorted R (firstn n l).
Proof.
  intros Hs. revert n. induction Hs as [| a l Hl IH Ha]; intros n.
  - rewrite firstn_nil. constructor.
  - destruct n as [| n]; simpl; constructor; [apply IH |].
    apply Forall_forall. intros x Hx. apply firstn_In in Hx.
    rewrite Forall_forall in Ha. now apply Ha.
Qed.

Lemma scoped_delayed_orders_NoDup (db : DB) (user_branch : option nat)
    (start_date : option Z) :
  NoDup (map Order.id (Order_objects db)) ->
  NoDup (map Order.id (scoped_delayed_orders db user_branch start_date)).
Proof.
  intros Hnd. unfold scoped_delayed_orders, orders_with_delay_reason.
  rewrite filter_reported_since_form, filter_branch_form.
  now repeat apply NoDup_map_filter.
Qed.

Lemma count_distinct_id_length (qs : list Order.t) :
  NoDup (map Order.id qs) -> QS.count_distinct_id qs = List.length qs.
Proof.
  intros Hnd. unfold QS.count_distinct_id. now rewrite distinct_id.
Qed.

Lemma count_distinct_customer_le (qs : list Order.t) :
  QS.count_distinct_customer qs <= List.length qs.
Proof.
  unfold QS.count_distinct_customer.
  eapply Nat.le_trans; [apply dedup_on_length |].
  induction qs as [| o qs IH]; simpl; [lia |].
  rewrite length_app. destruct (Order.customer o); simpl; lia.
Qed.

(** X11.  The impact analysis lists at most five reasons, by count with the
    largest first; each listed reason has at least one order, and, the
    orders having distinct primary keys, affects no more customers than it
    has orders. *)
Theorem impact_reason_rows (CATEGORY_CHOICES : list (string * string)) (db : DB)
    (now : Z) (user_branch : option nat) (GET : list (string * string)) :
  let rows :=
    Impact.reason_impact (api_delay_impact_analysis CATEGORY_CHOICES db now user_branch GET) in
  List.length rows <= 5
  /\ StronglySorted (fun a b => Impact.count b <= Impact.count a) rows
  /\ (forall row, In row rows -> 1 <= Impact.count row)
  /\ (NoDup (map Order.id (Order_objects db)) ->
      forall row, In row rows -> Impact.affected_customers row <= Impact.count row).
Proof.
  unfold api_delay_impact_analysis.
  set (orders_qs := scoped_delayed_orders _ _ _).
  destruct (impact_totals orders_qs) as [hours revenue].
  cbn [Impact.reason_impact].
  set (groups := QS.group_by reason_key_eqb _ orders_qs).
  set (sorted := Py.sort_by_key_reverse (fun g => QS.count_distinct_id (snd g)) groups).
  assert (Hgroup : forall g, In g (firstn 5 sorted) -> In g groups).
  { intros g Hg. apply firstn_In in Hg.
    eapply Permutation_in; [apply sort_perm | exact Hg]. }
  split; [| split; [| split]].
  - rewrite length_map. apply firstn_le_length.
  - apply StronglySorted_map. cbn [Impact.count].
    apply StronglySorted_firstn. apply sort_by_key_reverse_sorted.
  - intros row Hrow. apply in_map_iff in Hrow. destruct Hrow as [g [<- Hg]].
    cbn [Impact.count]. apply Hgroup in Hg.
    destruct (group_by_nonempty reason_key_eqb _ reason_key_eqb_eq orders_qs g Hg)
      as [o [Ho _]].
    now apply (count_distinct_id_pos (snd g) o).
  - intros Hnd row Hrow. apply in_map_iff in Hrow. destruct Hrow as [g [<- Hg]].
    cbn [Impact.count Impact.affected_customers]. apply Hgroup in Hg.
    apply (group_by_In reason_key_eqb _ reason_key_eqb_eq) in Hg.
    destruct Hg as [_ Hg]. rewrite Hg.
    rewrite count_distinct_id_length.
    + apply count_distinct_customer_le.
    + apply NoDup_map_filter. now apply scoped_delayed_orders_NoDup.
Qed.

Lemma impact_reason_rows_witness :
  Forall (fun row => Impact.affected_customers row <= Impact.count row)
    (Impact.reason_impact
       (api_delay_impact_analysis Sample.CATEGORY_CHOICES Sample2.week
          Sample.now (Some 1) [])).
Proof.
  apply Forall_forall.
  apply (impact_reason_rows Sample.CATEGORY_CHOICES Sample2.week Sample.now (Some 1) []).
  vm_compute. repeat constructor; simpl; intuition discriminate.
Defined.

(** ** Annotated counts *)

Section ValuesCountFacts.
Context {K : Type} (eqb : K -> K -> bool) (key : Order.t -> K).
Hypothesis eqb_eq : forall a b, eqb a b = true <-> a = b.

Lemma values_count_In (qs : list Order.t) (row : K * nat) :
  In row (QS.values_count eqb key qs)
  <-> (exists o, In o qs /\ key o = fst row)
      /\ snd row = QS.count_distinct_id (filter (fun o => eqb (key o) (fst row)) qs).
Proof.
  unfold QS.values_count. rewrite in_map_iff. split.
  - intros [g [<- Hg]]. apply (group_by_In eqb key eqb_eq) in Hg.
    destruct Hg as [Hex Hg]. cbn [fst snd]. now rewrite Hg.
  - intros [Hex Hn].
    exists (fst row, filter (fun o => eqb (key o) (fst row)) qs). split.
    + destruct row as [k n]. cbn [fst snd] in *. now rewrite Hn.
    + apply (group_by_In eqb key eqb_eq). cbn [fst snd]. now split.
Qed.

Lemma values_count_keys_NoDup (qs : list Order.t) :
  NoDup (map fst (QS.values_count eqb key qs)).
Proof.
  unfold QS.values_count. rewrite map_map. cbn [fst].
  apply (group_by_keys_NoDup eqb key eqb_eq).
Qed.

Lemma values_count_pos (qs : list Order.t) (row : K * nat) :
  In row (QS.values_count eqb key qs) -> 1 <= snd row.
Proof.
  intros Hrow. apply values_count_In in Hrow. destruct Hrow as [[o [Ho E]] ->].
  apply (count_distinct_id_pos _ o). apply filter_In. split; [exact Ho |].
  now apply eqb_eq.
Qed.

(** On rows with distinct primary keys the counts of the groups add up to
    the number of rows. *)
Lemma values_count_sum (qs : list Order.t) :
  NoDup (map Order.id qs) ->
  list_sum (map snd (QS.values_count eqb key qs)) = List.length qs.
Proof.
  intros Hnd. rewrite <- (group_by_sizes eqb key eqb_eq qs).
  unfold QS.values_count. rewrite map_map. cbn [snd].
  f_equal. apply map_ext_in. intros g Hg.
  apply (group_by_In eqb key eqb_eq) in Hg. destruct Hg as [_ ->].
  apply count_distinct_id_length. now apply NoDup_map_filter.
Qed.

End ValuesCountFacts.

Lemma filtered_delayed_orders_NoDup (to_pk : string -> option nat) (db : DB)
    (user_branch : option nat) (start_date : option Z)
    (selected_category selected_user selected_order_type : string) (view : list Order.t) :
  NoDup (map Order.id (Order_objects db)) ->
  filtered_delayed_orders to_pk db user_branch start_date
    selected_category selected_user selected_order_type = Some view ->
  NoDup (map Order.id view).
Proof.
  intros Hnd Hview. rewrite (filtered_delayed_orders_form to_pk db _ _ _ _ _ view Hview).
  now apply NoDup_map_filter.
Qed.

(** ** [api_all_delay_reasons]: the listing *)

(** X12.  When the view has delayed orders, with distinct primary keys, the
    listing succeeds; its total is the number of orders of the view; each
    reason of the view is listed once, with at least one order; the counts
    add up to the total; and the rows come by count, largest first. *)
Theorem all_reasons_listing (CATEGORY_CHOICES : list (string * string))
    (to_pk : string -> option nat) (db : DB) (now : Z) (user_branch : option nat)
    (GET : list (string * string)) (view : list Order.t)
    (response : AllReasons.response) :
  NoDup (map Order.id (Order_objects db)) ->
  filtered_delayed_orders to_pk db user_branch
    (_get_start_date_from_period now (GET_get GET "period" "30days"))
    (GET_get GET "category" "") (GET_get GET "user" "") (GET_get GET "order_type" "")
  = Some view ->
  view <> [] ->
  api_all_delay_reasons CATEGORY_CHOICES to_pk db now user_branch GET = Some response ->
  let data := AllReasons.data response in
  AllReasons.success response = true
  /\ AllReasons.total response = List.length view
  /\ list_sum (map AllReasons.count data) = List.length view
  /\ NoDup (map (fun row => (AllReasons.id row, AllReasons.reason_text row,
                             AllReasons.category row)) data)
  /\ (forall o, In o view ->
        exists row, In row data
                    /\ (AllReasons.id row, AllReasons.reason_text row,
                        AllReasons.category row) = all_reasons_key o)
  /\ (forall row, In row data -> 1 <= AllReasons.count row)
  /\ StronglySorted (fun a b => AllReasons.count b <= AllReasons.count a) data.
Proof.
  intros Hnd Hview Hne. unfold api_all_delay_reasons. rewrite Hview.
  destruct (Nat.eqb_spec (List.length view) 0) as [E | _];
    [destruct view; [congruence | discriminate E] |].
  intros [= <-]. cbn [AllReasons.data AllReasons.success AllReasons.total]. cbv zeta.
  set (counts := QS.values_count all_reasons_key_eqb all_reasons_key view).
  assert (Hperm : Permutation (QS.order_by_count_desc counts) counts) by apply sort_perm.
  split; [reflexivity |]. split; [reflexivity |].
  split; [| split; [| split; [| split]]].
  - rewrite map_map. cbn [AllReasons.count].
    rewrite (list_sum_perm _ (map snd counts)); [| now apply Permutation_map].
    apply (values_count_sum all_reasons_key_eqb all_reasons_key all_reasons_key_eqb_eq).
    exact (filtered_delayed_orders_NoDup to_pk db _ _ _ _ _ view Hnd Hview).
  - rewrite map_map. cbn [AllReasons.id AllReasons.reason_text AllReasons.category].
    apply (Permutation_NoDup (l := map fst counts)).
    + apply Permutation_sym.
      rewrite (map_ext (fun x : option nat * option string * option string * nat =>
                          (fst (fst (fst x)), snd (fst (fst x)), snd (fst x))) fst).
      * now apply Permutation_map.
      * now intros [[[a b] c] n].
    + apply (values_count_keys_NoDup all_reasons_key_eqb all_reasons_key
               all_reasons_key_eqb_eq).
  - intros o Ho.
    assert (Hrow : In (all_reasons_key o,
                       QS.count_distinct_id
                         (filter (fun o' => all_reasons_key_eqb (all_reasons_key o')
                                              (all_reasons_key o)) view)) counts).
    { apply (values_count_In all_reasons_key_eqb all_reasons_key all_reasons_key_eqb_eq).
      cbn [fst snd]. split; [now exists o | reflexivity]. }
    apply (Permutation_in _ (Permutation_sym Hperm)) in Hrow.
    eexists. split; [apply in_map; exact Hrow |].
    cbn [AllReasons.id AllReasons.reason_text AllReasons.category fst snd].
    now destruct (all_reasons_key o) as [[a b] c].
  - intros row Hrow. apply in_map_iff in Hrow. destruct Hrow as [item [<- Hitem]].
    cbn [AllReasons.count].
    apply (Permutation_in _ Hperm) in Hitem.
    exact (values_count_pos all_reasons_key_eqb all_reasons_key all_reasons_key_eqb_eq
             view item Hitem).
  - apply StronglySorted_map. cbn [AllReasons.count].
    apply sort_by_key_reverse_sorted.
Qed.

Lemma sample_week_ids : NoDup (map Order.id (Order_objects Sample2.week)).
Proof. vm_compute. repeat constructor; simpl; intuition discriminate. Qed.

Lemma all_reasons_listing_witness :
  match api_all_delay_reasons Sample.CATEGORY_CHOICES Sample.to_pk Sample2.week Sample.now
          (Some 1) [] with
  | Some response =>
      AllReasons.total response = 4
      /\ list_sum (map AllReasons.count (AllReasons.data response)) = 4
  | None => False
  end.
Proof.
  pose proof (all_reasons_listing Sample.CATEGORY_CHOICES Sample.to_pk Sample2.week
                Sample.now (Some 1) []) as H.
  destruct (api_all_delay_reasons Sample.CATEGORY_CHOICES Sample.to_pk Sample2.week
              Sample.now (Some 1) []) as [response |] eqn:E;
    [| vm_compute in E; discriminate E].
  destruct (filtered_delayed_orders Sample.to_pk Sample2.week (Some 1)
              (_get_start_date_from_period Sample.now (GET_get [] "period" "30days"))
              (GET_get [] "category" "") (GET_get [] "user" "") (GET_get [] "order_type" ""))
    as [view |] eqn:Ev; [| vm_compute in Ev; discriminate Ev].
  assert (Hne : view <> []).
  { vm_compute in Ev. injection Ev as <-. discriminate. }
  destruct (H view response sample_week_ids eq_refl Hne eq_refl) as (_ & Ht & Hs & _).
  vm_compute in Ev. injection Ev as <-. split; [exact Ht | exact Hs].
Defined.

(** ** [api_delay_by_order_type] *)



(** ** Sorting rows that all carry a date *)

Section SortedOn.
Context {A : Type} (before : A -> A -> bool) (P : A -> Prop) (le : A -> A -> Prop).
Hypothesis le_trans : forall a b c, P a -> P b -> P c -> le a b -> le b c -> le a c.
Hypothesis before_le : forall y x, P y -> P x -> before y x = true -> le y x.
Hypothesis not_before_le : forall y x, P y -> P x -> before y x = false -> le x y.

Lemma insert_sorted_on (x : A) (l : list A) :
  P x -> Forall P l -> StronglySorted le l -> StronglySorted le (Py.insert before x l).
Proof.
  intros Hx. induction l as [| y l IH]; simpl; intros HP Hs.
  - constructor; constructor.
  - inversion Hs as [| y' l' Hl Hy]; subst.
    inversion HP as [| y' l' Py Pl]; subst.
    rewrite Forall_forall in Hy, Pl.
    destruct (before y x) eqn:E.
    + constructor; [apply IH; [now apply Forall_forall | exact Hl] |].
      apply Forall_forall. intros z Hz.
      apply (Permutation_in _ (insert_perm before x l)) in Hz.
      destruct Hz as [<- | Hz]; [now apply before_le | now apply Hy].
    + constructor; [exact Hs |].
      constructor; [now apply not_before_le |].
      apply Forall_forall. intros z Hz.
      apply le_trans with y; auto.
Qed.

Lemma sort_sorted_on (l : list A) : Forall P l -> StronglySorted le (Py.sort before l).
Proof.
  induction l as [| x l IH]; simpl; intros HP; [constructor |].
  inversion HP as [| x' l' Px Pl]; subst.
  apply insert_sorted_on; [exact Px | | now apply IH].
  apply Forall_forall. intros z Hz.
  apply (Permutation_in _ (sort_perm before l)) in Hz.
  rewrite Forall_forall in Pl. now apply Pl.
Qed.

End SortedOn.





Lemma StronglySorted_map_inv {A B : Type} (f : A -> B) (R : A -> A -> Prop)
    (S : B -> B -> Prop) (l : list A) :
  (forall x y, In x l -> In y l -> R x y -> S (f x) (f y)) ->
  StronglySorted R l -> StronglySorted S (map f l).
Proof.
  intros H Hs. induction Hs as [| a l Hl IH Ha]; simpl; constructor.
  - apply IH. intros x y Hx Hy. apply H; now right.
  - apply Forall_forall. intros b Hb. apply in_map_iff in Hb. destruct Hb as [x [<- Hx]].
    rewrite Forall_forall in Ha. apply H; [now left | now right | now apply Ha].
Qed.

(** ** [api_delay_trends]: the daily rows *)








(** ** [api_delay_by_user] *)

(** The orders [api_delay_by_user] groups: those of the filtered view that
    carry a reporter. *)
Lemma by_user_orders (to_pk : string -> option nat) (db : DB) (users : list User.t)
    (now : Z) (user_branch : option nat) (GET : list (string * string))
    (view : list Order.t) (response : ByUser.response) :
  filtered_delayed_orders to_pk db user_branch
    (_get_start_date_from_period now (GET_get GET "period" "30days"))
    (GET_get GET "category" "") (GET_get GET "user" "") (GET_get GET "order_type" "")
  = Some view ->
  api_delay_by_user to_pk db users now user_branch GET = Some response ->
  ByUser.data response
  = map (fun g =>
           {| ByUser.user_id := fst (fst (fst (fst g)));
              ByUser.user_name :=
                reporter_name (snd (fst (fst (fst g)))) (snd (fst (fst g))) (snd (fst g));
              ByUser.delay_count := QS.count_distinct_id (snd g);
              ByUser.exceeded_2h_count :=
                QS.count_distinct_id (filter Order.exceeded_9_hours (snd g)) |})
        (Py.sort_by_key_reverse (fun g => QS.count_distinct_id (snd g))
           (QS.group_by reporter_key_eqb (reporter_key users)
              (filter (fun o => QS.notnull (Order.delay_reason_reported_by o)) view))).
Proof.
  intros Hview. rewrite (filtered_delayed_orders_form to_pk db _ _ _ _ _ view Hview).
  unfold api_delay_by_user.
  destruct (filter_user to_pk (GET_get GET "user" "") _) as [qs |] eqn:E; [| discriminate].
  intros [= <-]. cbn [ByUser.data].
  apply (filter_user_form to_pk) in E. rewrite E.
  rewrite filter_order_type_form, filter_category_form, filter_reported_since_form,
    filter_branch_form, !filter_filter_andb.
  f_equal. f_equal. f_equal. apply filter_ext. intros o.
  destruct (QS.notnull (Order.delay_reason o)),
    (QS.notnull (Order.delay_reason_reported_at o)),
    (QS.notnull (Order.delay_reason_reported_by o)),
    (Spec.in_scope user_branch o),
    (Spec.reported_since
       (_get_start_date_from_period now (GET_get GET "period" "30days")) o),
    (Spec.has_category (GET_get GET "category" "") o),
    (Spec.reported_by (GET_get GET "user" "") (to_pk (GET_get GET "user" "")) o),
    (Spec.has_type (GET_get GET "order_type" "") o); reflexivity.
Qed.

(** The four columns of the grouping are all read through the reporter's
    identifier. *)
Lemma reporter_key_same (users : list User.t) (o o' : Order.t) :
  reporter_key_eqb (reporter_key users o) (reporter_key users o')
  = QS.option_eqb Nat.eqb (Order.delay_reason_reported_by o)
      (Order.delay_reason_reported_by o').
Proof.
  destruct (QS.option_eqb Nat.eqb (Order.delay_reason_reported_by o)
              (Order.delay_reason_reported_by o')) eqn:E.
  - apply (option_eqb_eq Nat.eqb Nat.eqb_eq) in E. apply reporter_key_eqb_eq.
    unfold reporter_key, delay_reason_reported_by. now rewrite E.
  - destruct (reporter_key_eqb (reporter_key users o) (reporter_key users o')) eqn:E';
      [| reflexivity].
    apply reporter_key_eqb_eq in E'. unfold reporter_key in E'.
    injection E' as E' _ _ _. rewrite E' in E.
    rewrite (proj2 (option_eqb_eq Nat.eqb Nat.eqb_eq _ _) eq_refl) in E. discriminate E.
Qed.

(** X15.  With distinct primary keys, the breakdown by user has one row per
    reporter of the view's orders that carry one; the row of a reporter
    counts the view's orders reported by them, and those among them with
    the exceeded flag; it is named after the reporter's account; the delay
    counts add up to the number of the view's orders with a reporter, and
    the rows come by delay count, largest first. *)
Theorem by_user_rows (to_pk : string -> option nat) (db : DB) (users : list User.t)
    (now : Z) (user_branch : option nat) (GET : list (string * string))
    (view : list Order.t) (response : ByUser.response) :
  NoDup (map Order.id (Order_objects db)) ->
  filtered_delayed_orders to_pk db user_branch
    (_get_start_date_from_period now (GET_get GET "period" "30days"))
    (GET_get GET "category" "") (GET_get GET "user" "") (GET_get GET "order_type" "")
  = Some view ->
  api_delay_by_user to_pk db users now user_branch GET = Some response ->
  let data := ByUser.data response in
  let reported_by (uid : nat) (o : Order.t) :=
    QS.option_eqb Nat.eqb (Order.delay_reason_reported_by o) (Some uid) in
  list_sum (map ByUser.delay_count data)
  = List.length (filter (fun o => QS.notnull (Order.delay_reason_reported_by o)) view)
  /\ NoDup (map ByUser.user_id data)
  /\ (forall o uid, In o view -> Order.delay_reason_reported_by o = Some uid ->
        In (Some uid) (map ByUser.user_id data))
  /\ (forall row, In row data ->
        exists uid,
          ByUser.user_id row = Some uid
          /\ ByUser.delay_count row = List.length (filter (reported_by uid) view)
          /\ ByUser.exceeded_2h_count row
             = List.length
                 (filter (fun o => reported_by uid o && Order.exceeded_9_hours o) view)
          /\ 1 <= ByUser.delay_count row
          /\ (forall u, find (fun u => Nat.eqb (User.id u) uid) users = Some u ->
                ByUser.user_name row
                = reporter_name (Some (User.first_name u)) (Some (User.last_name u))
                    (Some (User.username u))))
  /\ StronglySorted (fun a b => ByUser.delay_count b <= ByUser.delay_count a) data.
Proof.
  intros Hnd Hview Hresp.
  rewrite (by_user_orders to_pk db users now user_branch GET view response Hview Hresp).
  clear Hresp. cbv zeta.
  pose proof (filtered_delayed_orders_NoDup to_pk db _ _ _ _ _ view Hnd Hview) as Hview_nd.
  set (reported := filter (fun o => QS.notnull (Order.delay_reason_reported_by o)) view).
  assert (Hrep_nd : NoDup (map Order.id reported)) by now apply NoDup_map_filter.
  set (groups := QS.group_by reporter_key_eqb (reporter_key users) reported).
  set (sorted := Py.sort_by_key_reverse (fun g => QS.count_distinct_id (snd g)) groups).
  assert (Hperm : Permutation sorted groups) by apply sort_perm.
  assert (Hgroup : forall g, In g groups ->
            exists o uid,
              In o reported /\ Order.delay_reason_reported_by o = Some uid
              /\ fst g = reporter_key users o
              /\ snd g = filter (fun o' => QS.option_eqb Nat.eqb
                                             (Order.delay_reason_reported_by o') (Some uid))
                           view).
  { intros g Hg.
    apply (group_by_In reporter_key_eqb (reporter_key users) reporter_key_eqb_eq) in Hg.
    destruct Hg as [[o [Ho Ek]] Hg].
    pose proof Ho as Ho'. apply filter_In in Ho'. destruct Ho' as [_ Hrep].
    destruct (Order.delay_reason_reported_by o) as [uid |] eqn:Eu; [| discriminate Hrep].
    exists o, uid. repeat split; try assumption; [now symmetry |].
    rewrite Hg, <- Ek. unfold reported. rewrite filter_filter_andb.
    apply filter_ext. intros o'. rewrite reporter_key_same, Eu.
    destruct (Order.delay_reason_reported_by o'); simpl; [reflexivity | reflexivity]. }
  split; [| split; [| split; [| split]]].
  - rewrite map_map. cbn [ByUser.delay_count].
    rewrite (list_sum_perm _ (map (fun g => QS.count_distinct_id (snd g)) groups));
      [| now apply Permutation_map].
    rewrite <- (group_by_sizes reporter_key_eqb (reporter_key users) reporter_key_eqb_eq
                  reported).
    f_equal. apply map_ext_in. intros g Hg.
    apply (group_by_In reporter_key_eqb (reporter_key users) reporter_key_eqb_eq) in Hg.
    destruct Hg as [_ ->]. apply count_distinct_id_length. now apply NoDup_map_filter.
  - rewrite map_map. cbn [ByUser.user_id].
    apply (Permutation_NoDup
             (l := map (fun g : (option nat * option string * option string * option string)
                                * list Order.t => fst (fst (fst (fst g)))) groups));
      [apply Permutation_sym; now apply Permutation_map |].
    pose proof (group_by_keys_NoDup reporter_key_eqb (reporter_key users)
                  reporter_key_eqb_eq reported) as Hkeys.
    fold groups in Hkeys.
    assert (Hinj : forall g g', In g groups -> In g' groups ->
              fst (fst (fst (fst g))) = fst (fst (fst (fst g'))) -> fst g = fst g').
    { intros g g' Hg Hg' E.
      destruct (Hgroup g Hg) as [o [uid (_ & Eu & Ek & _)]].
      destruct (Hgroup g' Hg') as [o' [uid' (_ & Eu' & Ek' & _)]].
      rewrite Ek, Ek' in *. unfold reporter_key in *. cbn [fst] in E.
      unfold delay_reason_reported_by. now rewrite E. }
    clear - Hkeys Hinj. induction groups as [| g gs IH]; simpl; [constructor |].
    simpl in Hkeys. inversion Hkeys as [| k ks Hk Hks]; subst.
    constructor.
    + intros Hin. apply Hk. apply in_map_iff in Hin. destruct Hin as [g' [E Hg']].
      apply in_map_iff. exists g'. split; [| exact Hg'].
      apply Hinj; [now right | now left | exact E].
    + apply IH; [exact Hks |]. intros a b Ha Hb. apply Hinj; now right.
  - intros o uid Ho Eu. rewrite map_map. cbn [ByUser.user_id].
    apply in_map_iff.
    exists (reporter_key users o,
            filter (fun o' => reporter_key_eqb (reporter_key users o')
                                (reporter_key users o)) reported).
    split; [cbn [fst]; unfold reporter_key; cbn [fst]; exact Eu |].
    apply (Permutation_in (l := groups)); [now apply Permutation_sym |].
    apply (group_by_In reporter_key_eqb (reporter_key users) reporter_key_eqb_eq).
    cbn [fst snd]. split; [| reflexivity]. exists o. split; [| reflexivity].
    apply filter_In. split; [exact Ho |]. now rewrite Eu.
  - intros row Hrow. apply in_map_iff in Hrow. destruct Hrow as [g [<- Hg]].
    cbn [ByUser.user_id ByUser.delay_count ByUser.exceeded_2h_count ByUser.user_name].
    apply (Permutation_in _ Hperm) in Hg.
    destruct (Hgroup g Hg) as [o [uid (Ho & Eu & Ek & Hmembers)]].
    exists uid. rewrite Hmembers, Ek. unfold reporter_key. cbn [fst snd].
    split; [exact Eu |]. split; [| split; [| split]].
    + apply count_distinct_id_length. now apply NoDup_map_filter.
    + rewrite filter_filter_andb. apply count_distinct_id_length.
      now apply NoDup_map_filter.
    + apply (count_distinct_id_pos _ o). apply filter_In. split.
      * apply filter_In in Ho. tauto.
      * rewrite Eu. simpl. apply Nat.eqb_refl.
    + intros u Hu. unfold delay_reason_reported_by. rewrite Eu, Hu. reflexivity.
  - apply StronglySorted_map. cbn [ByUser.delay_count].
    apply sort_by_key_reverse_sorted.
Qed.

Lemma by_user_rows_witness :
  match api_delay_by_user Sample.to_pk Sample2.week Sample2.users Sample.now (Some 1) [] with
  | Some response =>
      list_sum (map ByUser.delay_count (ByUser.data response)) = 3
      /\ map ByUser.user_id (ByUser.data response) = [ Some 1; Some 2 ]
      /\ map ByUser.user_name (ByUser.data response) = [ "Amina Juma"; "store2" ]
  | None => False
  end.
Proof.
  pose proof (by_user_rows Sample.to_pk Sample2.week Sample2.users Sample.now (Some 1) [])
    as H.
  destruct (api_delay_by_user Sample.to_pk Sample2.week Sample2.users Sample.now (Some 1) [])
    as [response |] eqn:E; [| vm_compute in E; discriminate E].
  destruct (filtered_delayed_orders Sample.to_pk Sample2.week (Some 1)
              (_get_start_date_from_period Sample.now (GET_get [] "period" "30days"))
              (GET_get [] "category" "") (GET_get [] "user" "") (GET_get [] "order_type" ""))
    as [view |] eqn:Ev; [| vm_compute in Ev; discriminate Ev].
  destruct (H view response sample_week_ids eq_refl eq_refl) as (Ht & _).
  vm_compute in Ev. injection Ev as <-. split; [exact Ht |].
  vm_compute in E. injection E as <-. split; reflexivity.
Defined.

(** ** [str.strip] and the name of a reporter *)

Lemma blank_app (a b : string) :
  forallb PyStr.isspace (list_ascii_of_string (a ++ b))
  = forallb PyStr.isspace (list_ascii_of_string a)
    && forallb PyStr.isspace (list_ascii_of_string b).
Proof.
  induction a as [| c a IH]; simpl; [reflexivity |].
  rewrite IH. now rewrite andb_assoc.
Qed.

Lemma lstrip_decomp (s : string) :
  exists pre, s = pre ++ PyStr.lstrip s
              /\ forallb PyStr.isspace (list_ascii_of_string pre) = true.
Proof.
  induction s as [| c s [pre [E Hpre]]]; simpl.
  - exists "". now split.
  - destruct (PyStr.isspace c) eqn:Ec.
    + exists (String c pre). simpl. rewrite Ec, Hpre. split; [now rewrite <- E | reflexivity].
    + exists "". now split.
Qed.

Lemma lstrip_head (s : string) (c : ascii) (r : string) :
  PyStr.lstrip s = String c r -> PyStr.isspace c = false.
Proof.
  induction s as [| d s IH]; simpl; [discriminate |].
  destruct (PyStr.isspace d) eqn:Ed; [exact IH |].
  intros [= <- _]. exact Ed.
Qed.

Lemma lstrip_blank (s : string) :
  PyStr.lstrip s = "" <-> forallb PyStr.isspace (list_ascii_of_string s) = true.
Proof.
  induction s as [| c s IH]; simpl; [tauto |].
  destruct (PyStr.isspace c); simpl; [exact IH |].
  split; discriminate.
Qed.

Lemma rstrip_decomp (s : string) :
  exists post, s = PyStr.rstrip s ++ post
               /\ forallb PyStr.isspace (list_ascii_of_string post) = true.
Proof.
  induction s as [| c s [post [E Hpost]]]; simpl.
  - exists "". now split.
  - destruct (PyStr.rstrip s) as [| d r] eqn:Er.
    + simpl in E. subst post. destruct (PyStr.isspace c) eqn:Ec.
      * exists (String c s). simpl. rewrite Ec, Hpost. now split.
      * exists s. now split.
    + exists post. split; [| exact Hpost]. simpl. simpl in E. now rewrite <- E.
Qed.

Lemma rstrip_last (s init : string) (c : ascii) :
  PyStr.rstrip s = init ++ String c "" -> PyStr.isspace c = false.
Proof.
  revert init. induction s as [| d s IH]; simpl; intros init.
  - destruct init; discriminate.
  - destruct (PyStr.rstrip s) as [| e r] eqn:Er.
    + destruct (PyStr.isspace d) eqn:Ed.
      * destruct init; discriminate.
      * destruct init as [| i init]; simpl.
        -- intros [= <-]. exact Ed.
        -- intros [= _ H]. destruct init; discriminate H.
    + destruct init as [| i init]; simpl.
      * discriminate.
      * intros [= _ H]. now apply (IH init).
Qed.

Lemma rstrip_head (c : ascii) (r : string) :
  PyStr.isspace c = false -> exists r', PyStr.rstrip (String c r) = String c r'.
Proof.
  intros Ec. simpl. destruct (PyStr.rstrip r) as [| d r'].
  - rewrite Ec. now exists "".
  - now exists (String d r').
Qed.

(** X16.  The name shown for a reporter.  When the first and the last name
    are both blank (null, empty or white space only), it is the username,
    or the empty string for a null username.  Otherwise it is not empty,
    it neither starts nor ends with white space, and it is the first name,
    a space and the last name with only white space removed at both
    ends. *)
Theorem reporter_name_cases (first_name last_name username : option string) :
  let blank (s : string) := forallb PyStr.isspace (list_ascii_of_string s) in
  let name := reporter_name first_name last_name username in
  if blank (PyStr.or_empty first_name) && blank (PyStr.or_empty last_name)
  then name = PyStr.or_empty username
  else name <> ""
       /\ (forall c rest, name = String c rest -> PyStr.isspace c = false)
       /\ (forall init c, name = init ++ String c "" -> PyStr.isspace c = false)
       /\ exists pre post,
            PyStr.or_empty first_name ++ " " ++ PyStr.or_empty last_name
            = pre ++ name ++ post
            /\ blank pre = true /\ blank post = true.
Proof.
  cbv zeta. unfold reporter_name.
  set (joined := PyStr.or_empty first_name ++ " " ++ PyStr.or_empty last_name).
  assert (Hblank : forallb PyStr.isspace (list_ascii_of_string joined)
                   = forallb PyStr.isspace (list_ascii_of_string (PyStr.or_empty first_name))
                     && forallb PyStr.isspace
                          (list_ascii_of_string (PyStr.or_empty last_name))).
  { unfold joined. rewrite !blank_app. reflexivity. }
  rewrite <- Hblank. unfold PyStr.strip.
  destruct (forallb PyStr.isspace (list_ascii_of_string joined)) eqn:Eb.
  - apply lstrip_blank in Eb. rewrite Eb. reflexivity.
  - destruct (PyStr.lstrip joined) as [| c r] eqn:El.
    + apply lstrip_blank in El. congruence.
    + pose proof (lstrip_head joined c r El) as Hc.
      destruct (rstrip_head c r Hc) as [r' Er].
      destruct (lstrip_decomp joined) as [pre [Epre Hpre]].
      destruct (rstrip_decomp (String c r)) as [post [Epost Hpost]].
      rewrite Er in *. cbn [Py.truthy].
      split; [discriminate |]. split; [| split].
      * intros c' rest [= <- _]. exact Hc.
      * intros init c' E. apply (rstrip_last (String c r) init c'). now rewrite Er.
      * exists pre, post. split; [| now split].
        rewrite Epre at 1. rewrite El. now rewrite Epost at 1.
Qed.

(** ** [api_delay_recommendations]: the other analyses *)

Lemma truediv_gt (a b k : nat) :
  0 < b ->
  Py.gt (Py.truediv a b) (inject_Z (Z.of_nat k)) = true <-> k * b < a.
Proof.
  intros Hb. unfold Py.gt, Py.truediv.
  rewrite negb_true_iff, <- not_true_iff_false, Qle_bool_iff.
  assert (Hb' : (0 < inject_Z (Z.of_nat b))%Q).
  { change 0%Q with (inject_Z 0). rewrite <- Zlt_Qlt. lia. }
  split.
  - intros Hn. destruct (Nat.lt_ge_cases (k * b) a) as [H | H]; [exact H |].
    exfalso. apply Hn. apply Qle_shift_div_r; [exact Hb' |].
    rewrite <- inject_Z_mult, <- Zle_Qle. lia.
  - intros Hlt Hle.
    apply (Qmult_le_compat_r _ _ (inject_Z (Z.of_nat b))) in Hle;
      [| now apply Qlt_le_weak].
    assert (E : (inject_Z (Z.of_nat a) / inject_Z (Z.of_nat b) * inject_Z (Z.of_nat b)
                 == inject_Z (Z.of_nat a))%Q).
    { field. intros H0. rewrite H0 in Hb'. now apply Qlt_irrefl in Hb'. }
    rewrite E, <- inject_Z_mult, <- Zle_Qle in Hle. lia.
Qed.

Lemma truediv_percent_gt (a b k : nat) :
  0 < b ->
  Py.gt (Py.truediv a b * 100) (inject_Z (Z.of_nat k)) = true <-> k * b < 100 * a.
Proof.
  intros Hb. unfold Py.gt, Py.truediv.
  rewrite negb_true_iff, <- not_true_iff_false, Qle_bool_iff.
  assert (Hb' : (0 < inject_Z (Z.of_nat b))%Q).
  { change 0%Q with (inject_Z 0). rewrite <- Zlt_Qlt. lia. }
  assert (E : (inject_Z (Z.of_nat a) / inject_Z (Z.of_nat b) * 100
               == inject_Z (Z.of_nat (100 * a)) / inject_Z (Z.of_nat b))%Q).
  { rewrite Nat2Z.inj_mul, inject_Z_mult. change (inject_Z (Z.of_nat 100)) with 100%Q.
    field. intros H0. rewrite H0 in Hb'. now apply Qlt_irrefl in Hb'. }
  rewrite E.
  pose proof (truediv_gt (100 * a) b k Hb) as H.
  unfold Py.gt, Py.truediv in H.
  rewrite negb_true_iff, <- not_true_iff_false, Qle_bool_iff in H. exact H.
Qed.

Section AnalysesFacts.
Variable CATEGORY_CHOICES : list (string * string).
Variable TruncDate : Z -> Z.

Lemma recommend_top_category_category (orders_qs : list Order.t) (r : Recommendation.t) :
  In r (recommend_top_category CATEGORY_CHOICES orders_qs) ->
  Recommendation.category r = "Process Improvement" /\ Recommendation.priority r = "high".
Proof.
  unfold recommend_top_category.
  destruct (QS.order_by_count_desc _) as [| top rest]; [contradiction |].
  destruct (Py.gt _ _); [| contradiction].
  intros [<- | []]. now split.
Qed.

Lemma recommend_exceeded_category (orders_qs : list Order.t) (r : Recommendation.t) :
  In r (recommend_exceeded orders_qs) ->
  Recommendation.category r = "Urgent"
  /\ (Recommendation.priority r = "high" \/ Recommendation.priority r = "medium").
Proof.
  unfold recommend_exceeded.
  destruct (_ && _); [| contradiction].
  intros [<- | []]. cbn [Recommendation.category Recommendation.priority].
  split; [reflexivity |]. destruct (Py.gt _ _); [now left | now right].
Qed.

Lemma recommend_top_reasons_category (orders_qs : list Order.t) (r : Recommendation.t) :
  In r (recommend_top_reasons orders_qs) ->
  Recommendation.category r = "Root Cause Analysis" /\ Recommendation.priority r = "medium".
Proof.
  unfold recommend_top_reasons. intros H. apply in_map_iff in H.
  destruct H as [reason [<- _]]. now split.
Qed.

Lemma recommend_trend_category (orders_qs : list Order.t) (r : Recommendation.t) :
  In r (recommend_trend TruncDate orders_qs) ->
  Recommendation.category r = "Trend" /\ Recommendation.priority r = "high".
Proof.
  unfold recommend_trend.
  destruct (firstn 7 _); [contradiction |].
  destruct (Py.gt _ _); [| contradiction].
  intros [<- | []]. now split.
Qed.

(** What the four analyses emit, by the category of the record. *)
Lemma emitted_In (orders_qs : list Order.t) (r : Recommendation.t) :
  In r (emitted_recommendations CATEGORY_CHOICES TruncDate orders_qs)
  <-> In r (recommend_top_category CATEGORY_CHOICES orders_qs)
      \/ In r (recommend_exceeded orders_qs)
      \/ In r (recommend_top_reasons orders_qs)
      \/ In r (recommend_trend TruncDate orders_qs).
Proof. unfold emitted_recommendations. rewrite !in_app_iff. tauto. Qed.

Lemma urgent_In (orders_qs : list Order.t) (r : Recommendation.t) :
  In r (emitted_recommendations CATEGORY_CHOICES TruncDate orders_qs)
  /\ Recommendation.category r = "Urgent"
  <-> In r (recommend_exceeded orders_qs).
Proof.
  rewrite emitted_In. split.
  - intros [[H | [H | [H | H]]] Hcat]; [exfalso | exact H | exfalso..].
    + apply recommend_top_category_category in H. destruct H as [H _]. congruence.
    + apply recommend_top_reasons_category in H. destruct H as [H _]. congruence.
    + apply recommend_trend_category in H. destruct H as [H _]. congruence.
  - intros H. split; [tauto |]. now apply recommend_exceeded_category in H.
Qed.

Lemma trend_In (orders_qs : list Order.t) (r : Recommendation.t) :
  In r (emitted_recommendations CATEGORY_CHOICES TruncDate orders_qs)
  /\ Recommendation.category r = "Trend"
  <-> In r (recommend_trend TruncDate orders_qs).
Proof.
  rewrite emitted_In. split.
  - intros [[H | [H | [H | H]]] Hcat]; [exfalso.. | exact H].
    + apply recommend_top_category_category in H. destruct H as [H _]. congruence.
    + apply recommend_exceeded_category in H. destruct H as [H _]. congruence.
    + apply recommend_top_reasons_category in H. destruct H as [H _]. congruence.
  - intros H. split; [tauto |]. now apply recommend_trend_category in H.
Qed.

(** X17.  The recommendation on long delays.  An "Urgent" record is
    returned exactly when some order of the view has the exceeded flag.
    Its priority is [high] when such orders are more than 20 per cent of
    the view and [medium] otherwise; its impact is [critical]; and its
    description starts with their number. *)
Theorem urgent_recommendation (db : DB) (now : Z) (user_branch : option nat)
    (GET : list (string * string)) :
  let orders_qs :=
    scoped_delayed_orders db user_branch
      (_get_start_date_from_period now (GET_get GET "period" "30days")) in
  let exceeded := List.length (filter Order.exceeded_9_hours orders_qs) in
  let output :=
    Recommendation.recommendations
      (api_delay_recommendations CATEGORY_CHOICES TruncDate db now user_branch GET) in
  ((exists r, In r output /\ Recommendation.category r = "Urgent")
   <-> exists o, In o orders_qs /\ Order.exceeded_9_hours o = true)
  /\ (forall r, In r output -> Recommendation.category r = "Urgent" ->
        (Recommendation.priority r = "high" <-> List.length orders_qs < 5 * exceeded)
        /\ (Recommendation.priority r = "medium" <-> 5 * exceeded <= List.length orders_qs)
        /\ Recommendation.impact r = "critical"
        /\ Recommendation.description r
           = Py.str_int (Z.of_nat exceeded)
             ++ " orders exceeded 2 hours. Implement preventive measures to reduce critical delays.").
Proof.
  intros orders_qs exceeded output.
  assert (Hout : forall r, In r output /\ Recommendation.category r = "Urgent"
                           <-> In r (recommend_exceeded orders_qs)).
  { intros r. unfold output.
    rewrite (recommendations_output_In CATEGORY_CHOICES TruncDate db now user_branch GET r).
    apply urgent_In. }
  assert (Hle : exceeded <= List.length orders_qs) by apply filter_length_le.
  split.
  - split.
    + intros [r Hr]. apply Hout in Hr. unfold recommend_exceeded in Hr.
      fold exceeded in Hr.
      destruct (Nat.ltb_spec 0 exceeded) as [Hpos | Hzero]; [| contradiction].
      unfold exceeded in Hpos.
      destruct (filter Order.exceeded_9_hours orders_qs) as [| o rest] eqn:E;
        [simpl in Hpos; lia |].
      assert (Ho : In o (filter Order.exceeded_9_hours orders_qs)) by (rewrite E; now left).
      apply filter_In in Ho. now exists o.
    + intros [o [Ho Hflag]].
      assert (Hin : In o (filter Order.exceeded_9_hours orders_qs)).
      { apply filter_In. now split. }
      assert (Hpos : 0 < exceeded).
      { unfold exceeded. destruct (filter Order.exceeded_9_hours orders_qs);
          [contradiction | simpl; lia]. }
      assert (Htotal : 0 < List.length orders_qs) by lia.
      apply Nat.ltb_lt in Hpos, Htotal.
      unfold recommend_exceeded in Hout. fold exceeded in Hout.
      rewrite Hpos, Htotal in Hout. cbn [andb] in Hout.
      eexists. apply Hout. now left.
  - intros r Hr Hcat.
    assert (Hin : In r (recommend_exceeded orders_qs)) by (apply Hout; now split).
    unfold recommend_exceeded in Hin. fold exceeded in Hin.
    destruct (Nat.ltb_spec 0 exceeded) as [Hpos | Hzero]; [| contradiction].
    destruct (Nat.ltb_spec 0 (List.length orders_qs)) as [Htotal | Hzero]; [| lia].
    cbn [andb] in Hin. destruct Hin as [<- | []].
    cbn [Recommendation.priority Recommendation.impact Recommendation.description].
    pose proof (truediv_percent_gt exceeded (List.length orders_qs) 20 Htotal) as Hgt.
    change (inject_Z (Z.of_nat 20)) with 20%Q in Hgt.
    destruct (Py.gt (Py.truediv exceeded (List.length orders_qs) * 100) 20) eqn:E.
    + assert (List.length orders_qs < 5 * exceeded) by (apply proj1 in Hgt; specialize (Hgt eq_refl); lia).
      repeat split; try reflexivity; try (intros; lia). discriminate.
    + assert (5 * exceeded <= List.length orders_qs).
      { destruct (Nat.lt_ge_cases (List.length orders_qs) (5 * exceeded)) as [H | H];
          [| exact H].
        apply proj2 in Hgt. assert (20 * List.length orders_qs < 100 * exceeded) by lia.
        specialize (Hgt H0). discriminate Hgt. }
      repeat split; try reflexivity; try (intros; lia). discriminate.
Qed.

End AnalysesFacts.

Lemma sort_by_date_after_sorted (l : list (option Z * nat)) :
  Forall (fun row => fst row <> None) l ->
  NoDup (map fst l) ->
  StronglySorted (fun y x => exists a b, fst y = Some a /\ fst x = Some b /\ (b < a)%Z)
    (Py.sort date_after l).
Proof.
  intros Hdated Hnd.
  assert (Hle : StronglySorted
                  (fun y x => exists a b, fst y = Some a /\ fst x = Some b /\ (b <= a)%Z)
                  (Py.sort date_after l)).
  { apply (sort_sorted_on date_after (fun row => fst row <> None)); [| | | exact Hdated].
    - intros a b c _ _ _ [a1 [b1 (Ea & Eb & H1)]] [b2 [c2 (Eb' & Ec & H2)]].
      exists a1, c2. repeat split; try assumption. rewrite Eb in Eb'. injection Eb' as <-. lia.
    - intros y x Hy Hx. unfold date_after.
      destruct (fst y) as [a |], (fst x) as [b |]; try congruence.
      intros H. apply Z.ltb_lt in H. exists a, b. repeat split. lia.
    - intros y x Hy Hx. unfold date_after.
      destruct (fst y) as [a |], (fst x) as [b |]; try congruence.
      intros H. apply Z.ltb_ge in H. exists b, a. repeat split. exact H. }
  assert (Hnd' : NoDup (map fst (Py.sort date_after l))).
  { apply (Permutation_NoDup (l := map fst l)); [| exact Hnd].
    apply Permutation_sym, Permutation_map, sort_perm. }
  induction Hle as [| y rest Hrest IH Hy]; [constructor |].
  simpl in Hnd'. inversion Hnd' as [| k ks Hk Hks]; subst.
  constructor; [now apply IH |].
  apply Forall_forall. intros x Hx. rewrite Forall_forall in Hy.
  destruct (Hy x Hx) as [a [b (Ea & Eb & Hab)]]. exists a, b. repeat split; try assumption.
  assert (a <> b).
  { intros ->. apply Hk. rewrite Ea, <- Eb. now apply in_map. }
  lia.
Qed.

Lemma StronglySorted_app_inv {A : Type} (R : A -> A -> Prop) (l1 l2 : list A) (x y : A) :
  StronglySorted R (l1 ++ l2)%list -> In x l1 -> In y l2 -> R x y.
Proof.
  induction l1 as [| a l1 IH]; simpl; intros Hs Hx Hy; [contradiction |].
  inversion Hs as [| a' l' Hl Ha]; subst.
  destruct Hx as [-> | Hx]; [| now apply IH].
  rewrite Forall_forall in Ha. apply Ha. apply in_or_app. now right.
Qed.

(** The rows of a sorted list beyond the first [n]: either a row is among
    the first [n], or there are [n] of them and each precedes it. *)
Lemma firstn_sorted_cut {A : Type} (R : A -> A -> Prop) (n : nat) (l : list A) (y : A) :
  StronglySorted R l -> In y l ->
  In y (firstn n l)
  \/ (List.length (firstn n l) = n /\ forall x, In x (firstn n l) -> R x y).
Proof.
  intros Hs Hy. rewrite <- (firstn_skipn n l) in Hy, Hs.
  apply in_app_or in Hy. destruct Hy as [Hy | Hy]; [now left | right].
  split.
  - apply firstn_length_le.
    destruct (Nat.le_gt_cases n (List.length l)) as [H | H]; [exact H |].
    rewrite skipn_all2 in Hy by lia. contradiction.
  - intros x Hx. exact (StronglySorted_app_inv R _ _ x y Hs Hx Hy).
Qed.

Section TrendFacts.
Variable CATEGORY_CHOICES : list (string * string).
Variable TruncDate : Z -> Z.

(** X18.  The recommendation on the trend looks at the most recent days, at
    most seven, on which an order of the view was reported delayed.  With
    distinct primary keys, a "Trend" record is returned exactly when the
    orders reported on those days are more than twice as many as the days;
    it has priority [high]. *)
Theorem trend_recommendation (db : DB) (now : Z) (user_branch : option nat)
    (GET : list (string * string)) :
  NoDup (map Order.id (Order_objects db)) ->
  let orders_qs :=
    scoped_delayed_orders db user_branch
      (_get_start_date_from_period now (GET_get GET "period" "30days")) in
  let reported_on (d : Z) (o : Order.t) :=
    QS.option_eqb Z.eqb (option_map TruncDate (Order.delay_reason_reported_at o)) (Some d) in
  let output :=
    Recommendation.recommendations
      (api_delay_recommendations CATEGORY_CHOICES TruncDate db now user_branch GET) in
  exists recent : list (Z * nat),
    StronglySorted (fun a b => (fst b < fst a)%Z) recent
    /\ List.length recent <= 7
    /\ (forall row, In row recent ->
          snd row = List.length (filter (reported_on (fst row)) orders_qs)
          /\ 1 <= snd row)
    /\ (forall o, In o orders_qs ->
          exists d,
            option_map TruncDate (Order.delay_reason_reported_at o) = Some d
            /\ (In d (map fst recent)
                \/ (List.length recent = 7 /\ forall row, In row recent -> (d < fst row)%Z)))
    /\ ((exists r, In r output /\ Recommendation.category r = "Trend")
        <-> 2 * List.length recent < list_sum (map snd recent))
    /\ (forall r, In r output -> Recommendation.category r = "Trend" ->
          Recommendation.priority r = "high"
          /\ Recommendation.title r = "Increasing Delay Incidents").
Proof.
  intros Hnd orders_qs reported_on output.
  pose proof (scoped_delayed_orders_NoDup db user_branch
                (_get_start_date_from_period now (GET_get GET "period" "30days")) Hnd)
    as Hview_nd.
  fold orders_qs in Hview_nd.
  pose proof (option_eqb_eq Z.eqb Z.eqb_eq) as Heq.
  set (key := fun o => option_map TruncDate (Order.delay_reason_reported_at o)).
  set (counts := QS.values_count (QS.option_eqb Z.eqb) key orders_qs).
  set (sorted := Py.sort date_after counts).
  set (daily_rates := firstn 7 sorted).
  assert (Hperm : Permutation sorted counts) by apply sort_perm.
  assert (Hdated : forall o, In o orders_qs -> key o <> None).
  { intros o Ho. unfold orders_qs, scoped_delayed_orders in Ho.
    apply filter_reported_since_In in Ho. destruct Ho as [Ho _].
    apply filter_branch_In in Ho. destruct Ho as [Ho _].
    apply orders_with_delay_reason_In in Ho. destruct Ho as (_ & _ & Ho).
    unfold key. destruct (Order.delay_reason_reported_at o); [discriminate | congruence]. }
  assert (Hcount : forall row, In row counts ->
            fst row <> None
            /\ snd row = List.length (filter (fun o => QS.option_eqb Z.eqb (key o) (fst row))
                                        orders_qs)
            /\ 1 <= snd row).
  { intros row Hrow.
    pose proof (values_count_pos (QS.option_eqb Z.eqb) key Heq orders_qs row Hrow) as Hpos.
    apply (values_count_In (QS.option_eqb Z.eqb) key Heq) in Hrow.
    destruct Hrow as [[o [Ho Ek]] Hn]. split; [| split; [| exact Hpos]].
    - rewrite <- Ek. now apply Hdated.
    - rewrite Hn. apply count_distinct_id_length. now apply NoDup_map_filter. }
  assert (Hsorted : StronglySorted
                      (fun y x : option Z * nat =>
                         exists a b, fst y = Some a /\ fst x = Some b /\ (b < a)%Z) sorted).
  { apply sort_by_date_after_sorted.
    - apply Forall_forall. intros row Hrow. now apply Hcount.
    - apply (values_count_keys_NoDup (QS.option_eqb Z.eqb) key Heq). }
  set (day := fun row : option Z * nat =>
                (match fst row with Some d => d | None => 0%Z end, snd row)).
  assert (Hrates : forall row, In row daily_rates -> In row counts).
  { intros row Hrow. apply firstn_In in Hrow. now apply (Permutation_in _ Hperm). }
  assert (Hrule : (exists r, In r output /\ Recommendation.category r = "Trend")
                  <-> 2 * List.length daily_rates < list_sum (map snd daily_rates)).
  { assert (Hout : forall r, In r output /\ Recommendation.category r = "Trend"
                             <-> In r (recommend_trend TruncDate orders_qs)).
    { intros r. unfold output.
      rewrite (recommendations_output_In CATEGORY_CHOICES TruncDate db now user_branch GET r).
      apply trend_In. }
    unfold recommend_trend in Hout.
    fold key in Hout. fold counts in Hout. fold sorted in Hout. fold daily_rates in Hout.
    destruct daily_rates as [| first rest] eqn:E.
    - simpl. split; [| lia]. intros [r Hr]. apply Hout in Hr. contradiction.
    - rewrite <- E in *.
      assert (Hlen : 0 < List.length daily_rates) by (rewrite E; simpl; lia).
      pose proof (truediv_gt (list_sum (map snd daily_rates)) (List.length daily_rates) 2
                    Hlen) as Hgt.
      change (inject_Z (Z.of_nat 2)) with 2%Q in Hgt.
      rewrite <- Hgt. rewrite E in Hout. rewrite <- E in Hout.
      destruct (Py.gt (Py.truediv (list_sum (map snd daily_rates))
                         (List.length daily_rates)) 2).
      + split; [reflexivity |]. intros _. eexists. apply Hout. now left.
      + split; [| discriminate]. intros [r Hr]. apply Hout in Hr. contradiction. }
  exists (map day daily_rates).
  split; [| split; [| split; [| split; [| split]]]].
  - apply (StronglySorted_map_inv day
             (fun y x : option Z * nat =>
                exists a b, fst y = Some a /\ fst x = Some b /\ (b < a)%Z)).
    + intros x y _ _ [a [b (Ea & Eb & Hab)]]. unfold day. cbn [fst]. now rewrite Ea, Eb.
    + now apply StronglySorted_firstn.
  - rewrite length_map. apply firstn_le_length.
  - intros row Hrow. apply in_map_iff in Hrow. destruct Hrow as [item [<- Hitem]].
    destruct (Hcount item (Hrates item Hitem)) as (Hsome & Hn & Hpos).
    unfold day. cbn [fst snd]. split; [| exact Hpos].
    rewrite Hn. destruct (fst item); [reflexivity | congruence].
  - intros o Ho. destruct (key o) as [d |] eqn:Ed; [| now apply Hdated in Ho].
    exists d. split; [exact Ed |].
    assert (Hin : In (Some d, QS.count_distinct_id
                                (filter (fun o' => QS.option_eqb Z.eqb (key o') (Some d))
                                        orders_qs)) sorted).
    { apply (Permutation_in (l := counts)); [now apply Permutation_sym |].
      apply (values_count_In (QS.option_eqb Z.eqb) key Heq). cbn [fst snd].
      split; [now exists o | reflexivity]. }
    destruct (firstn_sorted_cut _ 7 sorted _ Hsorted Hin) as [Hfirst | [Hlen Hbefore]].
    + left. rewrite map_map. apply in_map_iff. eexists. split; [| exact Hfirst].
      reflexivity.
    + right. rewrite length_map. split; [exact Hlen |].
      intros row Hrow. apply in_map_iff in Hrow. destruct Hrow as [item [<- Hitem]].
      destruct (Hbefore item Hitem) as [a [b (Ea & Eb & Hab)]].
      cbn [fst] in Eb. injection Eb as <-. unfold day. cbn [fst]. now rewrite Ea.
  - rewrite length_map, map_map. cbn [snd]. exact Hrule.
  - intros r Hr Hcat.
    assert (Hin : In r (recommend_trend TruncDate orders_qs)).
    { apply trend_In with (CATEGORY_CHOICES := CATEGORY_CHOICES). split; [| exact Hcat].
      now apply (recommendations_output_In CATEGORY_CHOICES TruncDate db now user_branch
                   GET r). }
    unfold recommend_trend in Hin.
    destruct (firstn 7 _); [contradiction |].
    destruct (Py.gt _ _); [| contradiction].
    destruct Hin as [<- | []]. now split.
Qed.

End TrendFacts.

Lemma trend_recommendation_witness :
  exists r,
    In r (Recommendation.recommendations
            (api_delay_recommendations Sample.CATEGORY_CHOICES Sample.TruncDate
               Sample.scenario_A Sample.now (Some 1) []))
    /\ Recommendation.category r = "Trend" /\ Recommendation.priority r = "high".
Proof.
  destruct (trend_recommendation Sample.CATEGORY_CHOICES Sample.TruncDate
              Sample.scenario_A Sample.now (Some 1) [] (proj1 scenario_A_wf))
    as [recent (_ & _ & _ & _ & _ & Hprio)].
  eexists. split; [| split].
  - vm_compute. right. left. reflexivity.
  - reflexivity.
  - apply Hprio; [vm_compute; right; left; reflexivity | reflexivity].
Defined.

Lemma filter_none {A : Type} (p : A -> bool) (l : list A) :
  (forall x, In x l -> p x = false) -> filter p l = [].
Proof.
  induction l as [| x l IH]; simpl; intros H; [reflexivity |].
  rewrite (H x (or_introl eq_refl)). apply IH. intros y Hy. apply H. now right.
Qed.

Lemma filter_every {A : Type} (p : A -> bool) (l : list A) :
  (forall x, In x l -> p x = true) -> filter p l = l.
Proof.
  induction l as [| x l IH]; simpl; intros H; [reflexivity |].
  rewrite (H x (or_introl eq_refl)). f_equal. apply IH. intros y Hy. apply H. now right.
Qed.

Lemma NoDup_firstn {A : Type} (n : nat) (l : list A) : NoDup l -> NoDup (firstn n l).
Proof.
  intros H. rewrite <- (firstn_skipn n l) in H. now apply NoDup_app_remove_r in H.
Qed.

Section RootCauseFacts.
Variable CATEGORY_CHOICES : list (string * string).
Variable TruncDate : Z -> Z.

(** The "Root Cause Analysis" records come out of the sort as the third
    analysis emitted them. *)
Lemma root_cause_output (db : DB) (now : Z) (user_branch : option nat)
    (GET : list (string * string)) :
  filter (fun r => String.eqb (Recommendation.category r) "Root Cause Analysis")
    (Recommendation.recommendations
       (api_delay_recommendations CATEGORY_CHOICES TruncDate db now user_branch GET))
  = recommend_top_reasons
      (scoped_delayed_orders db user_branch
         (_get_start_date_from_period now (GET_get GET "period" "30days"))).
Proof.
  unfold api_delay_recommendations. cbn [Recommendation.recommendations].
  set (orders_qs := scoped_delayed_orders db user_branch
                      (_get_start_date_from_period now (GET_get GET "period" "30days"))).
  set (emitted := emitted_recommendations CATEGORY_CHOICES TruncDate orders_qs).
  rewrite firstn_all2.
  2:{ unfold Py.sort_by_key. rewrite sort_length.
      pose proof (emitted_recommendations_length CATEGORY_CHOICES TruncDate orders_qs).
      fold emitted in H. lia. }
  set (rc := fun r => String.eqb (Recommendation.category r) "Root Cause Analysis").
  set (rcm := fun r => rc r && String.eqb (Recommendation.priority r) "medium").
  assert (Hmedium : forall r, In r emitted -> rc r = rcm r).
  { intros r Hr. unfold rcm. destruct (rc r) eqn:E; [| reflexivity].
    apply String.eqb_eq in E. apply emitted_In in Hr.
    destruct Hr as [H | [H | [H | H]]].
    - apply recommend_top_category_category in H. destruct H as [H _]. congruence.
    - apply recommend_exceeded_category in H. destruct H as [H _]. congruence.
    - apply recommend_top_reasons_category in H. destruct H as [_ ->]. reflexivity.
    - apply recommend_trend_category in H. destruct H as [H _]. congruence. }
  rewrite (filter_ext_in rc rcm).
  2:{ intros r Hr. apply Hmedium. unfold Py.sort_by_key in Hr.
      now apply (Permutation_in _ (sort_perm _ emitted)) in Hr. }
  unfold Py.sort_by_key. rewrite sort_filter.
  2:{ intros y x Hbefore Hx. unfold rcm in *.
      apply andb_true_iff in Hx. destruct Hx as [_ Hx]. apply String.eqb_eq in Hx.
      apply Nat.ltb_lt in Hbefore.
      rewrite (priority_rank_of "medium" x Hx) in Hbefore. simpl in Hbefore.
      assert (Hy : priority_rank y = 0) by lia.
      apply priority_rank_high in Hy. rewrite Hy. apply andb_false_r. }
  rewrite <- (filter_ext_in rc rcm) by exact Hmedium.
  unfold emitted, emitted_recommendations. rewrite !filter_app.
  rewrite (filter_none rc (recommend_top_category CATEGORY_CHOICES orders_qs)),
    (filter_none rc (recommend_exceeded orders_qs)),
    (filter_none rc (recommend_trend TruncDate orders_qs)),
    (filter_every rc (recommend_top_reasons orders_qs)).
  - simpl. now rewrite app_nil_r.
  - intros r Hr. apply recommend_top_reasons_category in Hr. destruct Hr as [E _].
    unfold rc. now rewrite E.
  - intros r Hr. apply recommend_trend_category in Hr. destruct Hr as [E _].
    unfold rc. now rewrite E.
  - intros r Hr. apply recommend_exceeded_category in Hr. destruct Hr as [E _].
    unfold rc. now rewrite E.
  - intros r Hr. apply recommend_top_category_category in Hr. destruct Hr as [E _].
    unfold rc. now rewrite E.
Qed.

(** X19.  The recommendations on root causes.  With distinct primary keys,
    the "Root Cause Analysis" records returned are those of the most
    frequent reason texts of the view, at most three, the most frequent
    first: one record per text, of priority [medium], that names the text
    and the number of the view's orders that carry it; a text left out is
    carried by no more orders than any of the three.  In particular no
    recommendation at all is returned exactly when the view is empty. *)
Theorem root_cause_recommendations (db : DB) (now : Z) (user_branch : option nat)
    (GET : list (string * string)) :
  NoDup (map Order.id (Order_objects db)) ->
  let orders_qs :=
    scoped_delayed_orders db user_branch
      (_get_start_date_from_period now (GET_get GET "period" "30days")) in
  let carrying (text : option string) :=
    filter (fun o => QS.option_eqb String.eqb (QS.delay_reason__reason_text o) text)
           orders_qs in
  let output :=
    Recommendation.recommendations
      (api_delay_recommendations CATEGORY_CHOICES TruncDate db now user_branch GET) in
  (output = [] <-> orders_qs = [])
  /\ exists top : list (option string * nat),
       filter (fun r => String.eqb (Recommendation.category r) "Root Cause Analysis") output
       = map (fun row =>
                {| Recommendation.priority := "medium";
                   Recommendation.category := "Root Cause Analysis";
                   Recommendation.title := "Investigate: " ++ Py.str_opt (fst row);
                   Recommendation.description :=
                     "This reason accounts for " ++ Py.str_int (Z.of_nat (snd row))
                     ++ " delay incidents. Consider root cause analysis and preventive actions.";
                   Recommendation.impact := "medium" |}) top
       /\ List.length top <= 3
       /\ NoDup (map fst top)
       /\ StronglySorted (fun a b => snd b <= snd a) top
       /\ (forall row, In row top ->
             snd row = List.length (carrying (fst row)) /\ 1 <= snd row)
       /\ (forall o, In o orders_qs ->
             In (QS.delay_reason__reason_text o) (map fst top)
             \/ (List.length top = 3
                 /\ forall row, In row top ->
                      List.length (carrying (QS.delay_reason__reason_text o)) <= snd row)).
Proof.
  intros Hnd orders_qs carrying output.
  pose proof (scoped_delayed_orders_NoDup db user_branch
                (_get_start_date_from_period now (GET_get GET "period" "30days")) Hnd)
    as Hview_nd.
  fold orders_qs in Hview_nd.
  pose proof (option_eqb_eq String.eqb String.eqb_eq) as Heq.
  set (counts := QS.values_count (QS.option_eqb String.eqb) QS.delay_reason__reason_text
                   orders_qs).
  set (sorted := QS.order_by_count_desc counts).
  assert (Hperm : Permutation sorted counts) by apply sort_perm.
  assert (Hsorted : StronglySorted (fun a b : option string * nat => snd b <= snd a) sorted)
    by apply sort_by_key_reverse_sorted.
  assert (Hcount : forall row, In row counts ->
            snd row = List.length (carrying (fst row)) /\ 1 <= snd row).
  { intros row Hrow.
    pose proof (values_count_pos (QS.option_eqb String.eqb) _ Heq orders_qs row Hrow) as Hpos.
    apply (values_count_In (QS.option_eqb String.eqb) _ Heq) in Hrow.
    destruct Hrow as [_ Hn]. split; [| exact Hpos].
    rewrite Hn. apply count_distinct_id_length. now apply NoDup_map_filter. }
  assert (Hlisted : forall o, In o orders_qs ->
            In (QS.delay_reason__reason_text o,
                List.length (carrying (QS.delay_reason__reason_text o))) sorted).
  { intros o Ho. apply (Permutation_in (l := counts)); [now apply Permutation_sym |].
    apply (values_count_In (QS.option_eqb String.eqb) _ Heq). cbn [fst snd].
    split; [now exists o |].
    symmetry. apply count_distinct_id_length. now apply NoDup_map_filter. }
  assert (Hrc : filter (fun r => String.eqb (Recommendation.category r) "Root Cause Analysis")
                  output
                = recommend_top_reasons orders_qs) by apply root_cause_output.
  split.
  - split.
    + intros Hempty. rewrite Hempty in Hrc. simpl in Hrc.
      destruct orders_qs as [| o rest] eqn:E; [reflexivity | exfalso].
      assert (Ho : In o (o :: rest)) by now left.
      apply Hlisted in Ho. unfold recommend_top_reasons in Hrc.
      fold counts in Hrc. fold sorted in Hrc.
      destruct sorted; [contradiction | discriminate Hrc].
    + intros Hempty. unfold output, api_delay_recommendations.
      cbn [Recommendation.recommendations]. fold orders_qs. rewrite Hempty. reflexivity.
  - exists (firstn 3 sorted). split; [exact Hrc |].
    split; [apply firstn_le_length |].
    split; [| split; [| split]].
    + rewrite <- firstn_map. apply NoDup_firstn.
      apply (Permutation_NoDup (l := map fst counts)).
      * apply Permutation_sym. now apply Permutation_map.
      * apply (values_count_keys_NoDup (QS.option_eqb String.eqb) _ Heq).
    + now apply StronglySorted_firstn.
    + intros row Hrow. apply firstn_In in Hrow. apply Hcount.
      now apply (Permutation_in _ Hperm).
    + intros o Ho.
      destruct (firstn_sorted_cut _ 3 sorted _ Hsorted (Hlisted o Ho))
        as [Hfirst | [Hlen Hbefore]].
      * left. apply in_map_iff. eexists. split; [| exact Hfirst]. reflexivity.
      * right. split; [exact Hlen |]. intros row Hrow. exact (Hbefore row Hrow).
Qed.

End RootCauseFacts.

Lemma root_cause_recommendations_witness :
  let output :=
    Recommendation.recommendations
      (api_delay_recommendations Sample.CATEGORY_CHOICES Sample.TruncDate
         Sample2.week Sample.now (Some 1) []) in
  output <> []
  /\ exists top : list (option string * nat),
       map Recommendation.title
         (filter (fun r => String.eqb (Recommendation.category r) "Root Cause Analysis")
            output)
       = map (fun row => "Investigate: " ++ Py.str_opt (fst row)) top
       /\ List.length top <= 3.
Proof.
  destruct (root_cause_recommendations Sample.CATEGORY_CHOICES Sample.TruncDate
              Sample2.week Sample.now (Some 1) [] sample_week_ids)
    as [Hnone [top (Hrc & Hlen & _)]].
  split.
  - intros Hempty. apply Hnone in Hempty. vm_compute in Hempty. discriminate Hempty.
  - exists top. split; [| exact Hlen].
    rewrite Hrc, map_map. reflexivity.
Defined.

(** ** The endpoints side by side *)

Lemma daily_counts_sum (TruncDate : Z -> Z) (view : list Order.t) :
  NoDup (map Order.id view) ->
  list_sum (map (fun item => fst (snd item)) (daily_counts TruncDate view))
  = List.length view.
Proof.
  intros Hnd. unfold daily_counts. rewrite map_map. cbn [fst snd].
  rewrite <- (group_by_sizes (QS.option_eqb Z.eqb)
                (fun o => option_map TruncDate (Order.delay_reason_reported_at o))
                (option_eqb_eq Z.eqb Z.eqb_eq) view).
  f_equal. apply map_ext_in. intros g Hg.
  apply (group_by_In (QS.option_eqb Z.eqb) _ (option_eqb_eq Z.eqb Z.eqb_eq)) in Hg.
  destruct Hg as [_ ->]. apply count_distinct_id_length. now apply NoDup_map_filter.
Qed.

(** X20.  For one request, the endpoints agree on the number of delayed
    orders.  With distinct primary keys, the total of the dashboard, the
    total of the summary, the total of the listing of reasons, the counts
    of that listing added up, the counts of the breakdown by order type
    added up, and the daily counts of the trend added up are one number,
    the size of the filtered view; the counts of the breakdown by user add
    up to at most that number. *)
Theorem endpoints_agree_on_total (CATEGORY_CHOICES TYPE_CHOICES : list (string * string))
    (to_pk : string -> option nat) (TruncDate : Z -> Z) (strftime : Z -> string)
    (db : DB) (users : list User.t) (now : Z) (user_branch : option nat)
    (GET : list (string * string)) (view : list Order.t) :
  NoDup (map Order.id (Order_objects db)) ->
  filtered_delayed_orders to_pk db user_branch
    (_get_start_date_from_period now (GET_get GET "period" "30days"))
    (GET_get GET "category" "") (GET_get GET "user" "") (GET_get GET "order_type" "")
  = Some view ->
  exists context summary listing by_type trends by_user,
    delay_analytics_dashboard to_pk db now user_branch GET = Some context
    /\ api_delay_analytics_summary to_pk db now user_branch GET = Some summary
    /\ api_all_delay_reasons CATEGORY_CHOICES to_pk db now user_branch GET = Some listing
    /\ api_delay_by_order_type to_pk TYPE_CHOICES db now user_branch GET = Some by_type
    /\ api_delay_trends to_pk TruncDate strftime db now user_branch GET = Some trends
    /\ api_delay_by_user to_pk db users now user_branch GET = Some by_user
    /\ Dashboard.total_delayed_orders context = List.length view
    /\ Summary.total_delayed_orders summary = List.length view
    /\ AllReasons.total listing = List.length view
    /\ list_sum (map AllReasons.count (AllReasons.data listing)) = List.length view
    /\ list_sum (map ByType.count (ByType.data by_type)) = List.length view
    /\ list_sum (map Trends.delayed_count (Trends.data trends)) = List.length view
    /\ list_sum (map ByUser.delay_count (ByUser.data by_user)) <= List.length view.
Proof.
  intros Hnd Hview.
  pose proof (filtered_delayed_orders_NoDup to_pk db _ _ _ _ _ view Hnd Hview) as Hview_nd.
  destruct (delay_analytics_dashboard to_pk db now user_branch GET) as [context |] eqn:Ec.
  2:{ unfold delay_analytics_dashboard in Ec. rewrite Hview in Ec. discriminate Ec. }
  destruct (api_delay_analytics_summary to_pk db now user_branch GET) as [summary |] eqn:Es.
  2:{ unfold api_delay_analytics_summary in Es. rewrite Hview in Es.
      destruct (fold_left summary_duration_step _ _). discriminate Es. }
  destruct (api_all_delay_reasons CATEGORY_CHOICES to_pk db now user_branch GET)
    as [listing |] eqn:El.
  2:{ unfold api_all_delay_reasons in El. rewrite Hview in El.
      destruct (Nat.eqb (List.length view) 0); discriminate El. }
  destruct (api_delay_by_order_type to_pk TYPE_CHOICES db now user_branch GET)
    as [by_type |] eqn:Et.
  2:{ unfold api_delay_by_order_type in Et. rewrite Hview in Et. discriminate Et. }
  destruct (api_delay_trends to_pk TruncDate strftime db now user_branch GET)
    as [trends |] eqn:Ed.
  2:{ unfold api_delay_trends in Ed. rewrite Hview in Ed. discriminate Ed. }
  destruct (api_delay_by_user to_pk db users now user_branch GET) as [by_user |] eqn:Eu.
  2:{ apply by_user_raises in Eu.
      apply (filtered_delayed_orders_raises to_pk db user_branch
               (_get_start_date_from_period now (GET_get GET "period" "30days"))
               (GET_get GET "category" "") (GET_get GET "user" "")
               (GET_get GET "order_type" "")) in Eu.
      rewrite Hview in Eu. discriminate Eu. }
  exists context, summary, listing, by_type, trends, by_user.
  repeat (split; [reflexivity |]).
  split; [| split; [| split; [| split; [| split; [| split]]]]].
  - unfold delay_analytics_dashboard in Ec. rewrite Hview in Ec.
    injection Ec as <-. reflexivity.
  - destruct (summary_fields to_pk db now user_branch GET summary Es)
      as (_ & [view' [Hview' ->]] & _).
    rewrite Hview in Hview'. injection Hview' as <-. now rewrite distinct_id.
  - unfold api_all_delay_reasons in El. rewrite Hview in El.
    destruct (Nat.eqb_spec (List.length view) 0) as [E | E]; injection El as <-;
      cbn [AllReasons.total]; congruence.
  - unfold api_all_delay_reasons in El. rewrite Hview in El.
    destruct (Nat.eqb_spec (List.length view) 0) as [E | E]; injection El as <-;
      cbn [AllReasons.data]; [now rewrite E |].
    rewrite map_map. cbn [AllReasons.count].
    rewrite (list_sum_perm _ (map snd (QS.values_count all_reasons_key_eqb all_reasons_key
                                         view)));
      [| apply Permutation_map, sort_perm].
    now apply (values_count_sum all_reasons_key_eqb all_reasons_key all_reasons_key_eqb_eq).
  - unfold api_delay_by_order_type in Et. rewrite Hview in Et. injection Et as <-.
    cbn [ByType.data]. rewrite map_map. cbn [ByType.count].
    rewrite (list_sum_perm _ (map snd (QS.values_count String.eqb Order.type view)));
      [| apply Permutation_map, sort_perm].
    now apply (values_count_sum String.eqb Order.type String.eqb_eq).
  - unfold api_delay_trends in Ed. rewrite Hview in Ed. injection Ed as <-.
    cbn [Trends.data]. rewrite map_map. unfold trends_row. cbn [Trends.delayed_count].
    rewrite (list_sum_perm _ (map (fun item => fst (snd item)) (daily_counts TruncDate view)));
      [| apply Permutation_map, sort_perm].
    now apply daily_counts_sum.
  - rewrite (by_user_orders to_pk db users now user_branch GET view by_user Hview Eu).
    rewrite map_map. cbn [ByUser.delay_count].
    set (reported := filter (fun o => QS.notnull (Order.delay_reason_reported_by o)) view).
    rewrite (list_sum_perm _ (map (fun g => QS.count_distinct_id (snd g))
                                (QS.group_by reporter_key_eqb (reporter_key users)
                                   reported)));
      [| apply Permutation_map, sort_perm].
    apply Nat.le_trans with (List.length reported); [| apply filter_length_le].
    rewrite <- (group_by_sizes reporter_key_eqb (reporter_key users) reporter_key_eqb_eq
                  reported).
    apply Nat.eq_le_incl. f_equal. apply map_ext_in. intros g Hg.
    apply (group_by_In reporter_key_eqb (reporter_key users) reporter_key_eqb_eq) in Hg.
    destruct Hg as [_ ->]. apply count_distinct_id_length.
    unfold reported. now repeat apply NoDup_map_filter.
Qed.

Lemma endpoints_agree_on_total_witness :
  exists context summary listing,
    delay_analytics_dashboard Sample.to_pk Sample2.week Sample.now (Some 1) [] = Some context
    /\ api_delay_analytics_summary Sample.to_pk Sample2.week Sample.now (Some 1) []
       = Some summary
    /\ api_all_delay_reasons Sample.CATEGORY_CHOICES Sample.to_pk Sample2.week Sample.now
         (Some 1) [] = Some listing
    /\ Dashboard.total_delayed_orders context = 4
    /\ Summary.total_delayed_orders summary = 4
    /\ AllReasons.total listing = 4.
Proof.
  destruct (filtered_delayed_orders Sample.to_pk Sample2.week (Some 1)
              (_get_start_date_from_period Sample.now (GET_get [] "period" "30days"))
              (GET_get [] "category" "") (GET_get [] "user" "") (GET_get [] "order_type" ""))
    as [view |] eqn:Ev; [| vm_compute in Ev; discriminate Ev].
  destruct (endpoints_agree_on_total Sample.CATEGORY_CHOICES Sample2.TYPE_CHOICES
              Sample.to_pk Sample.TruncDate Sample2.strftime Sample2.week Sample2.users
              Sample.now (Some 1) [] view sample_week_ids Ev)
    as (context & summary & listing & _ & _ & _
        & Hc & Hs & Hl & _ & _ & _ & Hdash & Hsum & Htotal & _).
  exists context, summary, listing.
  vm_compute in Ev. injection Ev as <-.
  repeat split; assumption.
Defined.

(** ** [api_delay_reasons_breakdown]: the entries *)

(** X22.  Every entry of the category breakdown counts at least one order
    and no more than the total; its percentage lies between 0 and 100; and
    the total is 0 exactly when the breakdown has no entry. *)
Theorem breakdown_entry_bounds (CATEGORY_CHOICES : list (string * string))
    (to_pk : string -> option nat) (db : DB) (now : Z) (user_branch : option nat)
    (GET : list (string * string)) (response : Breakdown.response) :
  api_delay_reasons_breakdown CATEGORY_CHOICES to_pk db now user_branch GET = Some response ->
  (forall item, In item (Breakdown.data response) ->
     1 <= Breakdown.count item
     /\ Breakdown.count item <= Breakdown.total response
     /\ (0 <= Breakdown.percentage item)%Q
     /\ (Breakdown.percentage item <= 100)%Q)
  /\ (Breakdown.total response = 0 <-> Breakdown.data response = []).
Proof.
  unfold api_delay_reasons_breakdown.
  destruct (breakdown_categories_qs _ _ _ _ _ _ _) as [categories_qs |] eqn:Ecqs;
    [| discriminate].
  pose proof (breakdown_orders_count_total to_pk db user_branch _ _ _ _ _ Ecqs) as Htotal.
  destruct (breakdown_loop CATEGORY_CHOICES to_pk db user_branch _ _ _
              (QS.distinct DelayReasonCategory.id categories_qs) [] Htotal)
    as [entries (Hfold & Hpos & _)].
  rewrite Hfold. cbn [app]. intros [= <-]. cbn [Breakdown.data Breakdown.total].
  set (sorted := Py.sort_by_key_reverse Breakdown.entry_count entries).
  assert (Hsorted : forall e, In e sorted -> 0 < Breakdown.entry_count e).
  { intros e He. apply Hpos. unfold sorted, Py.sort_by_key_reverse in He.
    now apply (Permutation_in _ (sort_perm _ entries)) in He. }
  set (total := list_sum (map Breakdown.entry_count sorted)).
  split.
  - intros item Hitem. apply in_map_iff in Hitem. destruct Hitem as [e [<- He]].
    cbn [Breakdown.count Breakdown.percentage].
    pose proof (Hsorted e He) as Hcount.
    assert (Hle : Breakdown.entry_count e <= total).
    { apply list_sum_In. now apply in_map. }
    split; [lia |]. split; [exact Hle |].
    destruct (Nat.ltb_spec 0 total) as [Htot | Htot]; [| lia].
    split.
    + apply round_nonneg. apply Qmult_le_0_compat; [now apply truediv_nonneg | discriminate].
    + change 100%Q with (inject_Z 100). apply round_le. now apply truediv_percent_le.
  - split.
    + intros Hzero. destruct sorted as [| e rest] eqn:E; [reflexivity | exfalso].
      pose proof (Hsorted e (or_introl eq_refl)) as Hcount.
      unfold total in Hzero. simpl in Hzero. lia.
    + intros Hempty. apply map_eq_nil in Hempty. unfold total. now rewrite Hempty.
Qed.

Lemma breakdown_entry_bounds_witness :
  exists response,
    api_delay_reasons_breakdown Sample.CATEGORY_CHOICES Sample.to_pk Sample.scenario_A
      Sample.now (Some 1) [] = Some response
    /\ map Breakdown.count (Breakdown.data response) = [ 7; 3 ]
    /\ forall item, In item (Breakdown.data response) ->
         (0 <= Breakdown.percentage item)%Q /\ (Breakdown.percentage item <= 100)%Q.
Proof.
  pose proof (breakdown_entry_bounds Sample.CATEGORY_CHOICES Sample.to_pk Sample.scenario_A
                Sample.now (Some 1) []) as H.
  destruct (api_delay_reasons_breakdown Sample.CATEGORY_CHOICES Sample.to_pk
              Sample.scenario_A Sample.now (Some 1) []) as [response |] eqn:E;
    [| vm_compute in E; discriminate E].
  exists response. split; [reflexivity |].
  destruct (H response eq_refl) as [Hitems _].
  split.
  - vm_compute in E. injection E as <-. reflexivity.
  - intros item Hitem. destruct (Hitems item Hitem) as (_ & _ & Hlow & Hhigh). now split.
Defined.
